(** * Library management backend: loan lifecycle, user deletion cascade
      and notification updates

    A shallow embedding of the request handlers of
    [backend/src/controllers/loans.controller.ts], of [deleteUser] from the
    users controller and of
    [backend/src/controllers/notifications.controller.ts].

    The document database is a record of collections; a collection is the
    list of its documents in natural (insertion) order.  A handler is a
    function from the database to a response and the database it leaves
    behind.  Writes are not transactional: an exception raised in the middle
    of a handler keeps the writes already made.

    The handlers are [async] functions, so each is given a second time as a
    task that stops at every [await]; a server runs the tasks of several
    requests in turns.  A task served alone is its handler function
    ([task_alone]); what is stated of a single handler run below is stated
    of such a run. *)

From Stdlib Require Import String Ascii DecimalString ZArith Lia Bool.
From Stdlib Require Import PeanoNat List Permutation Sorted.
Import ListNotations.
Open Scope string_scope.
Open Scope list_scope.

Set Implicit Arguments.

(** ** The JavaScript runtime *)

(** What the handlers use of the platform: [Date] parsing and printing, and
    the regular-expression match of the database's [$regex] operator.  The
    results below hold for every implementation of this interface. *)
Class JsRuntime := {
  (** [new Date(s).getTime()]; [None] is [NaN], an invalid date *)
  Date_parse : string -> option Z;
  (** [d.toISOString()] of a valid date *)
  toISOString : Z -> string;
  (** [d.toLocaleDateString()] of a valid date *)
  toLocaleDateString : Z -> string;
  (** [{ $regex: pattern, $options: "i" }] applied to a string *)
  regex_i : string -> string -> bool
}.

(** The values a handler run reads from outside: the [k]-th evaluation of
    [new Date()] and the result of the [k]-th call of [generateId()]. *)
Record Oracle := {
  newDate : nat -> Z;
  generateId : nat -> string
}.

(** [new Date(x) < now]: a comparison of time values, false on [NaN]. *)
Definition date_lt (d : option Z) (now : Z) : bool :=
  match d with
  | Some t => (t <? now)%Z
  | None => false
  end.

(** Truthiness of a [string | null] field. *)
Definition truthy (v : option string) : bool :=
  match v with
  | Some s => negb (s =? "")
  | None => false
  end.

Definition dquote : string := String "034"%char EmptyString.

(** ** Numbers *)

(** A JavaScript number is an IEEE 754 double.  The numbers this program
    computes with are counts, integers: an integer of magnitude up to 2^53
    is a double, beyond that only every second, then every fourth integer
    is.  [round n] is the double nearest to the integer [n], a tie going to
    the even significand, for [n] within the range of the finite doubles;
    [add] is [+] on integer-valued numbers: the exact sum, rounded. *)
Module JsNumber.
Definition round (n : Z) : Z :=
  if (Z.abs n <=? 2 ^ 53)%Z then n
  else
    let ulp := (2 ^ (Z.log2 (Z.abs n) - 52))%Z in
    let q := (Z.abs n / ulp)%Z in
    let r := (Z.abs n mod ulp)%Z in
    let q' :=
      if (2 * r <? ulp)%Z then q
      else if (ulp <? 2 * r)%Z then (q + 1)%Z
      else if Z.even q then q else (q + 1)%Z in
    (Z.sgn n * (q' * ulp))%Z.

Definition add (x y : Z) : Z := round (x + y).
End JsNumber.

(** ** Documents *)

Module Role.
Inductive t := USER | STAFF | ADMIN.
Definition eqb (a b : t) : bool :=
    match a, b with
    | USER, USER | STAFF, STAFF | ADMIN, ADMIN => true
    | _, _ => false
    end.
End Role.

Module UserStatus.
Inductive t := ACTIVE | BLOCKED.
End UserStatus.

Module CopyStatus.
Inductive t := AVAILABLE | BORROWED | MAINTENANCE.
Definition eqb (a b : t) : bool :=
    match a, b with
    | AVAILABLE, AVAILABLE | BORROWED, BORROWED
    | MAINTENANCE, MAINTENANCE => true
    | _, _ => false
    end.
End CopyStatus.

Module LoanStatus.
Inductive t := BORROWED | RETURNED | OVERDUE.
Definition eqb (a b : t) : bool :=
    match a, b with
    | BORROWED, BORROWED | RETURNED, RETURNED | OVERDUE, OVERDUE => true
    | _, _ => false
    end.
End LoanStatus.

Module User.
Record t := {
    _id : string;
    name : string;
    email : string;
    passwordHash : string;
    studentId : option string;
    role : Role.t;
    status : UserStatus.t;
    needsPasswordReset : bool;
    createdAt : string;
    updatedAt : string
  }.
End User.

(** A user document after [$project: { "user.passwordHash": 0 }]. *)
Module PublicUser.
Record t := {
    _id : string;
    name : string;
    email : string;
    studentId : option string;
    role : Role.t;
    status : UserStatus.t;
    needsPasswordReset : bool;
    createdAt : string;
    updatedAt : string
  }.
Definition project (u : User.t) : t :=
    {| _id := User._id u; name := User.name u; email := User.email u;
       studentId := User.studentId u; role := User.role u;
       status := User.status u;
       needsPasswordReset := User.needsPasswordReset u;
       createdAt := User.createdAt u; updatedAt := User.updatedAt u |}.
End PublicUser.

Module Book.
Record t := {
    _id : string;
    title : string;
    author : string;
    ISBN : string;
    description : option string;
    category : string;
    publicationYear : option Z;
    shelfLocation : option string;
    isActive : bool;
    imageUrl : option string;
    createdAt : string;
    updatedAt : string
  }.
End Book.

Module BookCopy.
Record t := {
    _id : string;
    bookId : string;
    copyCode : string;
    status : CopyStatus.t;
    createdAt : string;
    updatedAt : string
  }.
  (** [$set: { status, updatedAt }] *)
Definition set_status (s : CopyStatus.t) (at_ : string) (c : t) : t :=
    {| _id := _id c; bookId := bookId c; copyCode := copyCode c;
       status := s; createdAt := createdAt c; updatedAt := at_ |}.
End BookCopy.

Module Loan.
Record t := {
    _id : string;
    userId : string;
    bookId : string;
    copyId : string;
    borrowDate : string;
    dueDate : string;
    returnDate : option string;
    status : LoanStatus.t;
    reminderSent : bool;
    (** a JavaScript number holding a count, an integer-valued double;
        absent on a new loan *)
    reminderCount : option Z;
    lastReminderAt : option string;
    createdAt : string;
    updatedAt : string
  }.
  (** [loan.status = s], the assignment of the lifecycle evaluator *)
Definition set_status (s : LoanStatus.t) (l : t) : t :=
    {| _id := _id l; userId := userId l; bookId := bookId l;
       copyId := copyId l; borrowDate := borrowDate l; dueDate := dueDate l;
       returnDate := returnDate l; status := s;
       reminderSent := reminderSent l; reminderCount := reminderCount l;
       lastReminderAt := lastReminderAt l; createdAt := createdAt l;
       updatedAt := updatedAt l |}.
  (** [$set: { returnDate, status: "RETURNED", updatedAt }] *)
Definition set_returned (returned at_ : string) (l : t) : t :=
    {| _id := _id l; userId := userId l; bookId := bookId l;
       copyId := copyId l; borrowDate := borrowDate l; dueDate := dueDate l;
       returnDate := Some returned; status := LoanStatus.RETURNED;
       reminderSent := reminderSent l; reminderCount := reminderCount l;
       lastReminderAt := lastReminderAt l; createdAt := createdAt l;
       updatedAt := at_ |}.
  (** [$set: { reminderSent: true, reminderCount, lastReminderAt,
      updatedAt }] *)
Definition set_reminded (count : Z) (last at_ : string) (l : t) : t :=
    {| _id := _id l; userId := userId l; bookId := bookId l;
       copyId := copyId l; borrowDate := borrowDate l; dueDate := dueDate l;
       returnDate := returnDate l; status := status l;
       reminderSent := true; reminderCount := Some count;
       lastReminderAt := Some last; createdAt := createdAt l;
       updatedAt := at_ |}.
End Loan.

Module Notification.
Record t := {
    _id : string;
    userId : string;
    loanId : option string;
    bookId : option string;
    type : string;
    title : string;
    message : string;
    bookTitle : option string;
    bookAuthor : option string;
    dueDate : option string;
    isRead : bool;
    createdAt : string
  }.
  (** [$set: { isRead: true }] *)
Definition set_isRead (b : bool) (n : t) : t :=
    {| _id := _id n; userId := userId n; loanId := loanId n;
       bookId := bookId n; type := type n; title := title n;
       message := message n; bookTitle := bookTitle n;
       bookAuthor := bookAuthor n; dueDate := dueDate n;
       isRead := b; createdAt := createdAt n |}.
End Notification.

(** A loan joined with its book, copy and user: the documents produced by
    the [$lookup]/[$unwind] pipeline of the loan listings. *)
Module LoanWithRelations.
Record t := {
    loan : Loan.t;
    book : Book.t;
    copy : BookCopy.t;
    user : PublicUser.t
  }.
Definition set_loan (l : Loan.t) (r : t) : t :=
    {| loan := l; book := book r; copy := copy r; user := user r |}.
End LoanWithRelations.

(** ** Collections *)

(** Every document carries a string [_id]; a collection holds at most one
    document per [_id]. *)
Class Document (A : Type) := doc_id : A -> string.

#[global] Instance User_Document : Document User.t := User._id.
#[global] Instance Book_Document : Document Book.t := Book._id.
#[global] Instance BookCopy_Document : Document BookCopy.t := BookCopy._id.
#[global] Instance Loan_Document : Document Loan.t := Loan._id.
#[global] Instance Notification_Document : Document Notification.t :=
  Notification._id.

(** The driver's operations on the list of documents of one collection. *)
Module Docs.
Section Ops.
Context {A : Type}.

Definition findOne (q : A -> bool) (c : list A) : option A := find q c.

Definition countDocuments (q : A -> bool) (c : list A) : nat :=
      length (filter q c).

    (** The first match is updated, the other documents are left alone. *)
Fixpoint updateOne (q : A -> bool) (set : A -> A) (c : list A) : list A :=
      match c with
      | [] => []
      | d :: c' => if q d then set d :: c' else d :: updateOne q set c'
      end.

Definition updateMany (q : A -> bool) (set : A -> A) (c : list A)
      : list A :=
      map (fun d => if q d then set d else d) c.

Definition deleteMany (q : A -> bool) (c : list A) : list A :=
      filter (fun d => negb (q d)) c.

Fixpoint deleteOne (q : A -> bool) (c : list A) : list A :=
      match c with
      | [] => []
      | d :: c' => if q d then c' else d :: deleteOne q c'
      end.

    (** [None] is the duplicate-key error of the unique [_id] index. *)
Definition insertOne `{Document A} (d : A) (c : list A)
      : option (list A) :=
      if existsb (fun x => doc_id x =? doc_id d) c then None
      else Some (c ++ [d]).
End Ops.
End Docs.

Module Db.
Record t := {
    users : list User.t;
    books : list Book.t;
    bookCopies : list BookCopy.t;
    loans : list Loan.t;
    notifications : list Notification.t
  }.
Definition set_users (v : list User.t) (db : t) : t :=
    {| users := v; books := books db; bookCopies := bookCopies db;
       loans := loans db; notifications := notifications db |}.
Definition set_books (v : list Book.t) (db : t) : t :=
    {| users := users db; books := v; bookCopies := bookCopies db;
       loans := loans db; notifications := notifications db |}.
Definition set_bookCopies (v : list BookCopy.t) (db : t) : t :=
    {| users := users db; books := books db; bookCopies := v;
       loans := loans db; notifications := notifications db |}.
Definition set_loans (v : list Loan.t) (db : t) : t :=
    {| users := users db; books := books db; bookCopies := bookCopies db;
       loans := v; notifications := notifications db |}.
Definition set_notifications (v : list Notification.t) (db : t) : t :=
    {| users := users db; books := books db; bookCopies := bookCopies db;
       loans := loans db; notifications := v |}.
End Db.

(** [db.collection(name)]: how to read and replace one collection. *)
Record Collection (A : Type) := {
  docs : Db.t -> list A;
  store : list A -> Db.t -> Db.t
}.

Definition users : Collection User.t :=
  {| docs := Db.users; store := Db.set_users |}.
Definition books : Collection Book.t :=
  {| docs := Db.books; store := Db.set_books |}.
Definition copies : Collection BookCopy.t :=
  {| docs := Db.bookCopies; store := Db.set_bookCopies |}.
Definition loans : Collection Loan.t :=
  {| docs := Db.loans; store := Db.set_loans |}.
Definition notifications : Collection Notification.t :=
  {| docs := Db.notifications; store := Db.set_notifications |}.

(** ** Handler computations *)

(** A computation either returns or throws; in both cases it hands on the
    database with the writes made so far. *)
Inductive result (A : Type) :=
| Ok (a : A)
| Throw (message : string).
Arguments Throw {A} message.

Definition M (A : Type) : Type := Db.t -> result A * Db.t.

Definition ret {A} (a : A) : M A := fun db => (Ok a, db).

Definition throw {A} (message : string) : M A := fun db => (Throw message, db).

Definition bind {A B} (m : M A) (k : A -> M B) : M B :=
  fun db =>
    match m db with
    | (Ok a, db') => k a db'
    | (Throw e, db') => (Throw e, db')
    end.

Notation "x <- m ;; k" := (bind m (fun x => k))
  (at level 61, m at next level, right associativity).
Notation "m ;;; k" := (bind m (fun _ => k))
  (at level 61, right associativity).

Section Driver.
Context {A : Type}.

Definition findOne (c : Collection A) (q : A -> bool) : M (option A) :=
    fun db => (Ok (Docs.findOne q (docs c db)), db).

  (** [c.find(q).toArray()] *)
Definition findAll (c : Collection A) (q : A -> bool) : M (list A) :=
    fun db => (Ok (filter q (docs c db)), db).

Definition countDocuments (c : Collection A) (q : A -> bool) : M nat :=
    fun db => (Ok (Docs.countDocuments q (docs c db)), db).

Definition updateOne (c : Collection A) (q : A -> bool) (set : A -> A)
    : M unit :=
    fun db => (Ok tt, store c (Docs.updateOne q set (docs c db)) db).

Definition updateMany (c : Collection A) (q : A -> bool) (set : A -> A)
    : M unit :=
    fun db => (Ok tt, store c (Docs.updateMany q set (docs c db)) db).

  (** With [returnDocument: "after"]: the updated document, or [null]. *)
Definition findOneAndUpdate (c : Collection A) (q : A -> bool)
      (set : A -> A) : M (option A) :=
    fun db =>
      match Docs.findOne q (docs c db) with
      | Some d => (Ok (Some (set d)),
                   store c (Docs.updateOne q set (docs c db)) db)
      | None => (Ok None, db)
      end.

Definition deleteMany (c : Collection A) (q : A -> bool) : M unit :=
    fun db => (Ok tt, store c (Docs.deleteMany q (docs c db)) db).

Definition deleteOne (c : Collection A) (q : A -> bool) : M unit :=
    fun db => (Ok tt, store c (Docs.deleteOne q (docs c db)) db).

Definition insertOne `{Document A} (c : Collection A) (d : A) : M unit :=
    fun db =>
      match Docs.insertOne d (docs c db) with
      | Some c' => (Ok tt, store c c' db)
      | None => (Throw "E11000 duplicate key error collection", db)
      end.

  (** [for (const x of xs) { await body(x) }], the body told its turn. *)
Fixpoint forOf (xs : list A) (k : nat) (body : nat -> A -> M unit)
    : M unit :=
    match xs with
    | [] => ret tt
    | x :: xs' => body k x ;;; forOf xs' (S k) body
    end.
End Driver.


(** ** Responses *)

Inductive Json :=
| JMessage (message : string)
| JError (message error : string)
| JLoans (results : list LoanWithRelations.t)
| JLoan (enriched0 : option LoanWithRelations.t)
| JStats (activeBooks totalUsers activeLoans overdueLoans : nat)
         (recentLoans : list LoanWithRelations.t)
| JNotifications (results : list Notification.t)
| JCount (count : nat).

Module Response.
Record t := {
  status : nat;
  body : option Json
}.
End Response.

(** [res.status(code).json(j)] and [res.status(code).send()] *)
Definition json (code : nat) (j : Json) : Response.t :=
  {| Response.status := code; Response.body := Some j |}.
Definition send (code : nat) : Response.t :=
  {| Response.status := code; Response.body := None |}.

Definition Handler : Type := Db.t -> Response.t * Db.t.

(** [try { body } catch (error) { res.status(500).json(...) }] *)
Definition try_catch (message : string) (body : M Response.t) : Handler :=
  fun db =>
    match body db with
    | (Ok r, db') => (r, db')
    | (Throw e, db') => (json 500 (JError message e), db')
    end.

(** The token payload the authentication middleware leaves in [req.user]. *)
Record JwtPayload := {
  userId : string;
  email : string;
  role : string
}.

(** ** Loan lifecycle evaluator *)

(** What [enrichLoansWithStatus] touches of the documents it is given. *)
Class LoanLike (A : Type) := {
  get_returnDate : A -> option string;
  get_dueDate : A -> string;
  put_status : LoanStatus.t -> A -> A
}.

#[global] Instance Loan_LoanLike : LoanLike Loan.t := {|
  get_returnDate := Loan.returnDate;
  get_dueDate := Loan.dueDate;
  put_status := Loan.set_status
|}.

#[global] Instance LoanWithRelations_LoanLike
  : LoanLike LoanWithRelations.t := {|
  get_returnDate := fun r => Loan.returnDate (LoanWithRelations.loan r);
  get_dueDate := fun r => Loan.dueDate (LoanWithRelations.loan r);
  put_status := fun s r =>
    LoanWithRelations.set_loan
      (Loan.set_status s (LoanWithRelations.loan r)) r
|}.

(** [now] is the [new Date()] the function reads on entry. *)
Definition enrichLoansWithStatus `{JsRuntime} {A} `{LoanLike A}
    (now : Z) (loans : list A) : list A :=
  map (fun loan =>
         if truthy (get_returnDate loan) then loan
         else if date_lt (Date_parse (get_dueDate loan)) now
              then put_status LoanStatus.OVERDUE loan
              else put_status LoanStatus.BORROWED loan)
      loans.

(** ** Aggregation pipeline of the loan listings *)

(** The three [$lookup] stages followed by the three [$unwind] stages and
    the projection: one result per matching book, copy and user. *)
Definition lookupUnwind (db : Db.t) (l : Loan.t) : list LoanWithRelations.t :=
  flat_map (fun b =>
    flat_map (fun c =>
      map (fun u =>
             {| LoanWithRelations.loan := l;
                LoanWithRelations.book := b;
                LoanWithRelations.copy := c;
                LoanWithRelations.user := PublicUser.project u |})
          (filter (fun u => User._id u =? Loan.userId l) (Db.users db)))
      (filter (fun c => BookCopy._id c =? Loan.copyId l) (Db.bookCopies db)))
    (filter (fun b => Book._id b =? Loan.bookId l) (Db.books db)).

(** [loans.aggregate([stage, $lookup..., $unwind..., $project]).toArray()] *)
Definition aggregate (stage : list Loan.t -> list Loan.t)
  : M (list LoanWithRelations.t) :=
  fun db => (Ok (flat_map (lookupUnwind db) (stage (Db.loans db))), db).

(** [$sort: { key: -1 }] on a string field: descending, ties in their
    original order. *)
Fixpoint insertDesc {A} (key : A -> string) (x : A) (l : list A) : list A :=
  match l with
  | [] => [x]
  | y :: l' =>
      if String.ltb (key x) (key y) then y :: insertDesc key x l'
      else x :: l
  end.

Definition sortDesc {A} (key : A -> string) (l : list A) : list A :=
  fold_right (insertDesc key) [] l.

(** ** Loans controller *)

Section Handlers.
Context `{JsRuntime}.

Definition getLoansForUser (userId_ : string) (user : option JwtPayload)
    (o : Oracle) : Handler :=
  try_catch "Failed to get loans" (
    match user with
    | None => ret (json 401 (JMessage "Not authenticated"))
    | Some user =>
        let isOwnLoans := userId user =? userId_ in
        let isAdminOrStaff :=
          (role user =? "ADMIN") || (role user =? "STAFF") in
        if negb isOwnLoans && negb isAdminOrStaff then
          ret (json 403 (JMessage "You can only view your own loans"))
        else
          results <- aggregate (filter (fun l => Loan.userId l =? userId_)) ;;
          ret (json 200 (JLoans (enrichLoansWithStatus (newDate o 0) results)))
    end).

Definition getAdminLoans (o : Oracle) : Handler :=
  try_catch "Failed to get loans" (
    results <- aggregate (fun ls => ls) ;;
    ret (json 200 (JLoans (enrichLoansWithStatus (newDate o 0) results)))).

(** The message of the [LOAN_CREATED] notification. *)
Definition loanCreatedMessage (book : Book.t) (due : Z) : string :=
  ("You have borrowed " ++ dquote ++ Book.title book ++ dquote ++ " by "
   ++ Book.author book ++ ". Please return it by "
   ++ toLocaleDateString due ++ ".")%string.

Definition createLoan (userId_ bookId_ dueDate_ : string) (o : Oracle)
  : Handler :=
  try_catch "Failed to create loan" (
    availableCopy <-
      findOneAndUpdate copies
        (fun c => (BookCopy.bookId c =? bookId_)
                  && CopyStatus.eqb (BookCopy.status c) CopyStatus.AVAILABLE)
        (BookCopy.set_status CopyStatus.BORROWED
           (toISOString (newDate o 0))) ;;
    match availableCopy with
    | None => ret (json 400 (JMessage "No copies available for this book"))
    | Some availableCopy =>
        book <- findOne books (fun b => Book._id b =? bookId_) ;;
        let now := newDate o 1 in
        (* [new Date(dueDate).toISOString()] throws on an invalid date *)
        due <- match Date_parse dueDate_ with
               | Some t => ret t
               | None => throw "Invalid time value"
               end ;;
        let newLoan :=
          {| Loan._id := generateId o 0;
             Loan.userId := userId_;
             Loan.bookId := bookId_;
             Loan.copyId := BookCopy._id availableCopy;
             Loan.borrowDate := toISOString now;
             Loan.dueDate := toISOString due;
             Loan.returnDate := None;
             Loan.status := LoanStatus.BORROWED;
             Loan.reminderSent := false;
             Loan.reminderCount := None;
             Loan.lastReminderAt := None;
             Loan.createdAt := toISOString now;
             Loan.updatedAt := toISOString now |} in
        insertOne loans newLoan ;;;
        match book with
        | Some book =>
            insertOne notifications
              {| Notification._id := generateId o 1;
                 Notification.userId := userId_;
                 Notification.loanId := Some (Loan._id newLoan);
                 Notification.bookId := Some bookId_;
                 Notification.type := "LOAN_CREATED";
                 Notification.title := "Book Borrowed Successfully";
                 Notification.message := loanCreatedMessage book due;
                 Notification.bookTitle := Some (Book.title book);
                 Notification.bookAuthor := Some (Book.author book);
                 Notification.dueDate := Some (toISOString due);
                 Notification.isRead := false;
                 Notification.createdAt := toISOString now |}
        | None => ret tt
        end ;;;
        enriched <-
          aggregate (filter (fun l => Loan._id l =? Loan._id newLoan)) ;;
        ret (json 201 (JLoan (hd_error enriched)))
    end).

Definition returnLoan (id : string) (o : Oracle) : Handler :=
  try_catch "Failed to return loan" (
    loan <- findOne loans (fun l => Loan._id l =? id) ;;
    match loan with
    | None => ret (json 404 (JMessage "Loan not found"))
    | Some loan =>
        match Loan.returnDate loan with
        | Some _ => ret (json 400 (JMessage "Loan already returned"))
        | None =>
            updateOne loans (fun l => Loan._id l =? id)
              (Loan.set_returned (toISOString (newDate o 0))
                 (toISOString (newDate o 1))) ;;;
            updateOne copies (fun c => BookCopy._id c =? Loan.copyId loan)
              (BookCopy.set_status CopyStatus.AVAILABLE
                 (toISOString (newDate o 2))) ;;;
            ret (send 204)
        end
    end).

(** [loan.returnDate === null && new Date(loan.dueDate) < new Date()] *)
Definition isOverdue (loan : Loan.t) (now : Z) : bool :=
  match Loan.returnDate loan with
  | None => date_lt (Date_parse (Loan.dueDate loan)) now
  | Some _ => false
  end.

(** [loan.reminderCount || 0]: an absent count, like a count of zero, is 0. *)
Definition orZero (v : option Z) : Z :=
  match v with
  | Some n => n
  | None => 0%Z
  end.

(** [new Date(s).toLocaleDateString()] *)
Definition localeDate (s : string) : string :=
  match Date_parse s with
  | Some t => toLocaleDateString t
  | None => "Invalid Date"
  end.

(** The message of the [OVERDUE_REMINDER] notification. *)
Definition reminderMessage (book : Book.t) (loan : Loan.t) : string :=
  ("Please return " ++ dquote ++ Book.title book ++ dquote ++ " by "
   ++ Book.author book ++ ". This book was due on "
   ++ localeDate (Loan.dueDate loan)
   ++ ". Please return it to the library as soon as possible.")%string.

Definition sendOverdueReminder (id : string) (o : Oracle) : Handler :=
  try_catch "Failed to send reminder" (
    loan <- findOne loans (fun l => Loan._id l =? id) ;;
    match loan with
    | None => ret (json 404 (JMessage "Loan not found"))
    | Some loan =>
        if negb (isOverdue loan (newDate o 0)) then
          ret (json 400 (JMessage "Only overdue loans can receive reminders"))
        else
          user <- findOne users (fun u => User._id u =? Loan.userId loan) ;;
          book <- findOne books (fun b => Book._id b =? Loan.bookId loan) ;;
          match user, book with
          | Some user, Some book =>
              insertOne notifications
                {| Notification._id := generateId o 0;
                   Notification.userId := Loan.userId loan;
                   Notification.loanId := Some (Loan._id loan);
                   Notification.bookId := Some (Loan.bookId loan);
                   Notification.type := "OVERDUE_REMINDER";
                   Notification.title := "Book Return Reminder";
                   Notification.message := reminderMessage book loan;
                   Notification.bookTitle := Some (Book.title book);
                   Notification.bookAuthor := Some (Book.author book);
                   Notification.dueDate := Some (Loan.dueDate loan);
                   Notification.isRead := false;
                   Notification.createdAt := toISOString (newDate o 1) |} ;;;
              let currentCount := orZero (Loan.reminderCount loan) in
              updateOne loans (fun l => Loan._id l =? id)
                (Loan.set_reminded (JsNumber.add currentCount 1)
                   (toISOString (newDate o 2))
                   (toISOString (newDate o 3))) ;;;
              ret (send 204)
          | _, _ => ret (json 404 (JMessage "User or book not found"))
          end
    end).

(** The counting loop of the dashboard: active and overdue loans. *)
Fixpoint countLoans (now : Z) (allLoans : list Loan.t)
    (activeLoans overdueLoans : nat) : nat * nat :=
  match allLoans with
  | [] => (activeLoans, overdueLoans)
  | loan :: rest =>
      match Loan.returnDate loan with
      | None =>
          if date_lt (Date_parse (Loan.dueDate loan)) now
          then countLoans now rest activeLoans (S overdueLoans)
          else countLoans now rest (S activeLoans) overdueLoans
      | Some _ => countLoans now rest activeLoans overdueLoans
      end
  end.

Definition getDashboardStats (o : Oracle) : Handler :=
  try_catch "Failed to get stats" (
    activeBooks <- countDocuments books Book.isActive ;;
    totalUsers <- countDocuments users (fun _ => true) ;;
    allLoans <- findAll loans (fun _ => true) ;;
    let now := newDate o 0 in
    let '(activeLoans, overdueLoans) := countLoans now allLoans 0 0 in
    recentLoansData <-
      aggregate (fun ls => firstn 5 (sortDesc Loan.borrowDate ls)) ;;
    ret (json 200 (JStats activeBooks totalUsers activeLoans overdueLoans
                     recentLoansData))).

(** ** Users controller: deletion cascade *)

(** [a === b] where [b] may be [undefined] *)
Definition eqUndef (a : string) (b : option string) : bool :=
  match b with
  | Some b => a =? b
  | None => false
  end.

Definition deleteUser (id : string) (user : option JwtPayload) (o : Oracle)
  : Handler :=
  try_catch "Failed to delete user" (
    let requesterId := option_map userId user in
    let requesterRole := option_map role user in
    targetUser <- findOne users (fun u => User._id u =? id) ;;
    match targetUser with
    | None => ret (json 404 (JMessage "User not found"))
    | Some targetUser =>
        if eqUndef (User._id targetUser) requesterId then
          ret (json 400 (JMessage "You cannot delete your own account"))
        else if Role.eqb (User.role targetUser) Role.ADMIN
                && negb (eqUndef "ADMIN" requesterRole) then
          ret (json 403
                 (JMessage "Only administrators can remove another admin"))
        else if Role.eqb (User.role targetUser) Role.STAFF
                && negb (eqUndef "ADMIN" requesterRole) then
          ret (json 403
                 (JMessage "Only administrators can remove staff members"))
        else
          (* Free any borrowed copies *)
          userLoans <-
            findAll loans
              (fun l => (Loan.userId l =? id)
                        && (LoanStatus.eqb (Loan.status l) LoanStatus.BORROWED
                            || LoanStatus.eqb (Loan.status l)
                                 LoanStatus.OVERDUE)) ;;
          forOf userLoans 0 (fun k loan =>
            updateOne copies (fun c => BookCopy._id c =? Loan.copyId loan)
              (BookCopy.set_status CopyStatus.AVAILABLE
                 (toISOString (newDate o k)))) ;;;
          (* Delete user's loans *)
          deleteMany loans (fun l => Loan.userId l =? id) ;;;
          (* Delete notifications for this user *)
          deleteMany notifications (fun n => Notification.userId n =? id) ;;;
          (* Delete notifications about this user *)
          deleteMany notifications
            (fun n => (Notification.type n =? "PASSWORD_RESET_REQUEST")
                      && regex_i (User.email targetUser)
                           (Notification.message n)) ;;;
          deleteOne users (fun u => User._id u =? id) ;;;
          ret (send 204)
    end).

(** ** Notifications controller *)

Definition getUserNotifications (user : option JwtPayload) : Handler :=
  try_catch "Failed to get notifications" (
    match user with
    | None => ret (json 401 (JMessage "Not authenticated"))
    | Some user =>
        results <-
          findAll notifications
            (fun n => Notification.userId n =? userId user) ;;
        ret (json 200
               (JNotifications (sortDesc Notification.createdAt results)))
    end).

Definition getUnreadCount (user : option JwtPayload) : Handler :=
  try_catch "Failed to get count" (
    match user with
    | None => ret (json 401 (JMessage "Not authenticated"))
    | Some user =>
        count <-
          countDocuments notifications
            (fun n => (Notification.userId n =? userId user)
                      && negb (Notification.isRead n)) ;;
        ret (json 200 (JCount count))
    end).

Definition markAsRead (id : string) (user : option JwtPayload) : Handler :=
  try_catch "Failed to mark as read" (
    match user with
    | None => ret (json 401 (JMessage "Not authenticated"))
    | Some user =>
        updateOne notifications
          (fun n => (Notification._id n =? id)
                    && (Notification.userId n =? userId user))
          (Notification.set_isRead true) ;;;
        ret (send 204)
    end).

Definition markAllAsRead (user : option JwtPayload) : Handler :=
  try_catch "Failed to mark all as read" (
    match user with
    | None => ret (json 401 (JMessage "Not authenticated"))
    | Some user =>
        updateMany notifications
          (fun n => (Notification.userId n =? userId user)
                    && negb (Notification.isRead n))
          (Notification.set_isRead true) ;;;
        ret (send 204)
    end).

Definition deleteNotification (id : string) (user : option JwtPayload)
  : Handler :=
  try_catch "Failed to delete notification" (
    match user with
    | None => ret (json 401 (JMessage "Not authenticated"))
    | Some user =>
        deleteOne notifications
          (fun n => (Notification._id n =? id)
                    && (Notification.userId n =? userId user)) ;;;
        ret (send 204)
    end).

End Handlers.

(** ** The requests of the API *)

Inductive Request :=
| GetLoansForUser (userId_ : string) (user : option JwtPayload)
| GetAdminLoans
| CreateLoan (userId_ bookId_ dueDate_ : string)
| ReturnLoan (id : string)
| SendOverdueReminder (id : string)
| GetDashboardStats
| DeleteUser (id : string) (user : option JwtPayload)
| GetUserNotifications (user : option JwtPayload)
| GetUnreadCount (user : option JwtPayload)
| MarkAsRead (id : string) (user : option JwtPayload)
| MarkAllAsRead (user : option JwtPayload)
| DeleteNotification (id : string) (user : option JwtPayload).

Definition handle `{JsRuntime} (req : Request) (o : Oracle) : Handler :=
  match req with
  | GetLoansForUser u user => getLoansForUser u user o
  | GetAdminLoans => getAdminLoans o
  | CreateLoan u b d => createLoan u b d o
  | ReturnLoan id => returnLoan id o
  | SendOverdueReminder id => sendOverdueReminder id o
  | GetDashboardStats => getDashboardStats o
  | DeleteUser id user => deleteUser id user o
  | GetUserNotifications user => getUserNotifications user
  | GetUnreadCount user => getUnreadCount user
  | MarkAsRead id user => markAsRead id user
  | MarkAllAsRead user => markAllAsRead user
  | DeleteNotification id user => deleteNotification id user
  end.

(** [loans.findOne({ _id: id })] and [copies.findOne({ _id: id })] on a
    database. *)
Definition loanById (id : string) (db : Db.t) : option Loan.t :=
  Docs.findOne (fun l => Loan._id l =? id) (Db.loans db).

Definition copyById (id : string) (db : Db.t) : option BookCopy.t :=
  Docs.findOne (fun c => BookCopy._id c =? id) (Db.bookCopies db).

(** A loan is active while it has not been returned. *)
Definition active (l : Loan.t) : bool :=
  match Loan.returnDate l with
  | None => true
  | Some _ => false
  end.

(** The active loans that reference the copy [copyId_]. *)
Definition activeLoansOf (copyId_ : string) (ls : list Loan.t) : list Loan.t :=
  filter (fun l => active l && (Loan.copyId l =? copyId_)) ls.

(** The empty store. *)
Definition emptyDb : Db.t :=
  {| Db.users := []; Db.books := []; Db.bookCopies := []; Db.loans := [];
     Db.notifications := [] |}.

(** A database before any loan was made: copies are known by their [_id]. *)
Definition initial (db : Db.t) : Prop :=
  Db.loans db = [] /\ NoDup (map BookCopy._id (Db.bookCopies db)).

(** The databases the API reaches from an initial one when it serves one
    request at a time: a step is the whole run of a handler. *)
Inductive reachable `{JsRuntime} : Db.t -> Prop :=
| reachable_initial db : initial db -> reachable db
| reachable_step db req o :
    reachable db -> reachable (snd (handle req o db)).

(** ** Requests in flight *)

(** A handler is an [async] function.  It runs up to its next [await],
    where the database performs the awaited operation, one document or one
    query at a time, and resumes with the result; in between, the server
    runs the handlers of other requests.  A task is what is left of a
    handler: its answer, an exception on its way to the [catch], or the
    operation it awaits.  Performed on [db], the operation of
    [Await next write] leaves the database [write db], and the handler
    resumes as [next db]. *)
Module Task.
Inductive t :=
| Done (r : Response.t)
| Threw (error : string)
| Await (next : Db.t -> t) (write : Db.t -> Db.t).

(** [const a = await op; k(a)] *)
Definition await {A} (op : M A) (k : A -> t) : t :=
  Await (fun db =>
           match fst (op db) with
           | Ok a => k a
           | Throw e => Threw e
           end)
        (fun db => snd (op db)).

(** [try { body } catch (error) { res.status(500).json(...) }] *)
Fixpoint try_catch (message : string) (body : t) : t :=
  match body with
  | Done r => Done r
  | Threw e => Done (json 500 (JError message e))
  | Await next write => Await (fun db => try_catch message (next db)) write
  end.

(** [for (const x of xs) { await body(x) }], followed by [rest]. *)
Fixpoint forOf {A} (xs : list A) (k : nat) (body : nat -> A -> M unit)
    (rest : t) : t :=
  match xs with
  | [] => rest
  | x :: xs' => await (body k x) (fun _ => forOf xs' (S k) body rest)
  end.

(** The run of a task that no other request interrupts. *)
Fixpoint complete (task : t) (db : Db.t) : option Response.t * Db.t :=
  match task with
  | Done r => (Some r, db)
  | Threw _ => (None, db)
  | Await next write => complete (next db) (write db)
  end.
End Task.

Notation "x <~ m ;; k" := (Task.await m (fun x => k))
  (at level 61, m at next level, right associativity).
Notation "m ~;; k" := (Task.await m (fun _ => k))
  (at level 61, right associativity).

(** The handlers once more, with their [await]s. *)
Module Async.
Section Handlers.
Context `{JsRuntime}.

Definition getLoansForUser (userId_ : string) (user : option JwtPayload)
    (o : Oracle) : Task.t :=
  Task.try_catch "Failed to get loans" (
    match user with
    | None => Task.Done (json 401 (JMessage "Not authenticated"))
    | Some user =>
        let isOwnLoans := userId user =? userId_ in
        let isAdminOrStaff :=
          (role user =? "ADMIN") || (role user =? "STAFF") in
        if negb isOwnLoans && negb isAdminOrStaff then
          Task.Done (json 403 (JMessage "You can only view your own loans"))
        else
          results <~ aggregate (filter (fun l => Loan.userId l =? userId_)) ;;
          Task.Done
            (json 200
               (JLoans (enrichLoansWithStatus (newDate o 0) results)))
    end).

Definition getAdminLoans (o : Oracle) : Task.t :=
  Task.try_catch "Failed to get loans" (
    results <~ aggregate (fun ls => ls) ;;
    Task.Done
      (json 200 (JLoans (enrichLoansWithStatus (newDate o 0) results)))).

Definition createLoan (userId_ bookId_ dueDate_ : string) (o : Oracle)
  : Task.t :=
  Task.try_catch "Failed to create loan" (
    availableCopy <~
      findOneAndUpdate copies
        (fun c => (BookCopy.bookId c =? bookId_)
                  && CopyStatus.eqb (BookCopy.status c) CopyStatus.AVAILABLE)
        (BookCopy.set_status CopyStatus.BORROWED
           (toISOString (newDate o 0))) ;;
    match availableCopy with
    | None =>
        Task.Done (json 400 (JMessage "No copies available for this book"))
    | Some availableCopy =>
        book <~ findOne books (fun b => Book._id b =? bookId_) ;;
        let now := newDate o 1 in
        (* [new Date(dueDate).toISOString()] throws on an invalid date *)
        match Date_parse dueDate_ with
        | None => Task.Threw "Invalid time value"
        | Some due =>
            let newLoan :=
              {| Loan._id := generateId o 0;
                 Loan.userId := userId_;
                 Loan.bookId := bookId_;
                 Loan.copyId := BookCopy._id availableCopy;
                 Loan.borrowDate := toISOString now;
                 Loan.dueDate := toISOString due;
                 Loan.returnDate := None;
                 Loan.status := LoanStatus.BORROWED;
                 Loan.reminderSent := false;
                 Loan.reminderCount := None;
                 Loan.lastReminderAt := None;
                 Loan.createdAt := toISOString now;
                 Loan.updatedAt := toISOString now |} in
            let fetch :=
              enriched <~
                aggregate
                  (filter (fun l => Loan._id l =? Loan._id newLoan)) ;;
              Task.Done (json 201 (JLoan (hd_error enriched))) in
            insertOne loans newLoan ~;;
            match book with
            | Some book =>
                insertOne notifications
                  {| Notification._id := generateId o 1;
                     Notification.userId := userId_;
                     Notification.loanId := Some (Loan._id newLoan);
                     Notification.bookId := Some bookId_;
                     Notification.type := "LOAN_CREATED";
                     Notification.title := "Book Borrowed Successfully";
                     Notification.message := loanCreatedMessage book due;
                     Notification.bookTitle := Some (Book.title book);
                     Notification.bookAuthor := Some (Book.author book);
                     Notification.dueDate := Some (toISOString due);
                     Notification.isRead := false;
                     Notification.createdAt := toISOString now |} ~;;
                fetch
            | None => fetch
            end
        end
    end).

Definition returnLoan (id : string) (o : Oracle) : Task.t :=
  Task.try_catch "Failed to return loan" (
    loan <~ findOne loans (fun l => Loan._id l =? id) ;;
    match loan with
    | None => Task.Done (json 404 (JMessage "Loan not found"))
    | Some loan =>
        match Loan.returnDate loan with
        | Some _ => Task.Done (json 400 (JMessage "Loan already returned"))
        | None =>
            updateOne loans (fun l => Loan._id l =? id)
              (Loan.set_returned (toISOString (newDate o 0))
                 (toISOString (newDate o 1))) ~;;
            updateOne copies (fun c => BookCopy._id c =? Loan.copyId loan)
              (BookCopy.set_status CopyStatus.AVAILABLE
                 (toISOString (newDate o 2))) ~;;
            Task.Done (send 204)
        end
    end).

Definition sendOverdueReminder (id : string) (o : Oracle) : Task.t :=
  Task.try_catch "Failed to send reminder" (
    loan <~ findOne loans (fun l => Loan._id l =? id) ;;
    match loan with
    | None => Task.Done (json 404 (JMessage "Loan not found"))
    | Some loan =>
        if negb (isOverdue loan (newDate o 0)) then
          Task.Done
            (json 400 (JMessage "Only overdue loans can receive reminders"))
        else
          user <~ findOne users (fun u => User._id u =? Loan.userId loan) ;;
          book <~ findOne books (fun b => Book._id b =? Loan.bookId loan) ;;
          match user, book with
          | Some user, Some book =>
              insertOne notifications
                {| Notification._id := generateId o 0;
                   Notification.userId := Loan.userId loan;
                   Notification.loanId := Some (Loan._id loan);
                   Notification.bookId := Some (Loan.bookId loan);
                   Notification.type := "OVERDUE_REMINDER";
                   Notification.title := "Book Return Reminder";
                   Notification.message := reminderMessage book loan;
                   Notification.bookTitle := Some (Book.title book);
                   Notification.bookAuthor := Some (Book.author book);
                   Notification.dueDate := Some (Loan.dueDate loan);
                   Notification.isRead := false;
                   Notification.createdAt := toISOString (newDate o 1) |} ~;;
              let currentCount := orZero (Loan.reminderCount loan) in
              updateOne loans (fun l => Loan._id l =? id)
                (Loan.set_reminded (JsNumber.add currentCount 1)
                   (toISOString (newDate o 2))
                   (toISOString (newDate o 3))) ~;;
              Task.Done (send 204)
          | _, _ => Task.Done (json 404 (JMessage "User or book not found"))
          end
    end).

(** The three reads under [Promise.all] are taken in the order they are
    written; they write nothing, so the order in which the database serves
    them does not show in the database. *)
Definition getDashboardStats (o : Oracle) : Task.t :=
  Task.try_catch "Failed to get stats" (
    activeBooks <~ countDocuments books Book.isActive ;;
    totalUsers <~ countDocuments users (fun _ => true) ;;
    allLoans <~ findAll loans (fun _ => true) ;;
    let now := newDate o 0 in
    let '(activeLoans, overdueLoans) := countLoans now allLoans 0 0 in
    recentLoansData <~
      aggregate (fun ls => firstn 5 (sortDesc Loan.borrowDate ls)) ;;
    Task.Done
      (json 200 (JStats activeBooks totalUsers activeLoans overdueLoans
                   recentLoansData))).

Definition deleteUser (id : string) (user : option JwtPayload) (o : Oracle)
  : Task.t :=
  Task.try_catch "Failed to delete user" (
    let requesterId := option_map userId user in
    let requesterRole := option_map role user in
    targetUser <~ findOne users (fun u => User._id u =? id) ;;
    match targetUser with
    | None => Task.Done (json 404 (JMessage "User not found"))
    | Some targetUser =>
        if eqUndef (User._id targetUser) requesterId then
          Task.Done (json 400 (JMessage "You cannot delete your own account"))
        else if Role.eqb (User.role targetUser) Role.ADMIN
                && negb (eqUndef "ADMIN" requesterRole) then
          Task.Done
            (json 403
               (JMessage "Only administrators can remove another admin"))
        else if Role.eqb (User.role targetUser) Role.STAFF
                && negb (eqUndef "ADMIN" requesterRole) then
          Task.Done
            (json 403
               (JMessage "Only administrators can remove staff members"))
        else
          (* Free any borrowed copies *)
          userLoans <~
            findAll loans
              (fun l => (Loan.userId l =? id)
                        && (LoanStatus.eqb (Loan.status l) LoanStatus.BORROWED
                            || LoanStatus.eqb (Loan.status l)
                                 LoanStatus.OVERDUE)) ;;
          Task.forOf userLoans 0 (fun k loan =>
            updateOne copies (fun c => BookCopy._id c =? Loan.copyId loan)
              (BookCopy.set_status CopyStatus.AVAILABLE
                 (toISOString (newDate o k)))) (
          (* Delete user's loans *)
          deleteMany loans (fun l => Loan.userId l =? id) ~;;
          (* Delete notifications for this user *)
          deleteMany notifications (fun n => Notification.userId n =? id) ~;;
          (* Delete notifications about this user *)
          deleteMany notifications
            (fun n => (Notification.type n =? "PASSWORD_RESET_REQUEST")
                      && regex_i (User.email targetUser)
                           (Notification.message n)) ~;;
          deleteOne users (fun u => User._id u =? id) ~;;
          Task.Done (send 204))
    end).

Definition getUserNotifications (user : option JwtPayload) : Task.t :=
  Task.try_catch "Failed to get notifications" (
    match user with
    | None => Task.Done (json 401 (JMessage "Not authenticated"))
    | Some user =>
        results <~
          findAll notifications
            (fun n => Notification.userId n =? userId user) ;;
        Task.Done
          (json 200
             (JNotifications (sortDesc Notification.createdAt results)))
    end).

Definition getUnreadCount (user : option JwtPayload) : Task.t :=
  Task.try_catch "Failed to get count" (
    match user with
    | None => Task.Done (json 401 (JMessage "Not authenticated"))
    | Some user =>
        count <~
          countDocuments notifications
            (fun n => (Notification.userId n =? userId user)
                      && negb (Notification.isRead n)) ;;
        Task.Done (json 200 (JCount count))
    end).

Definition markAsRead (id : string) (user : option JwtPayload) : Task.t :=
  Task.try_catch "Failed to mark as read" (
    match user with
    | None => Task.Done (json 401 (JMessage "Not authenticated"))
    | Some user =>
        updateOne notifications
          (fun n => (Notification._id n =? id)
                    && (Notification.userId n =? userId user))
          (Notification.set_isRead true) ~;;
        Task.Done (send 204)
    end).

Definition markAllAsRead (user : option JwtPayload) : Task.t :=
  Task.try_catch "Failed to mark all as read" (
    match user with
    | None => Task.Done (json 401 (JMessage "Not authenticated"))
    | Some user =>
        updateMany notifications
          (fun n => (Notification.userId n =? userId user)
                    && negb (Notification.isRead n))
          (Notification.set_isRead true) ~;;
        Task.Done (send 204)
    end).

Definition deleteNotification (id : string) (user : option JwtPayload)
  : Task.t :=
  Task.try_catch "Failed to delete notification" (
    match user with
    | None => Task.Done (json 401 (JMessage "Not authenticated"))
    | Some user =>
        deleteOne notifications
          (fun n => (Notification._id n =? id)
                    && (Notification.userId n =? userId user)) ~;;
        Task.Done (send 204)
    end).

(** The task a request starts. *)
Definition task (req : Request) (o : Oracle) : Task.t :=
  match req with
  | GetLoansForUser u user => getLoansForUser u user o
  | GetAdminLoans => getAdminLoans o
  | CreateLoan u b d => createLoan u b d o
  | ReturnLoan id => returnLoan id o
  | SendOverdueReminder id => sendOverdueReminder id o
  | GetDashboardStats => getDashboardStats o
  | DeleteUser id user => deleteUser id user o
  | GetUserNotifications user => getUserNotifications user
  | GetUnreadCount user => getUnreadCount user
  | MarkAsRead id user => markAsRead id user
  | MarkAllAsRead user => markAllAsRead user
  | DeleteNotification id user => deleteNotification id user
  end.

End Handlers.
End Async.

(** The server: the database and the requests being served, in the order
    of their arrival.  It moves when a request arrives and when the
    database performs the operation the [i]-th request awaits; a request
    that was answered stays in the list and moves no more. *)
Module Server.
Record t := {
  db : Db.t;
  inFlight : list Task.t
}.

(** [Arrive req o]: a request arrives, [o] being what its handler will
    read of the clock and of [generateId].  [Resume i]: the database
    performs the operation the [i]-th request awaits, and that handler runs
    on to its next [await] or to its answer. *)
Inductive Event :=
| Arrive (req : Request) (o : Oracle)
| Resume (i : nat).

Fixpoint resume (i : nat) (tasks : list Task.t) (db_ : Db.t) {struct tasks}
    : list Task.t * Db.t :=
  match tasks with
  | [] => ([], db_)
  | task :: rest =>
      match i with
      | O =>
          match task with
          | Task.Await next write => (next db_ :: rest, write db_)
          | _ => (tasks, db_)
          end
      | S i' =>
          let (rest', db') := resume i' rest db_ in (task :: rest', db')
      end
  end.

Definition step `{JsRuntime} (e : Event) (s : t) : t :=
  match e with
  | Arrive req o =>
      {| db := db s; inFlight := inFlight s ++ [Async.task req o] |}
  | Resume i =>
      let (tasks, db') := resume i (inFlight s) (db s) in
      {| db := db'; inFlight := tasks |}
  end.

Definition run `{JsRuntime} (events : list Event) (s : t) : t :=
  fold_left (fun s e => step e s) events s.

(** A server that starts on [db_] with no request in flight. *)
Definition start (db_ : Db.t) : t := {| db := db_; inFlight := [] |}.
End Server.

(** The servers reached from an initial database when the handlers of
    different requests take turns at their [await]s. *)
Inductive interleaved `{JsRuntime} : Server.t -> Prop :=
| interleaved_start db : initial db -> interleaved (Server.start db)
| interleaved_step s e : interleaved s -> interleaved (Server.step e s).

(** ** Vocabulary of the specification *)

(** The effective status in the words of the specification: [RETURNED]
    once a return date is set, else [OVERDUE] strictly after the due date,
    else [BORROWED]. *)
Definition specStatus `{JsRuntime} (now : Z) (loan : Loan.t) : LoanStatus.t :=
  match Loan.returnDate loan with
  | Some _ => LoanStatus.RETURNED
  | None =>
      if date_lt (Date_parse (Loan.dueDate loan)) now
      then LoanStatus.OVERDUE
      else LoanStatus.BORROWED
  end.


(** ** The writes of the handlers, named *)

(** The query and the update of the copy reservation. *)
Definition availableOf (bookId_ : string) (c : BookCopy.t) : bool :=
  (BookCopy.bookId c =? bookId_)
  && CopyStatus.eqb (BookCopy.status c) CopyStatus.AVAILABLE.

Definition reserve `{JsRuntime} (o : Oracle) : BookCopy.t -> BookCopy.t :=
  BookCopy.set_status CopyStatus.BORROWED (toISOString (newDate o 0)).

(** The loans whose copies [deleteUser] frees. *)
Definition openLoansOf (id : string) (l : Loan.t) : bool :=
  (Loan.userId l =? id)
  && (LoanStatus.eqb (Loan.status l) LoanStatus.BORROWED
      || LoanStatus.eqb (Loan.status l) LoanStatus.OVERDUE).

(** The copies after the loop of [deleteUser] over [userLoans], started at
    turn [k]. *)
Fixpoint freeCopies `{JsRuntime} (o : Oracle) (userLoans : list Loan.t)
    (k : nat) (cs : list BookCopy.t) : list BookCopy.t :=
  match userLoans with
  | [] => cs
  | loan :: rest =>
      freeCopies o rest (S k)
        (Docs.updateOne (fun c => BookCopy._id c =? Loan.copyId loan)
           (BookCopy.set_status CopyStatus.AVAILABLE
              (toISOString (newDate o k)))
           cs)
  end.

(** The database a successful deletion leaves. *)
Definition afterDelete `{JsRuntime} (id : string) (target : User.t) (o : Oracle)
    (db : Db.t) : Db.t :=
  {| Db.users := Docs.deleteOne (fun u => User._id u =? id) (Db.users db);
     Db.books := Db.books db;
     Db.bookCopies :=
       freeCopies o (filter (openLoansOf id) (Db.loans db)) 0
         (Db.bookCopies db);
     Db.loans := Docs.deleteMany (fun l => Loan.userId l =? id) (Db.loans db);
     Db.notifications :=
       Docs.deleteMany
         (fun n => (Notification.type n =? "PASSWORD_RESET_REQUEST")
                   && regex_i (User.email target) (Notification.message n))
         (Docs.deleteMany (fun n => Notification.userId n =? id)
            (Db.notifications db)) |}.

(** ** The invariant of the loan and copy stores *)

(** The stored status of a loan is [RETURNED] exactly when its return date
    is set. *)
Definition statusAgrees (l : Loan.t) : Prop :=
  Loan.returnDate l <> None <-> Loan.status l = LoanStatus.RETURNED.

Record Inv (db : Db.t) : Prop := {
  (** copies are told apart by their [_id] *)
  inv_ids : NoDup (map BookCopy._id (Db.bookCopies db));
  inv_status : forall l, In l (Db.loans db) -> statusAgrees l;
  (** the copy of an active loan is marked borrowed *)
  inv_held : forall l c,
    In l (Db.loans db) -> active l = true ->
    In c (Db.bookCopies db) -> BookCopy._id c = Loan.copyId l ->
    BookCopy.status c = CopyStatus.BORROWED;
  (** a copy has at most one active loan *)
  inv_unique : forall copyId_,
    length (activeLoansOf copyId_ (Db.loans db)) <= 1
}.

(** A task and a handler function agree: served alone, the task answers
    and writes as the function says. *)
Definition alone (task : Task.t) (h : Handler) : Prop :=
  forall db, Task.complete task db = (Some (fst (h db)), snd (h db)).

(** ** What holds of the store while requests take turns *)

(** A loan as the handlers write it: [BORROWED] with a null [returnDate],
    or [RETURNED] with a [returnDate]. *)
Definition asWritten (l : Loan.t) : Prop :=
  (Loan.returnDate l = None /\ Loan.status l = LoanStatus.BORROWED) \/
  (Loan.returnDate l <> None /\ Loan.status l = LoanStatus.RETURNED).

Definition wellStored (db : Db.t) : Prop :=
  NoDup (map BookCopy._id (Db.bookCopies db)) /\
  forall l, In l (Db.loans db) -> asWritten l.

(** Every operation the task may still perform keeps [P], whatever the
    database it is performed on. *)
Inductive keeps (P : Db.t -> Prop) : Task.t -> Prop :=
| keeps_Done r : keeps P (Task.Done r)
| keeps_Threw e : keeps P (Task.Threw e)
| keeps_Await next write :
    (forall db, P db -> P (write db)) ->
    (forall db, keeps P (next db)) ->
    keeps P (Task.Await next write).

(** ** A runtime and a database for worked examples *)

Module Sample.

#[local] Open Scope Z_scope.

(** Dates in the two ISO 8601 forms the application stores and sends,
    [YYYY-MM-DD] and [YYYY-MM-DDTHH:mm:ss.sssZ], on the proleptic Gregorian
    calendar, for years 0 to 9999; any other string is an invalid date. *)
Definition digit (c : ascii) : option Z :=
  let n := nat_of_ascii c in
  if ((48 <=? n) && (n <=? 57))%nat then Some (Z.of_nat (n - 48)) else None.

Fixpoint digits (s : string) (acc : Z) : option Z :=
  match s with
  | EmptyString => Some acc
  | String c s' =>
      match digit c with
      | Some d => digits s' (10 * acc + d)
      | None => None
      end
  end.

(** The decimal field of [len] characters at [start]. *)
Definition field (s : string) (start len : nat) : option Z :=
  let f := substring start len s in
  if (String.length f =? len)%nat then digits f 0 else None.

Definition charAt (s : string) (i : nat) (c : ascii) : bool :=
  match get i s with
  | Some c' => Ascii.eqb c c'
  | None => false
  end.

Definition daysFromCivil (y m d : Z) : Z :=
  let y' := if m <=? 2 then y - 1 else y in
  let era := y' / 400 in
  let yoe := y' - era * 400 in
  let doy := (153 * (if m >? 2 then m - 3 else m + 9) + 2) / 5 + d - 1 in
  let doe := yoe * 365 + yoe / 4 - yoe / 100 + doy in
  era * 146097 + doe - 719468.

Definition civilFromDays (z : Z) : Z * Z * Z :=
  let z := z + 719468 in
  let era := z / 146097 in
  let doe := z - era * 146097 in
  let yoe := (doe - doe / 1460 + doe / 36524 - doe / 146096) / 365 in
  let y := yoe + era * 400 in
  let doy := doe - (365 * yoe + yoe / 4 - yoe / 100) in
  let mp := (5 * doy + 2) / 153 in
  let d := doy - (153 * mp + 2) / 5 + 1 in
  let m := if mp <? 10 then mp + 3 else mp - 9 in
  (if m <=? 2 then y + 1 else y, m, d).

Definition inRange (lo hi : Z) (v : option Z) : option Z :=
  match v with
  | Some n => if (lo <=? n) && (n <=? hi) then Some n else None
  | None => None
  end.

Definition parseDatePart (s : string) : option Z :=
  match field s 0 4, inRange 1 12 (field s 5 2), inRange 1 31 (field s 8 2)
  with
  | Some y, Some m, Some d =>
      if charAt s 4 "-" && charAt s 7 "-" then Some (daysFromCivil y m d)
      else None
  | _, _, _ => None
  end.

Definition parseTimePart (s : string) : option Z :=
  match inRange 0 23 (field s 11 2), inRange 0 59 (field s 14 2),
        inRange 0 59 (field s 17 2), field s 20 3 with
  | Some h, Some mi, Some sec, Some ms =>
      if charAt s 10 "T" && charAt s 13 ":" && charAt s 16 ":"
         && charAt s 19 "." && charAt s 23 "Z"
      then Some (((h * 60 + mi) * 60 + sec) * 1000 + ms)
      else None
  | _, _, _, _ => None
  end.

Definition parseIso (s : string) : option Z :=
  match String.length s with
  | 10%nat => option_map (fun days => days * 86400000) (parseDatePart s)
  | 24%nat =>
      match parseDatePart s, parseTimePart s with
      | Some days, Some ms => Some (days * 86400000 + ms)
      | _, _ => None
      end
  | _ => None
  end.

Definition dec (n : Z) : string := NilZero.string_of_int (Z.to_int n).

Fixpoint zeros (k : nat) : string :=
  match k with O => "" | S k' => String "0" (zeros k') end.

Definition pad (width : nat) (n : Z) : string :=
  (zeros (width - String.length (dec n)) ++ dec n)%string.

Definition isoString (t : Z) : string :=
  let '(y, m, d) := civilFromDays (t / 86400000) in
  let ms := t mod 86400000 in
  (pad 4 y ++ "-" ++ pad 2 m ++ "-" ++ pad 2 d ++ "T"
   ++ pad 2 (ms / 3600000) ++ ":" ++ pad 2 (ms / 60000 mod 60) ++ ":"
   ++ pad 2 (ms / 1000 mod 60) ++ "." ++ pad 3 (ms mod 1000) ++ "Z")%string.

Definition localeString (t : Z) : string :=
  let '(y, m, d) := civilFromDays (t / 86400000) in
  (dec m ++ "/" ++ dec d ++ "/" ++ dec y)%string.

Definition digit36 (d : Z) : ascii :=
  ascii_of_nat (Z.to_nat (if d <? 10 then 48 + d else 87 + d)).

Fixpoint base36 (fuel : nat) (n : Z) (acc : string) : string :=
  match fuel with
  | O => acc
  | S fuel' =>
      let acc' := String (digit36 (n mod 36)) acc in
      if n / 36 =? 0 then acc' else base36 fuel' (n / 36) acc'
  end.

Definition lower (c : ascii) : ascii :=
  let n := nat_of_ascii c in
  if ((65 <=? n) && (n <=? 90))%nat then ascii_of_nat (n + 32) else c.

Fixpoint lowercase (s : string) : string :=
  match s with
  | EmptyString => EmptyString
  | String c s' => String (lower c) (lowercase s')
  end.

(** Dates as above, printed for the [en-US] locale in UTC; a pattern is
    matched as plain text, ignoring case. *)
#[local] Instance runtime : JsRuntime := {|
  Date_parse := parseIso;
  toISOString := isoString;
  toLocaleDateString := localeString;
  regex_i := fun p s =>
    match index 0 (lowercase p) (lowercase s) with
    | Some _ => true
    | None => false
    end
|}.

(** A handler run that starts at [start]: the clock advances by a
    millisecond per reading, the identifiers are a base-36 time stamp
    followed by random digits. *)
Definition clock (start : Z) : Oracle :=
  {| newDate := fun k => start + Z.of_nat k;
     generateId := fun k =>
       (base36 20 (start + Z.of_nat k) "" ++ "4fzyo82mvyr")%string |}.

(** 2024-03-20, 2024-03-15 09:30 and 2024-06-01, in milliseconds. *)
Definition mar20 : Z := 1710892800000.
Definition mar15 : Z := 1710495000000.
Definition jun1 : Z := 1717200000000.

Definition alice : User.t :=
  {| User._id := "u1"; User.name := "Alice";
     User.email := "alice@library.edu"; User.passwordHash := "$2a$10$hash";
     User.studentId := Some "s1"; User.role := Role.USER;
     User.status := UserStatus.ACTIVE; User.needsPasswordReset := false;
     User.createdAt := "2024-01-01T00:00:00.000Z";
     User.updatedAt := "2024-01-01T00:00:00.000Z" |}.

Definition admin : JwtPayload :=
  {| userId := "1"; email := "admin@library.edu"; role := "ADMIN" |}.

Definition sicp : Book.t :=
  {| Book._id := "b1"; Book.title := "SICP"; Book.author := "Abelson";
     Book.ISBN := "0262510871"; Book.description := None;
     Book.category := "CS"; Book.publicationYear := Some 1996;
     Book.shelfLocation := None; Book.isActive := true;
     Book.imageUrl := None;
     Book.createdAt := "2024-01-01T00:00:00.000Z";
     Book.updatedAt := "2024-01-01T00:00:00.000Z" |}.

Definition copy1 (s : CopyStatus.t) : BookCopy.t :=
  {| BookCopy._id := "c1"; BookCopy.bookId := "b1";
     BookCopy.copyCode := "SICP-1"; BookCopy.status := s;
     BookCopy.createdAt := "2024-01-01T00:00:00.000Z";
     BookCopy.updatedAt := "2024-03-01T00:00:00.000Z" |}.

(** A loan of [copy1] by [alice], made on 2024-03-01 and due on
    2024-04-01. *)
Definition loan1 (returned : option string) (s : LoanStatus.t) : Loan.t :=
  {| Loan._id := "l1"; Loan.userId := "u1"; Loan.bookId := "b1";
     Loan.copyId := "c1";
     Loan.borrowDate := "2024-03-01T00:00:00.000Z";
     Loan.dueDate := "2024-04-01T00:00:00.000Z";
     Loan.returnDate := returned; Loan.status := s;
     Loan.reminderSent := false; Loan.reminderCount := None;
     Loan.lastReminderAt := None;
     Loan.createdAt := "2024-03-01T00:00:00.000Z";
     Loan.updatedAt := "2024-03-01T00:00:00.000Z" |}.

Definition note1 : Notification.t :=
  {| Notification._id := "n1"; Notification.userId := "u1";
     Notification.loanId := Some "l1"; Notification.bookId := Some "b1";
     Notification.type := "LOAN_CREATED";
     Notification.title := "Book Borrowed Successfully";
     Notification.message := "You have borrowed SICP";
     Notification.bookTitle := Some "SICP";
     Notification.bookAuthor := Some "Abelson";
     Notification.dueDate := Some "2024-04-01T00:00:00.000Z";
     Notification.isRead := false;
     Notification.createdAt := "2024-03-01T00:00:00.000Z" |}.

(** The unreturned loan after reminders: [count] of them are on record,
    the last one sent on 2024-05-01. *)
Definition reminded (count : Z) : Loan.t :=
  Loan.set_reminded count "2024-05-01T00:00:00.000Z"
    "2024-05-01T00:00:00.000Z" (loan1 None LoanStatus.BORROWED).

(** The identifier of the first loan made at 2024-03-15 09:30. *)
Definition firstLoan : string := generateId (clock mar15) 0.

(** A schedule of five requests.  [alice] borrows the copy.  Two requests
    to return that loan arrive, and both read the loan before either
    writes.  The first return completes and the copy is lent again; then
    the second return completes, marking the copy available once more,
    and the copy is lent a third time. *)
Definition doubleReturn : list Server.Event :=
  [ Server.Arrive (CreateLoan "u1" "b1" "2024-04-01") (clock mar15);
    Server.Resume 0; Server.Resume 0; Server.Resume 0; Server.Resume 0;
    Server.Resume 0;
    Server.Arrive (ReturnLoan firstLoan) (clock mar20);
    Server.Arrive (ReturnLoan firstLoan) (clock (mar20 + 3000));
    Server.Resume 1;
    Server.Resume 2;
    Server.Resume 1; Server.Resume 1;
    Server.Arrive (CreateLoan "u1" "b1" "2024-04-20") (clock (mar20 + 2000));
    Server.Resume 3; Server.Resume 3; Server.Resume 3; Server.Resume 3;
    Server.Resume 3;
    Server.Resume 2; Server.Resume 2;
    Server.Arrive (CreateLoan "u1" "b1" "2024-04-21") (clock (mar20 + 4000));
    Server.Resume 4; Server.Resume 4; Server.Resume 4; Server.Resume 4;
    Server.Resume 4 ]%Z.

(** One user, one book with one available copy, no loan yet. *)
Definition shelf : Db.t :=
  {| Db.users := [alice]; Db.books := [sicp];
     Db.bookCopies := [copy1 CopyStatus.AVAILABLE];
     Db.loans := []; Db.notifications := [] |}.

(** The same library while [alice] holds the copy. *)
Definition lent : Db.t :=
  {| Db.users := [alice]; Db.books := [sicp];
     Db.bookCopies := [copy1 CopyStatus.BORROWED];
     Db.loans := [loan1 None LoanStatus.BORROWED];
     Db.notifications := [note1] |}.

(** The same library after the copy came back on 2024-03-15. *)
Definition back : Db.t :=
  {| Db.users := [alice]; Db.books := [sicp];
     Db.bookCopies := [copy1 CopyStatus.AVAILABLE];
     Db.loans :=
       [loan1 (Some "2024-03-15T09:30:00.000Z") LoanStatus.RETURNED];
     Db.notifications := [note1] |}.

End Sample.

(** ** Users controller: accounts and passwords *)

(** What the account handlers use of the platform and of the password
    library. *)
Class JsAccounts := {
  (** [s.toLowerCase()] *)
  toLowerCase : string -> string;
  (** [s.length] *)
  jsLength : string -> nat;
  (** [bcrypt.hash(s, rounds)], told the salt it draws *)
  bcrypt_hash : string -> nat -> string -> string;
  (** [bcrypt.compare(s, hash)] *)
  bcrypt_compare : string -> string -> bool
}.

Module UserUpdate.
(** [$set: { needsPasswordReset: true, updatedAt }] *)
Definition request_reset (at_ : string) (u : User.t) : User.t :=
  {| User._id := User._id u; User.name := User.name u;
     User.email := User.email u; User.passwordHash := User.passwordHash u;
     User.studentId := User.studentId u; User.role := User.role u;
     User.status := User.status u; User.needsPasswordReset := true;
     User.createdAt := User.createdAt u; User.updatedAt := at_ |}.
(** [$set: { passwordHash, needsPasswordReset: false, updatedAt }] *)
Definition reset_password (hash at_ : string) (u : User.t) : User.t :=
  {| User._id := User._id u; User.name := User.name u;
     User.email := User.email u; User.passwordHash := hash;
     User.studentId := User.studentId u; User.role := User.role u;
     User.status := User.status u; User.needsPasswordReset := false;
     User.createdAt := User.createdAt u; User.updatedAt := at_ |}.
(** [$set: { passwordHash, updatedAt }] *)
Definition change_password (hash at_ : string) (u : User.t) : User.t :=
  {| User._id := User._id u; User.name := User.name u;
     User.email := User.email u; User.passwordHash := hash;
     User.studentId := User.studentId u; User.role := User.role u;
     User.status := User.status u;
     User.needsPasswordReset := User.needsPasswordReset u;
     User.createdAt := User.createdAt u; User.updatedAt := at_ |}.
End UserUpdate.

(** The bodies the account handlers answer with, besides messages. *)
Inductive UsersJson :=
| JPlain (j : Json)
| JUser (userWithoutPassword : PublicUser.t).

Module UsersResponse.
Record t := {
  status : nat;
  body : option UsersJson
}.
End UsersResponse.

Definition usersJson (code : nat) (j : UsersJson) : UsersResponse.t :=
  {| UsersResponse.status := code; UsersResponse.body := Some j |}.
Definition usersMessage (code : nat) (message : string) : UsersResponse.t :=
  usersJson code (JPlain (JMessage message)).
Definition usersSend (code : nat) : UsersResponse.t :=
  {| UsersResponse.status := code; UsersResponse.body := None |}.

Definition UsersHandler : Type := Db.t -> UsersResponse.t * Db.t.

Definition try_catch_users (message : string) (body : M UsersResponse.t)
  : UsersHandler :=
  fun db =>
    match body db with
    | (Ok r, db') => (r, db')
    | (Throw e, db') => (usersJson 500 (JPlain (JError message e)), db')
    end.

(** [c.insertMany(ds)], ordered: the documents go in one after the other
    and the first duplicate key stops the batch. *)
Fixpoint insertMany {A} `{Document A} (c : Collection A) (ds : list A)
  : M unit :=
  match ds with
  | [] => ret tt
  | d :: ds' => insertOne c d ;;; insertMany c ds'
  end.

(** [xs.map(f)], the callback told its turn. *)
Fixpoint mapTurn {A B} (f : nat -> A -> B) (k : nat) (xs : list A) : list B :=
  match xs with
  | [] => []
  | x :: xs' => f k x :: mapTurn f (S k) xs'
  end.

(** The string a truthy [string | undefined] value holds. *)
Definition stringOf (v : option string) : string :=
  match v with
  | Some s => s
  | None => ""
  end.

(** [role: { $in: ["ADMIN", "STAFF"] }] *)
Definition isAdminOrStaff (u : User.t) : bool :=
  Role.eqb (User.role u) Role.ADMIN || Role.eqb (User.role u) Role.STAFF.

Section Accounts.
Context `{JsRuntime} `{JsAccounts}.

Definition createStaffMember (name_ email_ password salt : string)
    (o : Oracle) : UsersHandler :=
  try_catch_users "Failed to create staff member" (
    existing <- findOne users (fun u => User.email u =? toLowerCase email_) ;;
    match existing with
    | Some _ => ret (usersMessage 400 "Email already exists")
    | None =>
        let passwordHash := bcrypt_hash password 10 salt in
        let now := newDate o 0 in
        let newStaff :=
          {| User._id := generateId o 0;
             User.name := name_;
             User.email := toLowerCase email_;
             User.passwordHash := passwordHash;
             User.studentId := None;
             User.role := Role.STAFF;
             User.status := UserStatus.ACTIVE;
             User.needsPasswordReset := false;
             User.createdAt := toISOString now;
             User.updatedAt := toISOString now |} in
        insertOne users newStaff ;;;
        ret (usersJson 201 (JUser (PublicUser.project newStaff)))
    end).

(** The message of a [PASSWORD_RESET_REQUEST] notification. *)
Definition resetRequestMessage (user : User.t) : string :=
  ("User " ++ User.name user ++ " (" ++ User.email user
   ++ ") has requested a password reset.")%string.

Definition resetRequestDoc (o : Oracle) (user : User.t) (now : string)
    (k : nat) (admin : User.t) : Notification.t :=
  {| Notification._id := generateId o k;
     Notification.userId := User._id admin;
     Notification.loanId := None;
     Notification.bookId := None;
     Notification.type := "PASSWORD_RESET_REQUEST";
     Notification.title := "Password Reset Request";
     Notification.message := resetRequestMessage user;
     Notification.bookTitle := None;
     Notification.bookAuthor := None;
     Notification.dueDate := None;
     Notification.isRead := false;
     Notification.createdAt := now |}.

Definition requestPasswordReset (email_ : string) (o : Oracle)
  : UsersHandler :=
  try_catch_users "Failed to request password reset" (
    user <- findOne users (fun u => User.email u =? toLowerCase email_) ;;
    match user with
    | None => ret (usersMessage 404 "User not found")
    | Some user =>
        if negb (Role.eqb (User.role user) Role.USER) then
          ret (usersMessage 400
                 "Only student accounts can request a reset through this form")
        else
          updateOne users (fun u => User._id u =? User._id user)
            (UserUpdate.request_reset (toISOString (newDate o 0))) ;;;
          adminUsers <- findAll users isAdminOrStaff ;;
          let now := toISOString (newDate o 1) in
          let notificationDocs :=
            mapTurn (resetRequestDoc o user now) 0 adminUsers in
          (if (0 <? length notificationDocs)%nat
           then insertMany notifications notificationDocs
           else ret tt) ;;;
          ret (usersSend 204)
    end).

Definition resetUserPassword (id newPassword salt : string) (o : Oracle)
  : UsersHandler :=
  try_catch_users "Failed to reset password" (
    user <- findOne users (fun u => User._id u =? id) ;;
    match user with
    | None => ret (usersMessage 404 "User not found")
    | Some _ =>
        let passwordHash := bcrypt_hash newPassword 10 salt in
        updateOne users (fun u => User._id u =? id)
          (UserUpdate.reset_password passwordHash
             (toISOString (newDate o 0))) ;;;
        ret (usersSend 204)
    end).

Definition changePassword (currentPassword newPassword : option string)
    (user : option JwtPayload) (salt : string) (o : Oracle) : UsersHandler :=
  try_catch_users "Failed to change password" (
    let userId_ := option_map userId user in
    if negb (truthy userId_) then
      ret (usersMessage 401 "Not authenticated")
    else if negb (truthy currentPassword) || negb (truthy newPassword) then
      ret (usersMessage 400
             "Current password and new password are required")
    else if (jsLength (stringOf newPassword) <? 6)%nat then
      ret (usersMessage 400 "New password must be at least 6 characters")
    else
      user <- findOne users (fun u => User._id u =? stringOf userId_) ;;
      match user with
      | None => ret (usersMessage 404 "User not found")
      | Some user =>
          if negb (bcrypt_compare (stringOf currentPassword)
                     (User.passwordHash user)) then
            ret (usersMessage 400 "Current password is incorrect")
          else
            let passwordHash :=
              bcrypt_hash (stringOf newPassword) 10 salt in
            updateOne users (fun u => User._id u =? stringOf userId_)
              (UserUpdate.change_password passwordHash
                 (toISOString (newDate o 0))) ;;;
            ret (usersSend 204)
      end).

End Accounts.

(** ** Frontend: the account page *)

(** The derived values and the local updates of [MyAccountComponent], as
    functions of the signals they read.  An update that follows an API call
    is told whether the call succeeded; a failed call is caught and leaves
    the signal alone. *)
Module MyAccount.

Definition statusOf (loan : LoanWithRelations.t) : LoanStatus.t :=
  Loan.status (LoanWithRelations.loan loan).

Definition currentLoans (loans : list LoanWithRelations.t)
  : list LoanWithRelations.t :=
  filter (fun loan =>
            LoanStatus.eqb (statusOf loan) LoanStatus.BORROWED
            || LoanStatus.eqb (statusOf loan) LoanStatus.OVERDUE)
         loans.

Definition pastLoans (loans : list LoanWithRelations.t)
  : list LoanWithRelations.t :=
  filter (fun loan => LoanStatus.eqb (statusOf loan) LoanStatus.RETURNED)
         loans.

Definition overdueCount (loans : list LoanWithRelations.t) : nat :=
  length
    (filter (fun loan => LoanStatus.eqb (statusOf loan) LoanStatus.OVERDUE)
            loans).

Definition unreadNotifications (notifications : list Notification.t)
  : list Notification.t :=
  filter (fun n => negb (Notification.isRead n)) notifications.

Definition dismissNotification (apiOk : bool) (notification : Notification.t)
    (list_ : list Notification.t) : list Notification.t :=
  if apiOk then
    map (fun n =>
           if Notification._id n =? Notification._id notification
           then Notification.set_isRead true n
           else n)
        list_
  else list_.

End MyAccount.

(** ** Frontend: the notification bell *)

(** The notification state of [NavigationComponent] and its updates. *)
Module Navigation.

Record State := {
  notifications : list Notification.t;
  unreadCount : Z;
  showNotifications : bool
}.

Definition getNotificationRoute (notification : Notification.t)
  : option string :=
  if Notification.type notification =? "PASSWORD_RESET_REQUEST"
  then Some "/admin/users"
  else if Notification.type notification =? "OVERDUE_REMINDER"
  then Some "/my-account"
  else if Notification.type notification =? "LOAN_CREATED"
  then Some "/my-account"
  else None.

(** [list.map(n => n._id === notification._id ? {...n, isRead: true} : n)] *)
Definition readLocally (notification : Notification.t)
    (list_ : list Notification.t) : list Notification.t :=
  map (fun n =>
         if Notification._id n =? Notification._id notification
         then Notification.set_isRead true n
         else n)
      list_.

Definition markAsRead (apiOk : bool) (notification : Notification.t)
    (st : State) : State :=
  if apiOk then
    {| notifications := readLocally notification (notifications st);
       unreadCount := Z.max 0 (unreadCount st - 1);
       showNotifications := showNotifications st |}
  else st.

(** The state after the click and the route the router is sent to. *)
Definition handleNotificationClick (apiOk : bool)
    (notification : Notification.t) (st : State) : State * option string :=
  let st1 :=
    if negb (Notification.isRead notification)
    then markAsRead apiOk notification st
    else st in
  match getNotificationRoute notification with
  | Some route =>
      ({| notifications := notifications st1;
          unreadCount := unreadCount st1;
          showNotifications := false |}, Some route)
  | None => (st1, None)
  end.

Definition markAllAsRead (apiOk : bool) (st : State) : State :=
  if apiOk then
    {| notifications := map (Notification.set_isRead true) (notifications st);
       unreadCount := 0;
       showNotifications := showNotifications st |}
  else st.

Definition deleteNotification (apiOk : bool) (notification : Notification.t)
    (st : State) : State :=
  if apiOk then
    {| notifications :=
         filter (fun n =>
                   negb (Notification._id n =? Notification._id notification))
                (notifications st);
       unreadCount :=
         if negb (Notification.isRead notification)
         then Z.max 0 (unreadCount st - 1)
         else unreadCount st;
       showNotifications := showNotifications st |}
  else st.

(** [loadNotifications], given what the two API calls returned. *)
Definition loadNotifications
    (loaded : option (list Notification.t * nat)) (st : State) : State :=
  match loaded with
  | Some (list_, count) =>
      {| notifications := list_;
         unreadCount := Z.of_nat count;
         showNotifications := showNotifications st |}
  | None => st
  end.

End Navigation.

(** ** Vocabulary of the further properties *)

(** The loan document [createLoan] inserts for the copy it reserved. *)
Definition isNewLoan `{JsRuntime} (userId_ bookId_ : string) (due : Z)
    (o : Oracle) (c : BookCopy.t) (l : Loan.t) : Prop :=
  Loan._id l = generateId o 0 /\
  Loan.userId l = userId_ /\
  Loan.bookId l = bookId_ /\
  Loan.copyId l = BookCopy._id c /\
  Loan.dueDate l = toISOString due /\
  Loan.returnDate l = None /\
  Loan.status l = LoanStatus.BORROWED /\
  Loan.reminderCount l = None.

(** Two loans that agree on every field a reminder does not write. *)
Definition sameButReminder (l l' : Loan.t) : Prop :=
  Loan._id l' = Loan._id l /\
  Loan.userId l' = Loan.userId l /\
  Loan.bookId l' = Loan.bookId l /\
  Loan.copyId l' = Loan.copyId l /\
  Loan.borrowDate l' = Loan.borrowDate l /\
  Loan.dueDate l' = Loan.dueDate l /\
  Loan.returnDate l' = Loan.returnDate l /\
  Loan.status l' = Loan.status l /\
  Loan.createdAt l' = Loan.createdAt l.

(** Loans and notifications are told apart by their [_id]. *)
Definition uniqueIds (db : Db.t) : Prop :=
  NoDup (map Loan._id (Db.loans db)) /\
  NoDup (map Notification._id (Db.notifications db)).

(** The notifications stored for other users than [u]. *)
Definition notificationsOfOthers (u : JwtPayload) (db : Db.t)
  : list Notification.t :=
  filter (fun n => negb (Notification.userId n =? userId u))
         (Db.notifications db).

(** The number [getUnreadCount] reports for [u]. *)
Definition unreadOf (u : JwtPayload) (db : Db.t) : nat :=
  Docs.countDocuments
    (fun n => (Notification.userId n =? userId u)
              && negb (Notification.isRead n))
    (Db.notifications db).

(** Newest first: no notification is older than the one that follows. *)
Definition newestFirst (n n' : Notification.t) : Prop :=
  String.ltb (Notification.createdAt n) (Notification.createdAt n') = false.

(** The bell shows the number of unread notifications it lists. *)
Definition inSync (st : Navigation.State) : Prop :=
  Navigation.unreadCount st =
  Z.of_nat
    (length (MyAccount.unreadNotifications (Navigation.notifications st))).

(** ** Accounts for worked examples *)

Module SampleAccounts.

(** Does [h] end with [s]? *)
Definition endsWith (s h : string) : bool :=
  substring (String.length h - String.length s) (String.length s) h =? s.

(** Lower case and length on ASCII text; a stand-in for bcrypt whose hash
    spells out the cost, the salt and the password. *)
#[local] Instance accounts : JsAccounts := {|
  toLowerCase := Sample.lowercase;
  jsLength := String.length;
  bcrypt_hash := fun s rounds salt =>
    ("$2a$" ++ Sample.dec (Z.of_nat rounds) ++ "$" ++ salt ++ "$" ++ s)%string;
  bcrypt_compare := fun s h => endsWith ("$" ++ s) h
|}.

Definition root : User.t :=
  {| User._id := "1"; User.name := "Library Admin";
     User.email := "admin@library.edu";
     User.passwordHash := "$2a$10$salt0$admin123";
     User.studentId := None; User.role := Role.ADMIN;
     User.status := UserStatus.ACTIVE; User.needsPasswordReset := false;
     User.createdAt := "2024-01-01T00:00:00.000Z";
     User.updatedAt := "2024-01-01T00:00:00.000Z" |}.

Definition bob : User.t :=
  {| User._id := "u2"; User.name := "Bob";
     User.email := "bob@library.edu";
     User.passwordHash := "$2a$10$salt1$bobsecret";
     User.studentId := None; User.role := Role.STAFF;
     User.status := UserStatus.ACTIVE; User.needsPasswordReset := false;
     User.createdAt := "2024-01-01T00:00:00.000Z";
     User.updatedAt := "2024-01-01T00:00:00.000Z" |}.

Definition carol : User.t :=
  {| User._id := "u3"; User.name := "Carol";
     User.email := "carol@library.edu";
     User.passwordHash := "$2a$10$salt2$carolpass";
     User.studentId := Some "s3"; User.role := Role.USER;
     User.status := UserStatus.ACTIVE; User.needsPasswordReset := false;
     User.createdAt := "2024-01-01T00:00:00.000Z";
     User.updatedAt := "2024-01-01T00:00:00.000Z" |}.

Definition carolToken : JwtPayload :=
  {| userId := "u3"; email := "carol@library.edu"; role := "USER" |}.

Definition aliceToken : JwtPayload :=
  {| userId := "u1"; email := "alice@library.edu"; role := "USER" |}.

Definition bobToken : JwtPayload :=
  {| userId := "u2"; email := "bob@library.edu"; role := "STAFF" |}.

(** A read notification of [carol]. *)
Definition note2 : Notification.t :=
  {| Notification._id := "n2"; Notification.userId := "u3";
     Notification.loanId := None; Notification.bookId := None;
     Notification.type := "OVERDUE_REMINDER";
     Notification.title := "Book Return Reminder";
     Notification.message := "Please return Dune";
     Notification.bookTitle := Some "Dune";
     Notification.bookAuthor := Some "Herbert";
     Notification.dueDate := Some "2024-02-01T00:00:00.000Z";
     Notification.isRead := true;
     Notification.createdAt := "2024-02-02T00:00:00.000Z" |}.

(** The library of [Sample.lent] with its staff on record. *)
Definition office : Db.t :=
  {| Db.users := [root; Sample.alice; bob; carol];
     Db.books := [Sample.sicp];
     Db.bookCopies := [Sample.copy1 CopyStatus.BORROWED];
     Db.loans := [Sample.loan1 None LoanStatus.BORROWED];
     Db.notifications := [Sample.note1; note2] |}.

(** The loan of [Sample.lent] as the account page receives it. *)
Definition shownLoan (s : LoanStatus.t) : LoanWithRelations.t :=
  {| LoanWithRelations.loan := Sample.loan1 None s;
     LoanWithRelations.book := Sample.sicp;
     LoanWithRelations.copy := Sample.copy1 CopyStatus.BORROWED;
     LoanWithRelations.user := PublicUser.project Sample.alice |}.

(** The bell of [alice] after loading. *)
Definition bell : Navigation.State :=
  {| Navigation.notifications := [Sample.note1];
     Navigation.unreadCount := 1;
     Navigation.showNotifications := true |}.

End SampleAccounts.


(** Unfolds a handler down to the list operations. *)
Ltac run :=
  unfold try_catch, bind, ret, throw, findOne, findAll, countDocuments,
    updateOne, updateMany, findOneAndUpdate, deleteMany, deleteOne,
    insertOne, aggregate, loanById, copyById in *;
  cbn [docs store users books copies loans notifications fst snd
       Db.users Db.books Db.bookCopies Db.loans Db.notifications
       Db.set_users Db.set_books Db.set_bookCopies Db.set_loans
       Db.set_notifications] in *.

(** * Properties *)

(** ** The driver's operations on document lists *)

Section DocsFacts.
Context {A : Type}.
Implicit Types (q : A -> bool) (set : A -> A) (c : list A).

Lemma findOne_In q c d : Docs.findOne q c = Some d -> In d c /\ q d = true.
Proof. apply find_some. Qed.

Lemma findOne_None q c d : Docs.findOne q c = None -> In d c -> q d = false.
Proof. intros Hn Hin. exact (find_none q c Hn d Hin). Qed.

(** The first match splits the collection; [updateOne] rewrites it there. *)
Lemma updateOne_split q set c d :
  Docs.findOne q c = Some d ->
  exists pre post,
    c = pre ++ d :: post /\
    Forall (fun x => q x = false) pre /\
    Docs.updateOne q set c = pre ++ set d :: post.
Proof.
  induction c as [|x c IH]; simpl; [discriminate|].
  destruct (q x) eqn:Hq.
  - intros [= ->]. exists [], c. repeat split; constructor.
  - intros Hf. destruct (IH Hf) as (pre & post & -> & Hpre & Hup).
    exists (x :: pre), post. repeat split.
    + constructor; assumption.
    + simpl. now rewrite Hup.
Qed.

Lemma updateOne_None q set c :
  Docs.findOne q c = None -> Docs.updateOne q set c = c.
Proof.
  induction c as [|x c IH]; simpl; [reflexivity|].
  destruct (q x); [discriminate|]. intros Hf. now rewrite IH.
Qed.

Lemma findOne_app_miss q pre post :
  Forall (fun x => q x = false) pre ->
  Docs.findOne q (pre ++ post) = Docs.findOne q post.
Proof.
  induction 1 as [|x pre Hx _ IH]; simpl; [reflexivity|].
  now rewrite Hx.
Qed.

(** After [updateOne], a query that the update preserves finds the updated
    document. *)
Lemma findOne_updateOne q set c :
  (forall d, q d = true -> q (set d) = true) ->
  Docs.findOne q (Docs.updateOne q set c) = option_map set (Docs.findOne q c).
Proof.
  intros Hset. destruct (Docs.findOne q c) as [d|] eqn:Hf.
  - destruct (@updateOne_split q set c d Hf) as (pre & post & -> & Hpre & ->).
    rewrite findOne_app_miss by assumption. simpl.
    apply find_some in Hf. now rewrite (Hset d (proj2 Hf)).
  - now rewrite updateOne_None.
Qed.

Lemma updateOne_In q set c x :
  In x (Docs.updateOne q set c) ->
  In x c \/ exists d, In d c /\ q d = true /\ x = set d.
Proof.
  induction c as [|y c IH]; simpl; [tauto|].
  destruct (q y) eqn:Hq; simpl.
  - intros [<-|Hin]; [right; exists y; auto | auto].
  - intros [<-|Hin]; [auto|].
    destruct (IH Hin) as [?|(d & ? & ? & ?)]; [auto|].
    right; exists d; auto.
Qed.

Lemma updateOne_map_key {K} (key : A -> K) q set c :
  (forall d, key (set d) = key d) ->
  map key (Docs.updateOne q set c) = map key c.
Proof.
  intros Hk. induction c as [|y c IH]; simpl; [reflexivity|].
  destruct (q y); simpl; [now rewrite Hk | now rewrite IH].
Qed.

(** Where keys are unique, updating by key touches exactly the documents
    with that key. *)
Lemma updateOne_by_key (key : A -> string) k set c :
  NoDup (map key c) ->
  Docs.updateOne (fun x => key x =? k) set c
  = map (fun x => if key x =? k then set x else x) c.
Proof.
  induction c as [|y c IH]; simpl; [reflexivity|].
  intros Hnd. inversion Hnd as [|? ? Hnotin Hnd']; subst.
  destruct (key y =? k) eqn:Hk.
  - f_equal. apply String.eqb_eq in Hk. subst k.
    rewrite <- (map_id c) at 1. apply map_ext_in.
    intros x Hx. destruct (key x =? key y) eqn:Hxy; [|reflexivity].
    apply String.eqb_eq in Hxy. exfalso. apply Hnotin.
    rewrite <- Hxy. now apply in_map.
  - f_equal. now apply IH.
Qed.

Lemma deleteMany_In q c x :
  In x (Docs.deleteMany q c) <-> In x c /\ q x = false.
Proof.
  unfold Docs.deleteMany. rewrite filter_In.
  now rewrite negb_true_iff.
Qed.

Lemma deleteOne_In q c x : In x (Docs.deleteOne q c) -> In x c.
Proof.
  induction c as [|y c IH]; simpl; [tauto|].
  destruct (q y); simpl; intuition.
Qed.

Lemma insertOne_Some `{Document A} d c c' :
  Docs.insertOne d c = Some c' -> c' = c ++ [d].
Proof.
  unfold Docs.insertOne. destruct (existsb _ c); congruence.
Qed.

End DocsFacts.

(** Two different documents that both satisfy a query are both counted. *)
Lemma filter_two {A} (p : A -> bool) (l : list A) (x y : A) :
  In x l -> In y l -> x <> y -> p x = true -> p y = true ->
  2 <= length (filter p l).
Proof.
  induction l as [|z l IH]; simpl; [tauto|].
  intros Hx Hy Hne Hpx Hpy.
  assert (Hin : forall w, In w l -> p w = true -> 1 <= length (filter p l)).
  { intros w Hw Hpw.
    assert (Hf : In w (filter p l)) by (apply filter_In; auto).
    destruct (filter p l); [destruct Hf | simpl; lia]. }
  destruct Hx as [->|Hx], Hy as [->|Hy].
  - congruence.
  - rewrite Hpx. simpl. specialize (Hin y Hy Hpy). lia.
  - rewrite Hpy. simpl. specialize (Hin x Hx Hpx). lia.
  - specialize (IH Hx Hy Hne Hpx Hpy). destruct (p z); simpl; lia.
Qed.

(** ** Equations of the handler computations *)

Section DriverFacts.
Context {A B : Type}.
Implicit Types (c : Collection A) (q : A -> bool) (set : A -> A).

Lemma bind_findOne c q (k : option A -> M B) db :
  (x <- findOne c q ;; k x) db = k (Docs.findOne q (docs c db)) db.
Proof. reflexivity. Qed.

Lemma bind_findAll c q (k : list A -> M B) db :
  (x <- findAll c q ;; k x) db = k (filter q (docs c db)) db.
Proof. reflexivity. Qed.

End DriverFacts.


(** ** What each handler does to the database *)

(** Up to 2^53 in magnitude a sum of integers is exact. *)
Lemma JsNumber_add_exact (x y : Z) :
  (Z.abs (x + y) <= 2 ^ 53)%Z -> JsNumber.add x y = (x + y)%Z.
Proof.
  intros Hle. unfold JsNumber.add, JsNumber.round.
  now apply Z.leb_le in Hle as ->.
Qed.

Section HandlerFacts.
Context `{JsRuntime}.

(** *** [returnLoan] *)

Lemma returnLoan_not_found id o db :
  loanById id db = None ->
  returnLoan id o db = (json 404 (JMessage "Loan not found"), db).
Proof. intros Hf. unfold returnLoan. run. now rewrite Hf. Qed.

Lemma returnLoan_already id o db loan :
  loanById id db = Some loan -> Loan.returnDate loan <> None ->
  returnLoan id o db = (json 400 (JMessage "Loan already returned"), db).
Proof.
  intros Hf Hr. unfold returnLoan. run. rewrite Hf.
  destruct (Loan.returnDate loan); [reflexivity | congruence].
Qed.

Lemma returnLoan_ok id o db loan :
  loanById id db = Some loan -> Loan.returnDate loan = None ->
  returnLoan id o db =
    (send 204,
     Db.set_bookCopies
       (Docs.updateOne (fun c => BookCopy._id c =? Loan.copyId loan)
          (BookCopy.set_status CopyStatus.AVAILABLE
             (toISOString (newDate o 2)))
          (Db.bookCopies db))
       (Db.set_loans
          (Docs.updateOne (fun l => Loan._id l =? id)
             (Loan.set_returned (toISOString (newDate o 0))
                (toISOString (newDate o 1)))
             (Db.loans db))
          db)).
Proof.
  intros Hf Hr. unfold returnLoan. run. rewrite Hf, Hr. reflexivity.
Qed.

(** *** [createLoan] *)

Lemma createLoan_none userId_ bookId_ dueDate_ o db :
  Docs.findOne (availableOf bookId_) (Db.bookCopies db) = None ->
  createLoan userId_ bookId_ dueDate_ o db =
    (json 400 (JMessage "No copies available for this book"), db).
Proof.
  intros Hf. unfold createLoan. run. fold (availableOf bookId_).
  now rewrite Hf.
Qed.

(** On the copies and loans, [createLoan] does nothing, or reserves the
    first available copy and then, unless it fails on the way, appends an
    unreturned loan of that copy. *)
Lemma createLoan_effect userId_ bookId_ dueDate_ o db :
  let db' := snd (createLoan userId_ bookId_ dueDate_ o db) in
  db' = db \/
  exists c,
    Docs.findOne (availableOf bookId_) (Db.bookCopies db) = Some c /\
    Db.bookCopies db' =
      Docs.updateOne (availableOf bookId_) (reserve o) (Db.bookCopies db) /\
    (Db.loans db' = Db.loans db \/
     exists l,
       Db.loans db' = Db.loans db ++ [l] /\
       Loan.returnDate l = None /\
       Loan.status l = LoanStatus.BORROWED /\
       Loan.copyId l = BookCopy._id c).
Proof.
  unfold createLoan. run. fold (availableOf bookId_) (reserve o).
  destruct (Docs.findOne (availableOf bookId_) (Db.bookCopies db))
    as [c|] eqn:Hf; [|left; reflexivity].
  right. exists c. split; [reflexivity|].
  destruct (Date_parse dueDate_) as [due|]; cbn; [|auto].
  match goal with
  | |- context [Docs.insertOne ?l ?c] =>
      destruct (Docs.insertOne l c) as [ls|] eqn:Hins
  end; cbn; [|auto].
  apply insertOne_Some in Hins. subst ls.
  assert (Hid : BookCopy._id (reserve o c) = BookCopy._id c) by reflexivity.
  destruct (find (fun b => Book._id b =? bookId_) (Db.books db)); cbn.
  - match goal with
    | |- context [Docs.insertOne ?n ?c] =>
        destruct (Docs.insertOne n c) eqn:?
    end; cbn; (split; [reflexivity|]); right; eexists;
      (split; [reflexivity|]); auto.
  - (split; [reflexivity|]); right; eexists; (split; [reflexivity|]); auto.
Qed.

(** *** [sendOverdueReminder] *)

Lemma sendOverdueReminder_not_found id o db :
  loanById id db = None ->
  sendOverdueReminder id o db = (json 404 (JMessage "Loan not found"), db).
Proof. intros Hf. unfold sendOverdueReminder. run. now rewrite Hf. Qed.

Lemma sendOverdueReminder_refused id o db loan :
  loanById id db = Some loan -> isOverdue loan (newDate o 0) = false ->
  sendOverdueReminder id o db =
    (json 400 (JMessage "Only overdue loans can receive reminders"), db).
Proof.
  intros Hf Ho. unfold sendOverdueReminder. run. now rewrite Hf, Ho.
Qed.

(** A reminder that is answered 204 has appended one notification and
    rewritten the loan's reminder fields. *)
Lemma sendOverdueReminder_sent id o db db' :
  sendOverdueReminder id o db = (send 204, db') ->
  exists loan n,
    loanById id db = Some loan /\
    isOverdue loan (newDate o 0) = true /\
    Notification.type n = "OVERDUE_REMINDER" /\
    Notification.userId n = Loan.userId loan /\
    db' = Db.set_loans
            (Docs.updateOne (fun l => Loan._id l =? id)
               (Loan.set_reminded
                  (JsNumber.add (orZero (Loan.reminderCount loan)) 1)
                  (toISOString (newDate o 2)) (toISOString (newDate o 3)))
               (Db.loans db))
            (Db.set_notifications (Db.notifications db ++ [n]) db).
Proof.
  unfold sendOverdueReminder. run.
  destruct (Docs.findOne _ (Db.loans db)) as [loan|]; [|discriminate].
  destruct (isOverdue loan (newDate o 0)) eqn:Ho; cbn; [|discriminate].
  destruct (Docs.findOne _ (Db.users db)); [|discriminate].
  destruct (Docs.findOne _ (Db.books db)); [|discriminate].
  match goal with
  | |- context [Docs.insertOne ?n ?c] =>
      destruct (Docs.insertOne n c) as [ns|] eqn:Hins
  end; cbn; [|discriminate].
  apply insertOne_Some in Hins. subst ns.
  intros [= <-]. eexists _, _. repeat split; [assumption|..].
  all: reflexivity.
Qed.

(** A reminder for an overdue loan whose user and book are on record is
    answered 204, provided the fresh identifier is not taken. *)
Lemma sendOverdueReminder_succeeds id o db loan user book :
  loanById id db = Some loan ->
  isOverdue loan (newDate o 0) = true ->
  Docs.findOne (fun u => User._id u =? Loan.userId loan) (Db.users db)
    = Some user ->
  Docs.findOne (fun b => Book._id b =? Loan.bookId loan) (Db.books db)
    = Some book ->
  (forall n, In n (Db.notifications db) ->
             Notification._id n <> generateId o 0) ->
  fst (sendOverdueReminder id o db) = send 204.
Proof.
  intros Hf Ho Hu Hb Hfresh. unfold sendOverdueReminder. run.
  rewrite Hf, Ho. cbn [negb]. rewrite Hu, Hb.
  unfold Docs.insertOne. cbn [doc_id Notification_Document Notification._id].
  replace (existsb _ (Db.notifications db)) with false; [reflexivity|].
  symmetry. apply not_true_is_false. intros Hex.
  apply existsb_exists in Hex. destruct Hex as (n & Hn & Heq).
  apply String.eqb_eq in Heq. exact (Hfresh n Hn Heq).
Qed.

(** On the loans and copies, a reminder changes at most the reminder fields
    of loans. *)
Lemma sendOverdueReminder_effect id o db :
  let db' := snd (sendOverdueReminder id o db) in
  Db.bookCopies db' = Db.bookCopies db /\
  (Db.loans db' = Db.loans db \/
   exists count last at_,
     Db.loans db' =
       Docs.updateOne (fun l => Loan._id l =? id)
         (Loan.set_reminded count last at_) (Db.loans db)).
Proof.
  unfold sendOverdueReminder. run.
  destruct (Docs.findOne _ (Db.loans db)) as [loan|]; [|auto].
  destruct (isOverdue loan (newDate o 0)); cbn; [|auto].
  destruct (Docs.findOne _ (Db.users db)); [|cbn; auto].
  destruct (Docs.findOne _ (Db.books db)); [|cbn; auto].
  match goal with
  | |- context [Docs.insertOne ?n ?c] => destruct (Docs.insertOne n c)
  end; cbn; [|auto].
  split; [reflexivity|]. right. eexists _, _, _. reflexivity.
Qed.

End HandlerFacts.

(** ** The deletion cascade *)

Section Cascade.
Context `{JsRuntime}.

Lemma forOf_freeCopies o userLoans k db :
  forOf userLoans k (fun k loan =>
    updateOne copies (fun c => BookCopy._id c =? Loan.copyId loan)
      (BookCopy.set_status CopyStatus.AVAILABLE (toISOString (newDate o k))))
    db
  = (Ok tt, Db.set_bookCopies (freeCopies o userLoans k (Db.bookCopies db)) db).
Proof.
  revert k db. induction userLoans as [|loan rest IH]; intros k db.
  - destruct db; reflexivity.
  - cbn [forOf freeCopies]. unfold bind at 1. unfold updateOne at 1.
    rewrite IH. destruct db; reflexivity.
Qed.

(** [deleteUser] either refuses and leaves the database alone, or answers
    204 and leaves [afterDelete]. *)
Lemma deleteUser_cases id user o db :
  (exists r, r <> send 204 /\ deleteUser id user o db = (r, db)) \/
  exists target,
    Docs.findOne (fun u => User._id u =? id) (Db.users db) = Some target /\
    deleteUser id user o db = (send 204, afterDelete id target o db).
Proof.
  unfold deleteUser, try_catch. rewrite !bind_findOne. cbn [docs users].
  destruct (Docs.findOne _ (Db.users db)) as [target|];
    [|left; eexists; split; [|reflexivity]; discriminate].
  destruct (eqUndef (User._id target) _);
    [left; eexists; split; [|reflexivity]; discriminate|].
  destruct (Role.eqb (User.role target) Role.ADMIN && _);
    [left; eexists; split; [|reflexivity]; discriminate|].
  destruct (Role.eqb (User.role target) Role.STAFF && _);
    [left; eexists; split; [|reflexivity]; discriminate|].
  right. exists target. split; [reflexivity|].
  rewrite bind_findAll. unfold bind at 1. rewrite forOf_freeCopies.
  fold (openLoansOf id). reflexivity.
Qed.

Lemma freeCopies_ids o userLoans k cs :
  map BookCopy._id (freeCopies o userLoans k cs) = map BookCopy._id cs.
Proof.
  revert k cs. induction userLoans as [|loan rest IH]; intros k cs;
    [reflexivity|].
  cbn [freeCopies]. rewrite IH. now apply updateOne_map_key.
Qed.

(** A copy after the loop is a copy from before, or was freed for one of
    the loans. *)
Lemma freeCopies_In o userLoans k cs c :
  In c (freeCopies o userLoans k cs) ->
  In c cs \/
  (BookCopy.status c = CopyStatus.AVAILABLE /\
   exists l, In l userLoans /\ Loan.copyId l = BookCopy._id c).
Proof.
  revert k cs. induction userLoans as [|loan rest IH]; intros k cs;
    [now left|].
  cbn [freeCopies]. intros Hin.
  destruct (IH _ _ Hin) as [Hc|(Hs & l & Hl & Hid)].
  - destruct (updateOne_In _ _ _ _ Hc) as [?|(d & Hd & Hq & ->)];
      [now left|].
    right. split; [reflexivity|]. exists loan. split; [now left|].
    apply String.eqb_eq in Hq. now rewrite <- Hq.
  - right. split; [assumption|]. exists l. split; [now right | assumption].
Qed.

(** Where copy ids are unique, every copy of one of the loans ends up
    available. *)
Lemma freeCopies_freed o userLoans k cs c :
  NoDup (map BookCopy._id cs) ->
  In c (freeCopies o userLoans k cs) ->
  In (BookCopy._id c) (map Loan.copyId userLoans) ->
  BookCopy.status c = CopyStatus.AVAILABLE.
Proof.
  revert k cs. induction userLoans as [|loan rest IH]; intros k cs Hnd Hin Hid;
    [destruct Hid|].
  cbn [freeCopies] in Hin.
  assert (Hnd' : NoDup (map BookCopy._id
            (Docs.updateOne (fun c => BookCopy._id c =? Loan.copyId loan)
               (BookCopy.set_status CopyStatus.AVAILABLE
                  (toISOString (newDate o k))) cs)))
    by (rewrite updateOne_map_key; auto).
  destruct (in_dec string_dec (BookCopy._id c) (map Loan.copyId rest))
    as [Hrest|Hrest]; [now apply (IH _ _ Hnd' Hin)|].
  destruct Hid as [Hid|Hid]; [|contradiction].
  destruct (freeCopies_In _ _ _ _ _ Hin) as [Hc|[Hs _]]; [|assumption].
  rewrite (updateOne_by_key BookCopy._id) in Hc by assumption.
  apply in_map_iff in Hc. destruct Hc as (x & <- & _).
  destruct (BookCopy._id x =? Loan.copyId loan) eqn:Hx; [reflexivity|].
  apply String.eqb_neq in Hx. congruence.
Qed.

(** With unique copy ids, the deletion frees the copy of every loan of the
    user that is not stored as [RETURNED]. *)
Lemma afterDelete_frees id target o db l c :
  NoDup (map BookCopy._id (Db.bookCopies db)) ->
  In l (Db.loans db) -> Loan.userId l = id ->
  Loan.status l <> LoanStatus.RETURNED ->
  In c (Db.bookCopies (afterDelete id target o db)) ->
  BookCopy._id c = Loan.copyId l ->
  BookCopy.status c = CopyStatus.AVAILABLE.
Proof.
  intros Hnd Hl Hu Hs Hc Hid. cbn in Hc.
  eapply freeCopies_freed; [exact Hnd | exact Hc |]. rewrite Hid.
  apply in_map. apply filter_In. split; [assumption|].
  unfold openLoansOf. rewrite Hu, String.eqb_refl. cbn [andb].
  destruct (Loan.status l); try reflexivity. congruence.
Qed.

(** The deletion removes no copy: the copy of such a loan is still found
    under its id, and is available. *)
Lemma afterDelete_stored id target o db l c :
  NoDup (map BookCopy._id (Db.bookCopies db)) ->
  In l (Db.loans db) -> Loan.userId l = id ->
  Loan.status l <> LoanStatus.RETURNED ->
  copyById (Loan.copyId l) db = Some c ->
  exists c',
    copyById (Loan.copyId l) (afterDelete id target o db) = Some c' /\
    BookCopy.status c' = CopyStatus.AVAILABLE.
Proof.
  intros Hnd Hl Hu Hs Hc. unfold copyById in *. apply findOne_In in Hc.
  destruct Hc as [Hc Hq]. apply String.eqb_eq in Hq.
  assert (Hin : In (Loan.copyId l)
                  (map BookCopy._id
                     (Db.bookCopies (afterDelete id target o db)))).
  { cbn [afterDelete Db.bookCopies]. rewrite freeCopies_ids, <- Hq.
    now apply in_map. }
  apply in_map_iff in Hin. destruct Hin as (x & Hx & Hxin).
  destruct (Docs.findOne (fun c0 => BookCopy._id c0 =? Loan.copyId l)
              (Db.bookCopies (afterDelete id target o db)))
    as [c'|] eqn:Hf.
  - exists c'. split; [reflexivity|]. apply findOne_In in Hf.
    destruct Hf as [Hin' Hq']. apply String.eqb_eq in Hq'.
    now apply afterDelete_frees with (id := id) (target := target) (o := o)
                                     (db := db) (l := l).
  - apply findOne_None with (d := x) in Hf; [|assumption].
    rewrite Hx, String.eqb_refl in Hf. discriminate.
Qed.

End Cascade.

(** ** The invariant is kept by every request *)

Lemma NoDup_key_eq {A K} (key : A -> K) (l : list A) (x y : A) :
  NoDup (map key l) -> In x l -> In y l -> key x = key y -> x = y.
Proof.
  induction l as [|z l IH]; simpl; [tauto|].
  intros Hnd Hx Hy Hk. inversion Hnd as [|? ? Hnotin Hnd']; subst.
  destruct Hx as [->|Hx], Hy as [->|Hy]; auto.
  - exfalso. apply Hnotin. rewrite Hk. now apply in_map.
  - exfalso. apply Hnotin. rewrite <- Hk. now apply in_map.
Qed.

Lemma filter_updateOne_length {A} (p q : A -> bool) (set : A -> A) c :
  (forall d, p (set d) = p d) ->
  length (filter p (Docs.updateOne q set c)) = length (filter p c).
Proof.
  intros Hp. induction c as [|x c IH]; simpl; [reflexivity|].
  destruct (q x); simpl.
  - rewrite Hp. now destruct (p x).
  - destruct (p x); simpl; now rewrite IH.
Qed.

Lemma filter_filter_length {A} (p q : A -> bool) c :
  length (filter p (filter q c)) <= length (filter p c).
Proof.
  induction c as [|x c IH]; simpl; [lia|].
  destruct (q x), (p x) eqn:Hp; simpl; rewrite ?Hp; simpl; lia.
Qed.

Lemma activeLoansOf_In copyId_ ls l :
  In l (activeLoansOf copyId_ ls) <->
  In l ls /\ active l = true /\ Loan.copyId l = copyId_.
Proof.
  unfold activeLoansOf. rewrite filter_In, andb_true_iff, String.eqb_eq.
  tauto.
Qed.

Lemma activeLoansOf_none copyId_ ls :
  (forall l, In l ls -> active l = true -> Loan.copyId l <> copyId_) ->
  activeLoansOf copyId_ ls = [].
Proof.
  intros Hno. destruct (activeLoansOf copyId_ ls) as [|l rest] eqn:E;
    [reflexivity|].
  assert (Hin : In l (activeLoansOf copyId_ ls)) by (rewrite E; now left).
  apply activeLoansOf_In in Hin. destruct Hin as (Hl & Ha & Hc).
  now destruct (Hno l Hl Ha).
Qed.

Section Preservation.
Context `{JsRuntime}.

Lemma Inv_same db db' :
  Db.bookCopies db' = Db.bookCopies db -> Db.loans db' = Db.loans db ->
  Inv db -> Inv db'.
Proof.
  intros Hc Hl [H1 H2 H3 H4].
  constructor; rewrite ?Hc, ?Hl; assumption.
Qed.

(** Reserving the first available copy of a book. *)
Lemma Inv_reserve db db' bookId_ o c :
  Inv db ->
  Docs.findOne (availableOf bookId_) (Db.bookCopies db) = Some c ->
  Db.bookCopies db' =
    Docs.updateOne (availableOf bookId_) (reserve o) (Db.bookCopies db) ->
  Db.loans db' = Db.loans db ->
  Inv db'.
Proof.
  intros [H1 H2 H3 H4] Hf Hc Hl.
  constructor; rewrite ?Hc, ?Hl; try assumption.
  - rewrite updateOne_map_key; auto.
  - intros l c' Hin Ha Hc' Hid.
    destruct (updateOne_In _ _ _ _ Hc') as [?|(d & _ & _ & ->)];
      [eauto | reflexivity].
Qed.

(** Appending the loan of the copy just reserved. *)
Lemma Inv_borrow db db' c l :
  Inv db ->
  In c (Db.bookCopies db) ->
  BookCopy.status c = CopyStatus.AVAILABLE ->
  (forall c', In c' (Db.bookCopies db') ->
     BookCopy._id c' = BookCopy._id c ->
     BookCopy.status c' = CopyStatus.BORROWED) ->
  Inv (Db.set_loans (Db.loans db) db') ->
  Db.loans db' = Db.loans db ++ [l] ->
  Loan.returnDate l = None -> Loan.status l = LoanStatus.BORROWED ->
  Loan.copyId l = BookCopy._id c ->
  Inv db'.
Proof.
  intros [_ _ G3 _] Hc Hav Hnew [H1 H2 H3 H4] Hl Hr Hs Hid.
  cbn [Db.loans Db.bookCopies Db.set_loans] in H1, H2, H3, H4.
  constructor; rewrite ?Hl; try assumption.
  - intros l0 Hin. apply in_app_or in Hin.
    destruct Hin as [Hin|[<-|[]]]; [auto|].
    unfold statusAgrees. rewrite Hr, Hs. split; [congruence|discriminate].
  - intros l0 c' Hin Ha Hc' Hid'. apply in_app_or in Hin.
    destruct Hin as [Hin|[<-|[]]]; [eauto|].
    apply Hnew; [assumption | congruence].
  - intros copyId_. unfold activeLoansOf. rewrite filter_app, length_app.
    fold (activeLoansOf copyId_ (Db.loans db)). cbn [filter].
    destruct (active l && (Loan.copyId l =? copyId_)) eqn:E;
      cbn [length]; [|specialize (H4 copyId_); lia].
    apply andb_true_iff in E. destruct E as [_ E].
    apply String.eqb_eq in E.
    rewrite activeLoansOf_none; [cbn; lia|].
    intros l0 Hin Ha Heq.
    assert (Hb : BookCopy.status c = CopyStatus.BORROWED)
      by (apply (G3 l0 c); congruence).
    congruence.
Qed.

(** Returning an active loan. *)
Lemma Inv_return db id o loan :
  Inv db -> loanById id db = Some loan -> Loan.returnDate loan = None ->
  Inv (snd (returnLoan id o db)).
Proof.
  intros [H1 H2 H3 H4] Hf Hr. rewrite (returnLoan_ok _ _ _ Hf Hr).
  cbn [snd]. unfold loanById in Hf.
  destruct (@updateOne_split _ _
              (Loan.set_returned (toISOString (newDate o 0))
                 (toISOString (newDate o 1))) _ _ Hf)
    as (pre & post & Hloans & _ & Hup).
  assert (Hact : active loan = true) by (unfold active; now rewrite Hr).
  assert (Hother : forall l, In l (pre ++ post) -> active l = true ->
                     Loan.copyId l <> Loan.copyId loan).
  { intros l Hin Ha Heq. specialize (H4 (Loan.copyId loan)).
    rewrite Hloans in H4. unfold activeLoansOf in H4.
    rewrite filter_app, length_app in H4. cbn [filter] in H4.
    rewrite Hact, String.eqb_refl in H4. cbn [andb length] in H4.
    assert (Hl : In l (activeLoansOf (Loan.copyId loan) (pre ++ post)))
      by (apply activeLoansOf_In; auto).
    unfold activeLoansOf in Hl. rewrite filter_app in Hl.
    apply in_app_or in Hl.
    destruct Hl as [Hl|Hl];
      [destruct (filter _ pre) | destruct (filter _ post)];
      try destruct Hl; cbn [length] in H4; lia. }
  assert (Hsub : forall l,
            In l (pre ++ Loan.set_returned (toISOString (newDate o 0))
                          (toISOString (newDate o 1)) loan :: post) ->
            active l = true -> In l (pre ++ post) /\ In l (Db.loans db)).
  { intros l Hin Ha. rewrite Hloans. apply in_app_or in Hin.
    destruct Hin as [Hin|[<-|Hin]]; [| discriminate Ha |];
      split; apply in_or_app; cbn; auto. }
  constructor; cbn; rewrite ?Hup.
  - rewrite updateOne_map_key; auto.
  - intros l Hin. apply in_app_or in Hin.
    destruct Hin as [Hin|[<-|Hin]].
    + apply H2. rewrite Hloans. apply in_or_app. auto.
    + unfold statusAgrees. cbn. split; [reflexivity | discriminate].
    + apply H2. rewrite Hloans. apply in_or_app. cbn. auto.
  - intros l c Hin Ha Hc Hid. destruct (Hsub l Hin Ha) as [Hpp Hold].
    destruct (updateOne_In _ _ _ _ Hc) as [?|(d & _ & Hq & ->)];
      [eauto|].
    apply String.eqb_eq in Hq. cbn in Hid.
    destruct (Hother l Hpp Ha). congruence.
  - intros copyId_. specialize (H4 copyId_). rewrite Hloans in H4.
    unfold activeLoansOf in *. rewrite filter_app, length_app in *.
    cbn [filter] in *. cbn [active Loan.returnDate Loan.set_returned andb].
    destruct (active loan && _) in H4; cbn [length] in H4; lia.
Qed.

(** Rewriting the reminder fields of a loan. *)
Lemma Inv_remind db db' id count last at_ :
  Inv db ->
  Db.bookCopies db' = Db.bookCopies db ->
  Db.loans db' =
    Docs.updateOne (fun l => Loan._id l =? id)
      (Loan.set_reminded count last at_) (Db.loans db) ->
  Inv db'.
Proof.
  intros [H1 H2 H3 H4] Hc Hl.
  constructor; rewrite ?Hc, ?Hl; try assumption.
  - intros l Hin.
    destruct (updateOne_In _ _ _ _ Hin) as [?|(d & Hd & _ & ->)]; [auto|].
    exact (H2 d Hd).
  - intros l c Hin Ha Hc' Hid.
    destruct (updateOne_In _ _ _ _ Hin) as [?|(d & Hd & _ & ->)]; [eauto|].
    exact (H3 d c Hd Ha Hc' Hid).
  - intros copyId_. unfold activeLoansOf.
    rewrite filter_updateOne_length; [apply H4 | reflexivity].
Qed.

(** The deletion cascade. *)
Lemma Inv_delete db id target o :
  Inv db -> Inv (afterDelete id target o db).
Proof.
  intros [H1 H2 H3 H4]. constructor; cbn.
  - now rewrite freeCopies_ids.
  - intros l Hin. apply deleteMany_In in Hin. now apply H2.
  - intros l c Hin Ha Hc Hid. apply deleteMany_In in Hin.
    destruct Hin as [Hin Hu].
    destruct (freeCopies_In _ _ _ _ _ Hc) as [?|(_ & l0 & Hl0 & Hid0)];
      [eauto|].
    apply filter_In in Hl0. destruct Hl0 as [Hl0 Hopen].
    unfold openLoansOf in Hopen. apply andb_true_iff in Hopen.
    destruct Hopen as [Hu0 Hst].
    assert (Ha0 : active l0 = true).
    { unfold active. destruct (Loan.returnDate l0) eqn:Er; [|reflexivity].
      assert (Hret : Loan.status l0 = LoanStatus.RETURNED)
        by (apply (H2 l0 Hl0); congruence).
      rewrite Hret in Hst. discriminate. }
    assert (Hne : l <> l0) by (intros ->; congruence).
    assert (Htwo : 2 <= length (activeLoansOf (Loan.copyId l) (Db.loans db))).
    { apply (@filter_two _ _ _ l l0); auto.
      - now rewrite Ha, String.eqb_refl.
      - rewrite Ha0. apply andb_true_iff. split; [reflexivity|].
        apply String.eqb_eq. congruence. }
    specialize (H4 (Loan.copyId l)). lia.
  - intros copyId_. unfold activeLoansOf, Docs.deleteMany.
    etransitivity; [apply filter_filter_length | apply H4].
Qed.

End Preservation.

(** ** Read paths and notification updates leave loans and copies alone *)

Section Frames.
Context `{JsRuntime}.

Lemma getLoansForUser_reads userId_ user o db :
  snd (getLoansForUser userId_ user o db) = db.
Proof.
  unfold getLoansForUser, try_catch. destruct user as [user|];
    [|reflexivity].
  destruct (negb (userId user =? userId_) && _); reflexivity.
Qed.

Lemma getAdminLoans_reads o db : snd (getAdminLoans o db) = db.
Proof. reflexivity. Qed.

Lemma getDashboardStats_reads o db : snd (getDashboardStats o db) = db.
Proof.
  unfold getDashboardStats, try_catch, bind, countDocuments, findAll.
  cbn [docs loans]. destruct (countLoans _ _ 0 0). reflexivity.
Qed.

Lemma getUserNotifications_reads user db :
  snd (getUserNotifications user db) = db.
Proof. destruct user; reflexivity. Qed.

Lemma getUnreadCount_reads user db : snd (getUnreadCount user db) = db.
Proof. destruct user; reflexivity. Qed.

Lemma markAsRead_notifications id user db :
  snd (markAsRead id user db) = db \/
  exists u,
    user = Some u /\
    snd (markAsRead id user db) =
      Db.set_notifications
        (Docs.updateOne
           (fun n => (Notification._id n =? id)
                     && (Notification.userId n =? userId u))
           (Notification.set_isRead true) (Db.notifications db))
        db.
Proof. destruct user as [u|]; [right; exists u|left]; auto. Qed.

Lemma markAllAsRead_notifications user db :
  snd (markAllAsRead user db) = db \/
  exists u,
    user = Some u /\
    snd (markAllAsRead user db) =
      Db.set_notifications
        (Docs.updateMany
           (fun n => (Notification.userId n =? userId u)
                     && negb (Notification.isRead n))
           (Notification.set_isRead true) (Db.notifications db))
        db.
Proof. destruct user as [u|]; [right; exists u|left]; auto. Qed.

(** Every request keeps the invariant. *)
Lemma handle_Inv req o db : Inv db -> Inv (snd (handle req o db)).
Proof.
  intros HI. destruct req as [u user| |u b d|id|id| |id user|user|user
                              |id user|user|id user]; cbn [handle].
  - now rewrite getLoansForUser_reads.
  - now rewrite getAdminLoans_reads.
  - destruct (createLoan_effect u b d o db)
      as [->|(c & Hf & Hc & [Hl|(l & Hl & Hr & Hs & Hid)])]; [assumption|..].
    + eapply Inv_reserve; eauto.
    + destruct (findOne_In _ _ Hf) as [Hin Hq].
      unfold availableOf in Hq. apply andb_true_iff in Hq.
      destruct Hq as [_ Hq].
      eapply Inv_borrow with (c := c) (l := l); eauto.
      * now destruct (BookCopy.status c).
      * intros c' Hc' Hid'. rewrite Hc in Hc'.
        destruct (@updateOne_split _ _ (reserve o) _ _ Hf)
          as (pre & post & _ & _ & Hup).
        assert (Hres : In (reserve o c)
                  (Docs.updateOne (availableOf b) (reserve o)
                     (Db.bookCopies db)))
          by (rewrite Hup; apply in_or_app; cbn; auto).
        assert (Heq : c' = reserve o c).
        { apply (NoDup_key_eq BookCopy._id) with (3 := Hres); auto.
          rewrite updateOne_map_key; [apply HI | reflexivity]. }
        now rewrite Heq.
      * eapply Inv_reserve with (db := db); eauto.
  - destruct (loanById id db) as [loan|] eqn:Hf.
    + destruct (Loan.returnDate loan) eqn:Hr.
      * erewrite returnLoan_already; eauto. congruence.
      * now apply Inv_return with (loan := loan).
    + now rewrite returnLoan_not_found.
  - destruct (sendOverdueReminder_effect id o db)
      as [Hc [Hl|(count & last & at_ & Hl)]].
    + eapply Inv_same; eauto.
    + eapply Inv_remind; eauto.
  - now rewrite getDashboardStats_reads.
  - destruct (deleteUser_cases id user o db)
      as [(r & _ & ->)|(target & _ & ->)]; [assumption|].
    now apply Inv_delete.
  - now rewrite getUserNotifications_reads.
  - now rewrite getUnreadCount_reads.
  - destruct (markAsRead_notifications id user db) as [->|(u & _ & ->)];
      [assumption|]. now apply Inv_same with (db := db).
  - destruct (markAllAsRead_notifications user db) as [->|(u & _ & ->)];
      [assumption|]. now apply Inv_same with (db := db).
  - destruct user; [|assumption]. now apply Inv_same with (db := db).
Qed.

Lemma initial_emptyDb : initial emptyDb.
Proof. split; [reflexivity | constructor]. Qed.

Lemma initial_Inv db : initial db -> Inv db.
Proof.
  intros [Hl Hnd]. constructor; rewrite ?Hl.
  - assumption.
  - intros l [].
  - intros l c [].
  - intros copyId_. cbn. lia.
Qed.

Lemma reachable_Inv db : reachable db -> Inv db.
Proof.
  induction 1 as [db Hi|db req o _ IH];
    [now apply initial_Inv | now apply handle_Inv].
Qed.

End Frames.

(** * Requests that take turns *)

(** ** A task served alone is its handler function *)

Section Interleaving.
Context `{JsRuntime}.

(** An awaited operation under [try]/[catch], run without interruption. *)
Lemma complete_await {A} message (op : M A) (k : A -> Task.t) db :
  Task.complete (Task.try_catch message (Task.await op k)) db =
  match op db with
  | (Ok a, db') => Task.complete (Task.try_catch message (k a)) db'
  | (Throw e, db') => (Some (json 500 (JError message e)), db')
  end.
Proof.
  cbn [Task.await Task.try_catch Task.complete].
  destruct (op db) as [[a|e] db']; reflexivity.
Qed.

Lemma try_catch_bind {A} message (op : M A) (k : A -> M Response.t) db :
  try_catch message (bind op k) db =
  match op db with
  | (Ok a, db') => try_catch message (k a) db'
  | (Throw e, db') => (json 500 (JError message e), db')
  end.
Proof.
  unfold try_catch, bind. destruct (op db) as [[a|e] db']; reflexivity.
Qed.

Lemma alone_await {A} message (op : M A) k (k' : A -> M Response.t) :
  (forall a, alone (Task.try_catch message (k a)) (try_catch message (k' a))) ->
  alone (Task.try_catch message (Task.await op k))
        (try_catch message (bind op k')).
Proof.
  intros Hk db. rewrite complete_await, try_catch_bind.
  destruct (op db) as [[a|e] db']; [apply Hk | reflexivity].
Qed.

Lemma alone_Done message r :
  alone (Task.try_catch message (Task.Done r)) (try_catch message (ret r)).
Proof. intros db. reflexivity. Qed.

Lemma try_catch_bind_bind {A B} message (m : M A) (f : A -> M B)
    (g : B -> M Response.t) db :
  try_catch message (bind (bind m f) g) db =
  try_catch message (bind m (fun a => bind (f a) g)) db.
Proof.
  unfold try_catch, bind. destruct (m db) as [[a|e] db']; reflexivity.
Qed.

Lemma alone_forOf {A} message (xs : list A) body rest (rest' : M Response.t) :
  alone (Task.try_catch message rest) (try_catch message rest') ->
  forall k,
  alone (Task.try_catch message (Task.forOf xs k body rest))
        (try_catch message (bind (forOf xs k body) (fun _ => rest'))).
Proof.
  intros Hrest. induction xs as [|x xs IH]; intros k db.
  - cbn [Task.forOf forOf]. rewrite try_catch_bind. cbn. apply Hrest.
  - cbn [Task.forOf forOf].
    rewrite complete_await, try_catch_bind_bind, try_catch_bind.
    destruct (body k x db) as [[[]|e] db']; [apply IH | reflexivity].
Qed.

Lemma alone_ret {A} message task (a : A) (k : A -> M Response.t) :
  alone task (try_catch message (k a)) ->
  alone task (try_catch message (bind (ret a) k)).
Proof. intros Hk db. exact (Hk db). Qed.

Ltac agree :=
  repeat
    match goal with
    | |- alone (Task.try_catch _ (Task.Done _)) _ => apply alone_Done
    | |- alone (Task.try_catch _ (Task.Threw _)) _ => intros ?; reflexivity
    | |- alone _ (try_catch _ (bind (ret _) _)) => apply alone_ret
    | |- alone (Task.try_catch _ (Task.await _ _)) _ =>
        apply alone_await; intros ?
    | |- alone (Task.try_catch _ match ?x with _ => _ end) _ => destruct x
    | |- alone (Task.try_catch _ (if ?b then _ else _)) _ => destruct b
    end.

Lemma createLoan_alone u b d o :
  alone (Async.createLoan u b d o) (createLoan u b d o).
Proof. unfold Async.createLoan, createLoan. agree. Qed.

Lemma returnLoan_alone id o : alone (Async.returnLoan id o) (returnLoan id o).
Proof. unfold Async.returnLoan, returnLoan. agree. Qed.

Lemma sendOverdueReminder_alone id o :
  alone (Async.sendOverdueReminder id o) (sendOverdueReminder id o).
Proof. unfold Async.sendOverdueReminder, sendOverdueReminder. agree. Qed.

Lemma deleteUser_alone id user o :
  alone (Async.deleteUser id user o) (deleteUser id user o).
Proof.
  unfold Async.deleteUser, deleteUser. agree.
  apply alone_forOf. agree.
Qed.

Lemma getDashboardStats_alone o :
  alone (Async.getDashboardStats o) (getDashboardStats o).
Proof.
  unfold Async.getDashboardStats, getDashboardStats. agree.
Qed.

(** A request that is served alone is answered, and the database changed,
    as its handler function says. *)
Lemma task_alone req o db :
  Task.complete (Async.task req o) db =
    (Some (fst (handle req o db)), snd (handle req o db)).
Proof.
  revert db. change (alone (Async.task req o) (handle req o)).
  destruct req; cbn [Async.task handle].
  - unfold Async.getLoansForUser, getLoansForUser. agree.
  - unfold Async.getAdminLoans, getAdminLoans. agree.
  - apply createLoan_alone.
  - apply returnLoan_alone.
  - apply sendOverdueReminder_alone.
  - apply getDashboardStats_alone.
  - apply deleteUser_alone.
  - unfold Async.getUserNotifications, getUserNotifications. agree.
  - unfold Async.getUnreadCount, getUnreadCount. agree.
  - unfold Async.markAsRead, markAsRead. agree.
  - unfold Async.markAllAsRead, markAllAsRead. agree.
  - unfold Async.deleteNotification, deleteNotification. agree.
Qed.

(** ** Schedules *)

Lemma interleaved_run events s :
  interleaved s -> interleaved (Server.run events s).
Proof.
  revert s. induction events as [|e events IH]; intros s Hs; [exact Hs|].
  cbn [Server.run fold_left]. apply IH. now apply interleaved_step.
Qed.

Lemma run_app events events' s :
  Server.run (events ++ events') s = Server.run events' (Server.run events s).
Proof. unfold Server.run. apply fold_left_app. Qed.

Lemma resume_last tasks next write db :
  Server.resume (length tasks) (tasks ++ [Task.Await next write]) db =
    (tasks ++ [next db], write db).
Proof.
  induction tasks as [|task tasks IH]; [reflexivity|].
  cbn [length app Server.resume]. now rewrite IH.
Qed.

(** The last request in flight can be served to its end before anything
    else happens. *)
Lemma serve_last task tasks db r db' :
  Task.complete task db = (Some r, db') ->
  exists events,
    Server.run events {| Server.db := db; Server.inFlight := tasks ++ [task] |}
    = {| Server.db := db'; Server.inFlight := tasks ++ [Task.Done r] |}.
Proof.
  revert db. induction task as [r0|e|next IH write]; intros db Hrun.
  - injection Hrun as <- <-. now exists [].
  - discriminate.
  - cbn [Task.complete] in Hrun. destruct (IH _ _ Hrun) as [events Hev].
    exists (Server.Resume (length tasks) :: events).
    cbn [Server.run fold_left Server.step Server.db Server.inFlight].
    rewrite resume_last. exact Hev.
Qed.

(** What the requests reach one at a time, they reach taking turns. *)
Lemma reachable_interleaved db :
  reachable db -> exists s, interleaved s /\ Server.db s = db.
Proof.
  induction 1 as [db Hi|db req o _ (s & Hs & <-)].
  - exists (Server.start db). split; [now apply interleaved_start|reflexivity].
  - destruct (@serve_last (Async.task req o) (Server.inFlight s)
                (Server.db s) _ _ (task_alone req o (Server.db s)))
      as [events Hev].
    exists (Server.run (Server.Arrive req o :: events) s). split.
    + now apply interleaved_run.
    + change (Server.run (Server.Arrive req o :: events) s)
        with (Server.run events
                {| Server.db := Server.db s;
                   Server.inFlight :=
                     Server.inFlight s ++ [Async.task req o] |}).
      rewrite Hev. reflexivity.
Qed.

(** ** What every schedule keeps *)

Lemma keeps_try_catch P message task :
  keeps P task -> keeps P (Task.try_catch message task).
Proof. induction 1; cbn [Task.try_catch]; constructor; auto. Qed.

Lemma keeps_await P {A} (op : M A) (k : A -> Task.t) :
  (forall db, P db -> P (snd (op db))) ->
  (forall a, keeps P (k a)) ->
  keeps P (Task.await op k).
Proof.
  intros Hop Hk. constructor; [exact Hop|].
  intros db. destruct (fst (op db)); [apply Hk | constructor].
Qed.

Lemma keeps_forOf P {A} (xs : list A) body rest :
  (forall k x db, P db -> P (snd (body k x db))) ->
  keeps P rest ->
  forall k, keeps P (Task.forOf xs k body rest).
Proof.
  intros Hbody Hrest. induction xs as [|x xs IH]; intros k; [exact Hrest|].
  cbn [Task.forOf]. apply keeps_await; [apply Hbody | intros _; apply IH].
Qed.

Lemma stored_copies db cs :
  map BookCopy._id cs = map BookCopy._id (Db.bookCopies db) ->
  wellStored db -> wellStored (Db.set_bookCopies cs db).
Proof. intros Hids [Hnd Hw]. split; [cbn; now rewrite Hids | exact Hw]. Qed.

Lemma stored_loans db ls :
  (forall l, In l ls -> asWritten l) ->
  wellStored db -> wellStored (Db.set_loans ls db).
Proof. intros Hls [Hnd _]. split; [exact Hnd | exact Hls]. Qed.

Lemma asWritten_reminded count last at_ l :
  asWritten l -> asWritten (Loan.set_reminded count last at_ l).
Proof. intros Hl. exact Hl. Qed.

Lemma asWritten_returned returned at_ l :
  asWritten (Loan.set_returned returned at_ l).
Proof. right. split; [discriminate | reflexivity]. Qed.

(** Each operation the handlers await keeps the store well formed. *)
Ltac stored :=
  let db := fresh "db" in
  let Hw := fresh "Hw" in
  intros db Hw; run;
  repeat match goal with
         | |- context [match ?x with _ => _ end] => destruct x eqn:?
         end;
  cbn [snd]; try exact Hw;
  first
    [ apply stored_copies; [|exact Hw];
      now apply updateOne_map_key
    | apply stored_loans; [|exact Hw];
      let l := fresh "l" in
      let Hl := fresh "Hl" in
      intros l Hl;
      first
        [ apply deleteMany_In in Hl; now apply (proj2 Hw)
        | apply updateOne_In in Hl;
          destruct Hl as [Hl|(? & Hl & _ & ->)];
          [ now apply (proj2 Hw)
          | first [ apply asWritten_returned
                  | apply asWritten_reminded; now apply (proj2 Hw) ] ]
        | match goal with
          | E : Docs.insertOne _ _ = Some _ |- _ =>
              apply insertOne_Some in E; subst;
              apply in_app_or in Hl; destruct Hl as [Hl|[<-|[]]];
              [ now apply (proj2 Hw) | left; split; reflexivity ]
          end ] ].

Ltac kept :=
  repeat
    match goal with
    | |- keeps _ (Task.try_catch _ _) => apply keeps_try_catch
    | |- keeps _ (Task.Done _) => constructor
    | |- keeps _ (Task.Threw _) => constructor
    | |- keeps _ (Task.await _ _) => apply keeps_await; [stored|intros ?]
    | |- keeps _ (Task.forOf _ _ _ _) =>
        apply keeps_forOf; [intros ? ?; stored|]
    | |- keeps _ match ?x with _ => _ end => destruct x
    | |- keeps _ (if ?b then _ else _) => destruct b
    end.

Lemma task_wellStored req o : keeps wellStored (Async.task req o).
Proof.
  destruct req; cbn [Async.task].
  - unfold Async.getLoansForUser. kept.
  - unfold Async.getAdminLoans. kept.
  - unfold Async.createLoan. kept.
  - unfold Async.returnLoan. kept.
  - unfold Async.sendOverdueReminder. kept.
  - unfold Async.getDashboardStats. kept.
  - unfold Async.deleteUser. kept.
  - unfold Async.getUserNotifications. kept.
  - unfold Async.getUnreadCount. kept.
  - unfold Async.markAsRead. kept.
  - unfold Async.markAllAsRead. kept.
  - unfold Async.deleteNotification. kept.
Qed.

Lemma resume_keeps P i tasks db :
  P db -> Forall (keeps P) tasks ->
  P (snd (Server.resume i tasks db)) /\
  Forall (keeps P) (fst (Server.resume i tasks db)).
Proof.
  intros HP Hts. revert i. induction Hts as [|task tasks Ht Hts IH];
    intros i; [now split|].
  destruct i as [|i]; cbn [Server.resume].
  - destruct Ht as [r|e|next write Hw Hn]; cbn [fst snd];
      [split; [assumption | repeat constructor; assumption]..|].
    split; [now apply Hw|]. constructor; [apply Hn | assumption].
  - specialize (IH i). destruct (Server.resume i tasks db) as [rest' db'].
    cbn [fst snd] in *. split; [tauto|]. constructor; tauto.
Qed.

(** While requests take turns, copies keep their distinct ids and every
    loan is stored as the handlers write it. *)
Lemma interleaved_wellStored s :
  interleaved s ->
  wellStored (Server.db s) /\ Forall (keeps wellStored) (Server.inFlight s).
Proof.
  induction 1 as [db [Hl Hnd]|s e _ [Hw Hts]].
  - split; [|constructor]. split; [exact Hnd|].
    cbn. rewrite Hl. intros l [].
  - destruct e as [req o|i]; cbn [Server.step Server.db Server.inFlight].
    + split; [exact Hw|]. apply Forall_app. split; [exact Hts|].
      repeat constructor. apply task_wellStored.
    + destruct (@resume_keeps wellStored i _ _ Hw Hts) as [Hw' Hts'].
      destruct (Server.resume i (Server.inFlight s) (Server.db s)).
      now split.
Qed.

End Interleaving.

(** * The loan lifecycle, claim by claim *)

Section Claims.
Context `{JsRuntime}.

(** C1 (as amended).  For every list of loan records and every current
    time, the lifecycle evaluator leaves a loan whose [returnDate] is a
    non-empty string with its stored status, whatever its due date; any
    other loan gets [OVERDUE] when its [dueDate] is a date strictly before
    the current time and [BORROWED] otherwise. *)
Theorem enrichLoansWithStatus_status (now : Z) (ls : list Loan.t) :
  map Loan.status (enrichLoansWithStatus now ls) =
  map (fun loan =>
         if truthy (Loan.returnDate loan) then Loan.status loan
         else if date_lt (Date_parse (Loan.dueDate loan)) now
              then LoanStatus.OVERDUE
              else LoanStatus.BORROWED)
      ls.
Proof.
  unfold enrichLoansWithStatus. rewrite map_map. apply map_ext.
  intros loan. cbn [get_returnDate get_dueDate put_status Loan_LoanLike].
  destruct (truthy (Loan.returnDate loan)); [reflexivity|].
  destruct (date_lt _ now); reflexivity.
Qed.

(** On loans whose return date, when set, is a non-empty string stored
    together with status [RETURNED], the evaluator computes the status the
    specification describes. *)
Lemma enrichLoansWithStatus_specStatus (now : Z) (ls : list Loan.t) :
  (forall l, In l ls -> Loan.returnDate l <> None ->
     truthy (Loan.returnDate l) = true /\
     Loan.status l = LoanStatus.RETURNED) ->
  map Loan.status (enrichLoansWithStatus now ls) = map (specStatus now) ls.
Proof.
  intros Hok. unfold enrichLoansWithStatus. rewrite map_map.
  apply map_ext_in. intros loan Hin.
  cbn [get_returnDate get_dueDate put_status Loan_LoanLike].
  unfold specStatus. specialize (Hok loan Hin).
  destruct (Loan.returnDate loan) as [r|].
  - destruct Hok as [-> ->]; [discriminate | reflexivity].
  - cbn [truthy]. destruct (date_lt _ now); reflexivity.
Qed.

Lemma findOne_miss {A} (q : A -> bool) (c : list A) :
  (forall d, In d c -> q d = false) -> Docs.findOne q c = None.
Proof.
  induction c as [|x c IH]; intros Hq; cbn; [reflexivity|].
  rewrite (Hq x) by (now left). apply IH. intros d Hd. apply Hq. now right.
Qed.

(** C2.  Where the requested book has no copy with status [AVAILABLE],
    [createLoan] answers 400 "No copies available for this book" and
    leaves the whole database as it was: no loan is inserted and no copy
    changes. *)
Theorem createLoan_no_available_copy userId_ bookId_ dueDate_ o db :
  (forall c, In c (Db.bookCopies db) -> BookCopy.bookId c = bookId_ ->
             BookCopy.status c <> CopyStatus.AVAILABLE) ->
  createLoan userId_ bookId_ dueDate_ o db =
    (json 400 (JMessage "No copies available for this book"), db).
Proof.
  intros Hno. apply createLoan_none. apply findOne_miss.
  intros c Hc. unfold availableOf.
  destruct (BookCopy.bookId c =? bookId_) eqn:Hb; [|reflexivity].
  apply String.eqb_eq in Hb. specialize (Hno c Hc Hb).
  now destruct (BookCopy.status c).
Qed.

(** C3.  [returnLoan] on an id that no loan carries answers 404, and on a
    loan whose [returnDate] is already set answers 400 "Loan already
    returned"; in both cases the database, loans and copies included, is
    unchanged. *)
Theorem returnLoan_rejects id o db :
  ((forall l, In l (Db.loans db) -> Loan._id l <> id) ->
   returnLoan id o db = (json 404 (JMessage "Loan not found"), db)) /\
  (forall loan,
     loanById id db = Some loan -> Loan.returnDate loan <> None ->
     returnLoan id o db = (json 400 (JMessage "Loan already returned"), db)).
Proof.
  split.
  - intros Hno. apply returnLoan_not_found. apply findOne_miss.
    intros l Hl. apply String.eqb_neq. auto.
  - intros loan. apply returnLoan_already.
Qed.

(** C4.  [returnLoan] on a stored loan whose [returnDate] is null answers
    204; afterwards the loan has a [returnDate], its status is [RETURNED],
    and the copy its [copyId] names, when there is one, has status
    [AVAILABLE]. *)
Theorem returnLoan_returns id o db loan :
  loanById id db = Some loan -> Loan.returnDate loan = None ->
  exists db',
    returnLoan id o db = (send 204, db') /\
    (exists loan',
       loanById id db' = Some loan' /\
       Loan.returnDate loan' <> None /\
       Loan.status loan' = LoanStatus.RETURNED) /\
    (forall c, copyById (Loan.copyId loan) db = Some c ->
       exists c',
         copyById (Loan.copyId loan) db' = Some c' /\
         BookCopy.status c' = CopyStatus.AVAILABLE) /\
    (forall c', copyById (Loan.copyId loan) db' = Some c' ->
       BookCopy.status c' = CopyStatus.AVAILABLE).
Proof.
  intros Hf Hr. eexists. split; [now apply returnLoan_ok with (loan := loan)|].
  unfold loanById, copyById in *. cbn [Db.loans Db.bookCopies
    Db.set_loans Db.set_bookCopies].
  rewrite !findOne_updateOne by auto. rewrite Hf.
  split; [|split].
  - eexists. split; [reflexivity|]. cbn. split; [discriminate | reflexivity].
  - intros c ->. eexists. split; reflexivity.
  - intros c'. destruct (Docs.findOne _ (Db.bookCopies db)); cbn;
      [intros [= <-]; reflexivity | discriminate].
Qed.

(** C5 (as amended).  In a database where copies are told apart by their
    [_id], a [deleteUser] answered 204 leaves no loan and no notification
    whose [userId] is the deleted user; it adds and removes no copy; and
    every copy named by one of the user's loans stored with status
    [BORROWED] or [OVERDUE] is still stored and has status [AVAILABLE]. *)
Theorem deleteUser_cascade id user o db db' :
  NoDup (map BookCopy._id (Db.bookCopies db)) ->
  deleteUser id user o db = (send 204, db') ->
  (forall l, In l (Db.loans db') -> Loan.userId l <> id) /\
  (forall n, In n (Db.notifications db') -> Notification.userId n <> id) /\
  map BookCopy._id (Db.bookCopies db') = map BookCopy._id (Db.bookCopies db) /\
  (forall l,
     In l (Db.loans db) -> Loan.userId l = id ->
     Loan.status l = LoanStatus.BORROWED \/
     Loan.status l = LoanStatus.OVERDUE ->
     (forall c, copyById (Loan.copyId l) db = Some c ->
        exists c',
          copyById (Loan.copyId l) db' = Some c' /\
          BookCopy.status c' = CopyStatus.AVAILABLE) /\
     (forall c', In c' (Db.bookCopies db') ->
        BookCopy._id c' = Loan.copyId l ->
        BookCopy.status c' = CopyStatus.AVAILABLE)).
Proof.
  intros Hnd Hrun.
  destruct (deleteUser_cases id user o db)
    as [(r & Hr & E)|(target & _ & E)]; rewrite E in Hrun.
  - injection Hrun as Hr' _. congruence.
  - injection Hrun as <-.
    assert (Hfree : forall l c',
              In l (Db.loans db) -> Loan.userId l = id ->
              Loan.status l = LoanStatus.BORROWED \/
              Loan.status l = LoanStatus.OVERDUE ->
              In c' (Db.bookCopies (afterDelete id target o db)) ->
              BookCopy._id c' = Loan.copyId l ->
              BookCopy.status c' = CopyStatus.AVAILABLE).
    { intros l c' Hl Hu Hs Hc Hid.
      apply afterDelete_frees with (id := id) (target := target) (o := o)
                                   (db := db) (l := l); auto.
      destruct Hs as [Hs|Hs]; rewrite Hs; discriminate. }
    assert (Hids : map BookCopy._id (Db.bookCopies (afterDelete id target o db))
                   = map BookCopy._id (Db.bookCopies db))
      by apply freeCopies_ids.
    split; [|split; [|split; [exact Hids|]]].
    + intros l Hin. apply deleteMany_In in Hin. now apply String.eqb_neq.
    + intros n Hin. apply deleteMany_In in Hin. destruct Hin as [Hin _].
      apply deleteMany_In in Hin. now apply String.eqb_neq.
    + intros l Hl Hu Hs. split; [|intros c'; now apply Hfree].
      intros c Hc. apply afterDelete_stored with (c := c); auto.
      destruct Hs as [Hs|Hs]; rewrite Hs; discriminate.
Qed.

(** C6 (as amended).  In every database reached from one without loans,
    the empty one included, by requests that are served one at a time, each
    handler running to its answer before the next request starts, at most
    one loan with a null [returnDate] references any given copy id. *)
Theorem one_active_loan_per_copy db copyId_ :
  reachable db -> length (activeLoansOf copyId_ (Db.loans db)) <= 1.
Proof. intros Hr. apply inv_unique. now apply reachable_Inv. Qed.

(** C7 (as amended).  A [sendOverdueReminder] answered 204 for a stored
    loan whose [reminderCount] is absent or an integer below 2^53 in
    magnitude, the range in which a JavaScript number counts exactly, sets
    the loan's [reminderCount] to its previous value plus one, an absent
    count standing for zero, and appends exactly one notification, of type
    [OVERDUE_REMINDER] and addressed to the loan's user. *)
Theorem sendOverdueReminder_counts id o db db' loan :
  loanById id db = Some loan ->
  (Z.abs (orZero (Loan.reminderCount loan)) < 2 ^ 53)%Z ->
  sendOverdueReminder id o db = (send 204, db') ->
  isOverdue loan (newDate o 0) = true /\
  (exists loan',
     loanById id db' = Some loan' /\
     Loan.reminderCount loan' =
       Some (match Loan.reminderCount loan with
             | Some n => n + 1
             | None => 1
             end)%Z) /\
  (exists n,
     Db.notifications db' = Db.notifications db ++ [n] /\
     Notification.type n = "OVERDUE_REMINDER" /\
     Notification.userId n = Loan.userId loan).
Proof.
  intros Hf Hsafe Hrun.
  apply sendOverdueReminder_sent in Hrun
    as (loan0 & n & Hf0 & Ho & Ht & Hu & ->).
  rewrite Hf in Hf0. injection Hf0 as <-.
  split; [assumption|]. split.
  - unfold loanById in *. cbn [Db.loans Db.set_loans].
    rewrite findOne_updateOne by auto. rewrite Hf. eexists.
    split; [reflexivity|]. cbn [Loan.reminderCount Loan.set_reminded].
    rewrite JsNumber_add_exact by lia.
    now destruct (Loan.reminderCount loan).
  - exists n. cbn. auto.
Qed.

(** C8 (as amended).  Sending an overdue reminder leaves the persisted
    status of every loan as it was, and the read paths (the two loan
    listings and the dashboard) write nothing to the database. *)
Theorem reminder_keeps_status_reads_write_nothing id userId_ user o db :
  map Loan.status (Db.loans (snd (sendOverdueReminder id o db))) =
    map Loan.status (Db.loans db) /\
  snd (getLoansForUser userId_ user o db) = db /\
  snd (getAdminLoans o db) = db /\
  snd (getDashboardStats o db) = db.
Proof.
  split; [|split; [|split]].
  - destruct (sendOverdueReminder_effect id o db)
      as [_ [->|(count & last & at_ & ->)]]; [reflexivity|].
    now apply updateOne_map_key.
  - apply getLoansForUser_reads.
  - apply getAdminLoans_reads.
  - apply getDashboardStats_reads.
Qed.

(** C10.  For a stored loan that is not overdue, because its [returnDate]
    is set or because its [dueDate] is not a date before the current time,
    [sendOverdueReminder] answers 400 "Only overdue loans can receive
    reminders" and leaves the database, loans and notifications included,
    unchanged. *)
Theorem sendOverdueReminder_only_overdue id o db loan :
  loanById id db = Some loan ->
  (Loan.returnDate loan <> None \/
   ~ (exists t, Date_parse (Loan.dueDate loan) = Some t /\
                (t < newDate o 0)%Z)) ->
  sendOverdueReminder id o db =
    (json 400 (JMessage "Only overdue loans can receive reminders"), db).
Proof.
  intros Hf Hno. apply sendOverdueReminder_refused with (loan := loan);
    [assumption|].
  unfold isOverdue. destruct (Loan.returnDate loan); [reflexivity|].
  destruct Hno as [Hno|Hno]; [congruence|].
  destruct (Date_parse (Loan.dueDate loan)) as [t|]; [|reflexivity].
  cbn. apply Z.ltb_ge. destruct (Z.lt_ge_cases t (newDate o 0)); [|lia].
  exfalso. apply Hno. eauto.
Qed.

End Claims.

(** ** Notification updates *)

Lemma Forall2_updateOne {A} (R : A -> A -> Prop) q set (c : list A) :
  (forall d, R d d) -> (forall d, R d (set d)) ->
  Forall2 R c (Docs.updateOne q set c).
Proof.
  intros Hrefl Hset. induction c as [|x c IH]; cbn; [constructor|].
  destruct (q x); constructor; auto.
  clear IH. induction c; constructor; auto.
Qed.


Lemma Forall2_same {A} (R : A -> A -> Prop) (c : list A) :
  (forall d, R d d) -> Forall2 R c c.
Proof. intros Hrefl. induction c; constructor; auto. Qed.

Section NotificationClaims.
Context `{JsRuntime}.


End NotificationClaims.

(** * Worked examples *)

Section Examples.
#[local] Existing Instance Sample.runtime.
Import Sample.

(** The example of the specification: due on 2024-01-01, not returned,
    read on 2024-06-01. *)
Example overdue_on_june_first :
  map Loan.status
    (enrichLoansWithStatus jun1
       [{| Loan._id := "l2"; Loan.userId := "u1"; Loan.bookId := "b1";
           Loan.copyId := "c1"; Loan.borrowDate := "2023-12-01";
           Loan.dueDate := "2024-01-01"; Loan.returnDate := None;
           Loan.status := LoanStatus.BORROWED; Loan.reminderSent := false;
           Loan.reminderCount := None; Loan.lastReminderAt := None;
           Loan.createdAt := "2023-12-01"; Loan.updatedAt := "2023-12-01" |}])
  = [LoanStatus.OVERDUE].
Proof. reflexivity. Qed.

(** C1, as first stated, fails: a returned loan whose stored status was
    never brought up to date keeps that status, the evaluator does not
    compute [RETURNED]. *)
Lemma enrichLoansWithStatus_trusts_stored_status :
  map Loan.status
    (enrichLoansWithStatus jun1
       [loan1 (Some "2024-03-15T09:30:00.000Z") LoanStatus.BORROWED])
  <> map (specStatus jun1)
       [loan1 (Some "2024-03-15T09:30:00.000Z") LoanStatus.BORROWED].
Proof. vm_compute. discriminate. Defined.

(** C8, as first stated, fails: after a reminder for an overdue loan the
    persisted status is still [BORROWED], while the evaluator reports
    [OVERDUE]. *)
Lemma reminder_leaves_status_stale :
  let after := sendOverdueReminder "l1" (clock jun1) lent in
  fst after = send 204 /\
  map Loan.status (Db.loans (snd after)) = [LoanStatus.BORROWED] /\
  map Loan.status (enrichLoansWithStatus jun1 (Db.loans (snd after)))
    = [LoanStatus.OVERDUE].
Proof. vm_compute. repeat split. Defined.

Lemma createLoan_no_available_copy_lent :
  createLoan "u1" "b1" "2024-04-01" (clock mar20) lent =
    (json 400 (JMessage "No copies available for this book"), lent).
Proof.
  apply createLoan_no_available_copy.
  intros c [<-|[]] _. discriminate.
Defined.

Lemma returnLoan_rejects_back :
  returnLoan "l9" (clock mar20) back =
    (json 404 (JMessage "Loan not found"), back) /\
  returnLoan "l1" (clock mar20) back =
    (json 400 (JMessage "Loan already returned"), back).
Proof.
  split.
  - apply (proj1 (returnLoan_rejects "l9" (clock mar20) back)).
    intros l [<-|[]]. discriminate.
  - apply (proj2 (returnLoan_rejects "l1" (clock mar20) back))
      with (loan := loan1 (Some "2024-03-15T09:30:00.000Z")
                      LoanStatus.RETURNED).
    + reflexivity.
    + discriminate.
Defined.

Lemma returnLoan_returns_lent :
  exists db',
    returnLoan "l1" (clock mar15) lent = (send 204, db') /\
    (exists loan',
       loanById "l1" db' = Some loan' /\
       Loan.returnDate loan' <> None /\
       Loan.status loan' = LoanStatus.RETURNED) /\
    (forall c, copyById "c1" lent = Some c ->
       exists c',
         copyById "c1" db' = Some c' /\
         BookCopy.status c' = CopyStatus.AVAILABLE) /\
    (forall c', copyById "c1" db' = Some c' ->
       BookCopy.status c' = CopyStatus.AVAILABLE).
Proof.
  apply (@returnLoan_returns _ "l1" (clock mar15) lent
           (loan1 None LoanStatus.BORROWED)); reflexivity.
Defined.

(** C5, as first stated, fails: a loan of the user with a null [returnDate]
    that is stored as [RETURNED] is not among the loans [deleteUser] looks
    up, and its copy stays [BORROWED] after the 204. *)
Lemma deleteUser_trusts_stored_status :
  let db := Db.set_loans [loan1 None LoanStatus.RETURNED] lent in
  let after := deleteUser "u1" (Some admin) (clock jun1) db in
  map Loan.userId (Db.loans db) = ["u1"] /\
  map Loan.returnDate (Db.loans db) = [None] /\
  map Loan.copyId (Db.loans db) = ["c1"] /\
  fst after = send 204 /\
  option_map BookCopy.status (copyById "c1" (snd after))
    = Some CopyStatus.BORROWED.
Proof. vm_compute. repeat split. Defined.

Lemma deleteUser_cascade_lent :
  let db' := snd (deleteUser "u1" (Some admin) (clock jun1) lent) in
  (forall l, In l (Db.loans db') -> Loan.userId l <> "u1") /\
  (forall n, In n (Db.notifications db') -> Notification.userId n <> "u1") /\
  map BookCopy._id (Db.bookCopies db') = ["c1"] /\
  (forall l,
     In l (Db.loans lent) -> Loan.userId l = "u1" ->
     Loan.status l = LoanStatus.BORROWED \/
     Loan.status l = LoanStatus.OVERDUE ->
     (forall c, copyById (Loan.copyId l) lent = Some c ->
        exists c',
          copyById (Loan.copyId l) db' = Some c' /\
          BookCopy.status c' = CopyStatus.AVAILABLE) /\
     (forall c', In c' (Db.bookCopies db') ->
        BookCopy._id c' = Loan.copyId l ->
        BookCopy.status c' = CopyStatus.AVAILABLE)).
Proof.
  cbv zeta.
  apply (@deleteUser_cascade _ "u1" (Some admin) (clock jun1) lent).
  - repeat constructor. intros [].
  - vm_compute. reflexivity.
Defined.

(** C6, as first stated, fails: when two returns of one loan take turns
    with new loans of its copy, all five requests are answered 201 or 204
    and the copy ends with two loans whose [returnDate] is null. *)
Lemma interleaved_returns_lend_copy_twice :
  let s := Server.run doubleReturn (Server.start shelf) in
  interleaved s /\
  map Loan.returnDate (activeLoansOf "c1" (Db.loans (Server.db s)))
    = [None; None] /\
  ~ length (activeLoansOf "c1" (Db.loans (Server.db s))) <= 1.
Proof.
  cbv zeta. split; [|split].
  - apply interleaved_run, interleaved_start.
    split; [reflexivity|]. repeat constructor. intros [].
  - vm_compute. reflexivity.
  - vm_compute. intros Hle. inversion Hle as [|? Hle']. inversion Hle'.
Defined.

Lemma one_active_loan_per_copy_borrowed :
  length
    (activeLoansOf "c1"
       (Db.loans
          (snd (handle (CreateLoan "u1" "b1" "2024-04-01") (clock mar15)
                  shelf))))
  <= 1.
Proof.
  apply one_active_loan_per_copy.
  apply reachable_step. apply reachable_initial.
  split; [reflexivity|]. repeat constructor. intros [].
Defined.

(** C7, as first stated, fails: a count of 2^53 is an overdue loan's
    [reminderCount] before the reminder and after it, since 2^53 + 1 is no
    JavaScript number and the sum rounds back to 2^53. *)
Lemma sendOverdueReminder_count_stalls :
  let db := Db.set_loans [reminded 9007199254740992] lent in
  let after := sendOverdueReminder "l1" (clock jun1) db in
  isOverdue (reminded 9007199254740992) jun1 = true /\
  fst after = send 204 /\
  map Loan.reminderCount (Db.loans db) = [Some 9007199254740992%Z] /\
  map Loan.reminderCount (Db.loans (snd after))
    = [Some 9007199254740992%Z] /\
  (9007199254740992 <> 9007199254740992 + 1)%Z.
Proof. vm_compute. repeat split. discriminate. Defined.

Lemma sendOverdueReminder_counts_lent :
  let db' := snd (sendOverdueReminder "l1" (clock jun1) lent) in
  isOverdue (loan1 None LoanStatus.BORROWED) jun1 = true /\
  (exists loan',
     loanById "l1" db' = Some loan' /\
     Loan.reminderCount loan' = Some 1%Z) /\
  (exists n,
     Db.notifications db' = Db.notifications lent ++ [n] /\
     Notification.type n = "OVERDUE_REMINDER" /\
     Notification.userId n = "u1").
Proof.
  cbv zeta.
  apply (@sendOverdueReminder_counts _ "l1" (clock jun1) lent _
           (loan1 None LoanStatus.BORROWED)).
  - reflexivity.
  - cbn. lia.
  - vm_compute. reflexivity.
Defined.

Lemma sendOverdueReminder_only_overdue_early :
  sendOverdueReminder "l1" (clock mar20) lent =
    (json 400 (JMessage "Only overdue loans can receive reminders"), lent).
Proof.
  apply (@sendOverdueReminder_only_overdue _ "l1" (clock mar20) lent
           (loan1 None LoanStatus.BORROWED)).
  - reflexivity.
  - right. intros (t & Ht & Hlt). vm_compute in Ht.
    injection Ht as <-. vm_compute in Hlt. discriminate.
Defined.

End Examples.

(** * Further properties of the handlers *)

Section Lending.
Context `{JsRuntime}.

Lemma existsb_fresh {A} (p : A -> bool) (c : list A) :
  (forall d, In d c -> p d = false) -> existsb p c = false.
Proof.
  intros Hp. apply not_true_is_false. intros Hex.
  apply existsb_exists in Hex. destruct Hex as (d & Hd & Hpd).
  rewrite (Hp d Hd) in Hpd. discriminate.
Qed.

Lemma insertOne_fresh {A} `{Document A} (d : A) (c : list A) :
  (forall x, In x c -> doc_id x <> doc_id d) ->
  Docs.insertOne d c = Some (c ++ [d]).
Proof.
  intros Hf. unfold Docs.insertOne. rewrite existsb_fresh; [reflexivity|].
  intros x Hx. apply String.eqb_neq. auto.
Qed.

Lemma insertOne_Some_fresh {A} `{Document A} (d : A) (c c' : list A) :
  Docs.insertOne d c = Some c' ->
  forall x, In x c -> doc_id x <> doc_id d.
Proof.
  unfold Docs.insertOne. destruct (existsb _ c) eqn:E; [discriminate|].
  intros _ x Hx Heq.
  assert (Hex : existsb (fun x => doc_id x =? doc_id d) c = true).
  { apply existsb_exists. exists x. split; [assumption|].
    now apply String.eqb_eq. }
  congruence.
Qed.

(** What an answer 201 of [createLoan] tells about the run. *)
Lemma createLoan_201 userId_ bookId_ dueDate_ o db r db' :
  createLoan userId_ bookId_ dueDate_ o db = (r, db') ->
  Response.status r = 201 ->
  exists c due l,
    Docs.findOne (availableOf bookId_) (Db.bookCopies db) = Some c /\
    Date_parse dueDate_ = Some due /\
    isNewLoan userId_ bookId_ due o c l /\
    (forall x, In x (Db.loans db) -> Loan._id x <> generateId o 0) /\
    Db.loans db' = Db.loans db ++ [l] /\
    Db.bookCopies db' =
      Docs.updateOne (availableOf bookId_) (reserve o) (Db.bookCopies db) /\
    Db.users db' = Db.users db /\
    Db.books db' = Db.books db.
Proof.
  unfold createLoan. run. fold (availableOf bookId_) (reserve o).
  destruct (Docs.findOne (availableOf bookId_) (Db.bookCopies db))
    as [c|] eqn:Hf; [|intros [= <- _]; discriminate].
  destruct (Date_parse dueDate_) as [due|]; cbn;
    [|intros [= <- _]; discriminate].
  match goal with
  | |- context [Docs.insertOne ?l ?c] =>
      destruct (Docs.insertOne l c) as [ls|] eqn:Hins
  end; cbn; [|intros [= <- _]; discriminate].
  pose proof (insertOne_Some_fresh _ _ Hins) as Hfresh.
  apply insertOne_Some in Hins. subst ls.
  destruct (find (fun b => Book._id b =? bookId_) (Db.books db)); cbn.
  - match goal with
    | |- context [Docs.insertOne ?n ?c] =>
        destruct (Docs.insertOne n c) eqn:?
    end; cbn; [|intros [= <- _]; discriminate].
    intros [= _ <-] _. exists c, due. eexists. cbn.
    repeat split; try reflexivity. exact Hfresh.
  - intros [= _ <-] _. exists c, due. eexists. cbn.
    repeat split; try reflexivity. exact Hfresh.
Qed.

(** X1.  When the book has an available copy, the due date is a date and
    the two fresh identifiers are not taken, [createLoan] answers 201: the
    first available copy of the book is reserved and one unreturned loan of
    that copy, for that user, is appended; users and books are unchanged. *)
Theorem createLoan_succeeds userId_ bookId_ dueDate_ o db c due :
  Docs.findOne (availableOf bookId_) (Db.bookCopies db) = Some c ->
  Date_parse dueDate_ = Some due ->
  (forall x, In x (Db.loans db) -> Loan._id x <> generateId o 0) ->
  (forall n, In n (Db.notifications db) ->
             Notification._id n <> generateId o 1) ->
  exists r db' l,
    createLoan userId_ bookId_ dueDate_ o db = (r, db') /\
    Response.status r = 201 /\
    isNewLoan userId_ bookId_ due o c l /\
    Db.loans db' = Db.loans db ++ [l] /\
    Db.bookCopies db' =
      Docs.updateOne (availableOf bookId_) (reserve o) (Db.bookCopies db) /\
    Db.users db' = Db.users db /\
    Db.books db' = Db.books db.
Proof.
  intros Hf Hd Hl Hn. unfold createLoan. run.
  fold (availableOf bookId_) (reserve o). rewrite Hf, Hd. cbn.
  rewrite insertOne_fresh by exact Hl. cbn.
  destruct (find (fun b => Book._id b =? bookId_) (Db.books db)); cbn.
  - rewrite insertOne_fresh by exact Hn. cbn.
    eexists _, _, _. split; [reflexivity|].
    cbn. repeat split; reflexivity.
  - eexists _, _, _. split; [reflexivity|].
    cbn. repeat split; reflexivity.
Qed.

(** X2.  When a copy is available but the due date is not a date,
    [createLoan] answers 500 after the reservation: no loan and no
    notification is inserted, yet the copy stays [BORROWED]. *)
Theorem createLoan_invalid_date_keeps_reservation
    userId_ bookId_ dueDate_ o db c :
  Docs.findOne (availableOf bookId_) (Db.bookCopies db) = Some c ->
  Date_parse dueDate_ = None ->
  exists db',
    createLoan userId_ bookId_ dueDate_ o db =
      (json 500 (JError "Failed to create loan" "Invalid time value"), db') /\
    Db.loans db' = Db.loans db /\
    Db.notifications db' = Db.notifications db /\
    Db.bookCopies db' =
      Docs.updateOne (availableOf bookId_) (reserve o) (Db.bookCopies db) /\
    In (reserve o c) (Db.bookCopies db') /\
    BookCopy.status (reserve o c) = CopyStatus.BORROWED.
Proof.
  intros Hf Hd. unfold createLoan. run.
  fold (availableOf bookId_) (reserve o). rewrite Hf, Hd. cbn.
  eexists. split; [reflexivity|]. cbn. repeat split.
  destruct (@updateOne_split _ _ (reserve o) _ _ Hf)
    as (pre & post & _ & _ & ->).
  apply in_or_app. cbn. auto.
Qed.

(** What an answer 204 of [returnLoan] tells about the run. *)
Lemma returnLoan_204 id o db db' :
  returnLoan id o db = (send 204, db') ->
  exists loan,
    loanById id db = Some loan /\ Loan.returnDate loan = None.
Proof.
  destruct (loanById id db) as [loan|] eqn:Hf.
  - destruct (Loan.returnDate loan) eqn:Hr; [|eauto].
    erewrite returnLoan_already; eauto; [discriminate | congruence].
  - rewrite returnLoan_not_found by assumption. discriminate.
Qed.

(** X3.  Borrowing and returning undo each other on the copies: after a
    [createLoan] answered 201, [returnLoan] on the new loan answers 204 and
    every copy has the status it had before the loan; the loan stays on
    record as [RETURNED]. *)
Theorem borrow_then_return userId_ bookId_ dueDate_ o o' db r db1 :
  NoDup (map BookCopy._id (Db.bookCopies db)) ->
  createLoan userId_ bookId_ dueDate_ o db = (r, db1) ->
  Response.status r = 201 ->
  exists db2 loan,
    returnLoan (generateId o 0) o' db1 = (send 204, db2) /\
    map BookCopy._id (Db.bookCopies db2) = map BookCopy._id (Db.bookCopies db)
    /\
    map BookCopy.status (Db.bookCopies db2) =
      map BookCopy.status (Db.bookCopies db) /\
    loanById (generateId o 0) db2 = Some loan /\
    Loan.status loan = LoanStatus.RETURNED /\
    Loan.userId loan = userId_.
Proof.
  intros Hnd Hrun H201.
  destruct (createLoan_201 _ _ _ _ _ Hrun H201)
    as (c & due & l & Hf & _ & Hnew & Hfresh & Hl & Hc & _ & _).
  destruct Hnew as (Hid & Hu & _ & Hcopy & _ & Hr & _ & _).
  assert (Hfind : loanById (generateId o 0) db1 = Some l).
  { unfold loanById. rewrite Hl.
    rewrite findOne_app_miss.
    - cbn. now rewrite Hid, String.eqb_refl.
    - apply Forall_forall. intros x Hx. apply String.eqb_neq. auto. }
  eexists _, _. split; [now apply returnLoan_ok with (loan := l)|].
  cbn [Db.bookCopies Db.set_bookCopies Db.set_loans].
  split; [|split; [|split]].
  - rewrite Hc, !updateOne_map_key; auto.
  - rewrite Hc, Hcopy.
    destruct (@updateOne_split _ _ (reserve o) _ _ Hf)
      as (pre & post & Hsplit & _ & ->).
    destruct (findOne_In _ _ Hf) as [_ Hav].
    unfold availableOf in Hav. apply andb_true_iff in Hav.
    destruct Hav as [_ Hav].
    assert (Hs : BookCopy.status c = CopyStatus.AVAILABLE)
      by (now destruct (BookCopy.status c)).
    rewrite updateOne_by_key
      by (rewrite map_app; cbn; rewrite Hsplit, map_app in Hnd; exact Hnd).
    assert (Hno : ~ In (BookCopy._id c)
                     (map BookCopy._id pre ++ map BookCopy._id post)).
    { rewrite Hsplit, map_app in Hnd. cbn in Hnd.
      now apply NoDup_remove_2 in Hnd. }
    rewrite Hsplit, map_map, !map_app. cbn. rewrite String.eqb_refl. cbn.
    rewrite Hs. f_equal; [|f_equal]; apply map_ext_in; intros x Hx;
      (destruct (BookCopy._id x =? BookCopy._id c) eqn:E; [|reflexivity]);
      apply String.eqb_eq in E; exfalso; apply Hno; rewrite <- E;
      apply in_or_app; [left|right]; now apply in_map.
  - unfold loanById in *. cbn [Db.loans Db.set_loans Db.set_bookCopies].
    rewrite findOne_updateOne by auto. rewrite Hfind. reflexivity.
  - cbn. auto.
Qed.

(** X4.  A loan is returned once: after a [returnLoan] answered 204, any
    further [returnLoan] of the same id answers 400 and changes nothing. *)
Theorem returnLoan_twice id o o' db db' :
  returnLoan id o db = (send 204, db') ->
  returnLoan id o' db' = (json 400 (JMessage "Loan already returned"), db').
Proof.
  intros Hrun. destruct (returnLoan_204 _ _ _ Hrun) as (loan & Hf & Hr).
  rewrite (returnLoan_ok _ _ _ Hf Hr) in Hrun. injection Hrun as <-.
  eapply returnLoan_already with
    (loan := Loan.set_returned (toISOString (newDate o 0))
               (toISOString (newDate o 1)) loan); [|discriminate].
  unfold loanById in *. cbn [Db.loans Db.set_loans Db.set_bookCopies].
  rewrite findOne_updateOne by auto. now rewrite Hf.
Qed.

End Lending.

Section ReadPaths.
Context `{JsRuntime}.

Lemma countLoans_filter now ls a b :
  countLoans now ls a b =
    (a + length (filter (fun l => active l && negb (isOverdue l now)) ls),
     b + length (filter (fun l => isOverdue l now) ls)).
Proof.
  revert a b. induction ls as [|l ls IH]; intros a b; cbn [countLoans filter].
  - now rewrite !Nat.add_0_r.
  - destruct (Loan.returnDate l) eqn:Er.
    + assert (Ha : active l = false) by (unfold active; now rewrite Er).
      assert (Ho : isOverdue l now = false)
        by (unfold isOverdue; now rewrite Er).
      rewrite Ha, Ho. cbn [andb]. apply IH.
    + assert (Ha : active l = true) by (unfold active; now rewrite Er).
      assert (Ho : isOverdue l now =
                   date_lt (Date_parse (Loan.dueDate l)) now)
        by (unfold isOverdue; now rewrite Er).
      rewrite Ha, Ho.
      destruct (date_lt _ now); cbn [andb negb length]; rewrite IH;
        f_equal; lia.
Qed.

(** X5.  The dashboard counts as overdue exactly the loans that
    [sendOverdueReminder] would accept at that instant, and as active the
    other unreturned loans: together they are the loans with a null
    [returnDate]. *)
Theorem getDashboardStats_counts o db :
  exists activeBooks totalUsers activeLoans overdueLoans recentLoans,
    getDashboardStats o db =
      (json 200 (JStats activeBooks totalUsers activeLoans overdueLoans
                   recentLoans), db) /\
    overdueLoans =
      length (filter (fun l => isOverdue l (newDate o 0)) (Db.loans db)) /\
    activeLoans + overdueLoans = length (filter active (Db.loans db)) /\
    activeBooks = length (filter Book.isActive (Db.books db)) /\
    totalUsers = length (Db.users db).
Proof.
  unfold getDashboardStats, try_catch, bind, countDocuments, findAll,
    aggregate, ret, Docs.countDocuments.
  cbn [docs loans books users].
  assert (Hall : forall A (l : list A), filter (fun _ => true) l = l).
  { intros A l. induction l; cbn; congruence. }
  rewrite !Hall, countLoans_filter. cbn [Nat.add].
  eexists _, _, _, _, _. split; [reflexivity|].
  split; [reflexivity|]. split; [|split; reflexivity].
  induction (Db.loans db) as [|l ls IH]; [reflexivity|].
  cbn [filter].
  assert (Ho : isOverdue l (newDate o 0) = true -> active l = true).
  { unfold isOverdue, active. now destruct (Loan.returnDate l). }
  destruct (active l), (isOverdue l (newDate o 0));
    cbn [andb negb length]; first [lia | discriminate (Ho eq_refl)].
Qed.

Lemma filter_key_length {A} (key : A -> string) (k : string) (c : list A) :
  NoDup (map key c) -> length (filter (fun x => key x =? k) c) <= 1.
Proof.
  induction c as [|x c IH]; cbn; [lia|].
  intros Hnd. inversion Hnd as [|? ? Hnotin Hnd']; subst.
  destruct (key x =? k) eqn:E; [|auto].
  apply String.eqb_eq in E. subst k. cbn.
  assert (Hnone : filter (fun y => key y =? key x) c = []).
  { destruct (filter (fun y => key y =? key x) c) as [|y rest] eqn:Ef;
      [reflexivity|].
    assert (Hy : In y (filter (fun y => key y =? key x) c))
      by (rewrite Ef; now left).
    apply filter_In in Hy. destruct Hy as [Hy Hk].
    apply String.eqb_eq in Hk. exfalso. apply Hnotin. rewrite <- Hk.
    now apply in_map. }
  rewrite Hnone. cbn. lia.
Qed.

Lemma flat_map_length_le {A B} (f : A -> list B) (l : list A) (k : nat) :
  (forall x, In x l -> length (f x) <= k) ->
  length (flat_map f l) <= k * length l.
Proof.
  induction l as [|x l IH]; cbn; intros Hf; [lia|].
  rewrite length_app. specialize (Hf x (or_introl eq_refl)) as Hx.
  assert (IH' : length (flat_map f l) <= k * length l) by auto.
  lia.
Qed.

(** With unique ids, a loan is joined with at most one book, copy and
    user. *)
Lemma lookupUnwind_length db l :
  NoDup (map User._id (Db.users db)) ->
  NoDup (map Book._id (Db.books db)) ->
  NoDup (map BookCopy._id (Db.bookCopies db)) ->
  length (lookupUnwind db l) <= 1.
Proof.
  intros Hu Hb Hc. unfold lookupUnwind.
  pose proof (filter_key_length User._id (Loan.userId l) _ Hu) as Lu.
  pose proof (filter_key_length Book._id (Loan.bookId l) _ Hb) as Lb.
  pose proof (filter_key_length BookCopy._id (Loan.copyId l) _ Hc) as Lc.
  destruct (filter _ (Db.books db)) as [|b [|? ?]]; cbn in *; try lia.
  destruct (filter _ (Db.bookCopies db)) as [|c [|? ?]]; cbn in *; try lia.
  destruct (filter _ (Db.users db)) as [|u [|? ?]]; cbn in *; lia.
Qed.

Lemma lookupUnwind_loan db l r :
  In r (lookupUnwind db l) -> LoanWithRelations.loan r = l.
Proof.
  unfold lookupUnwind. intros Hin.
  apply in_flat_map in Hin. destruct Hin as (b & _ & Hin).
  apply in_flat_map in Hin. destruct Hin as (c & _ & Hin).
  apply in_map_iff in Hin. destruct Hin as (u & <- & _). reflexivity.
Qed.

Lemma sortDesc_In {A} (key : A -> string) (l : list A) x :
  In x (sortDesc key l) <-> In x l.
Proof.
  assert (Hins : forall y m, In x (insertDesc key y m) <-> x = y \/ In x m).
  { intros y m. induction m as [|z m IH]; cbn; [intuition|].
    destruct (String.ltb (key y) (key z)); cbn; rewrite ?IH; intuition. }
  induction l as [|y l IH]; cbn; [tauto|].
  rewrite Hins, IH. intuition.
Qed.

Lemma In_firstn {A} (n : nat) (l : list A) (x : A) :
  In x (firstn n l) -> In x l.
Proof.
  revert l. induction n as [|n IH]; intros [|y l]; cbn; try tauto.
  intros [->|Hin]; auto.
Qed.

(** X6.  With unique user, book and copy ids, the dashboard lists at most
    five recent loans, each of them a loan on record. *)
Theorem getDashboardStats_recent o db a b c d recentLoans :
  NoDup (map User._id (Db.users db)) ->
  NoDup (map Book._id (Db.books db)) ->
  NoDup (map BookCopy._id (Db.bookCopies db)) ->
  fst (getDashboardStats o db) = json 200 (JStats a b c d recentLoans) ->
  length recentLoans <= 5 /\
  forall r, In r recentLoans -> In (LoanWithRelations.loan r) (Db.loans db).
Proof.
  intros Hu Hb Hc. unfold getDashboardStats.
  remember (fun ls => firstn 5 (sortDesc Loan.borrowDate ls)) as stage
    eqn:Hstage.
  unfold try_catch, bind, countDocuments, findAll, aggregate, ret.
  cbn [docs loans books users]. destruct (countLoans _ _ 0 0).
  cbn [fst]. intros [= _ _ _ _ <-]. subst stage. cbv beta. split.
  - etransitivity.
    + apply flat_map_length_le with (k := 1).
      intros l _. now apply lookupUnwind_length.
    + rewrite Nat.mul_1_l. apply firstn_le_length.
  - intros r Hr. apply in_flat_map in Hr. destruct Hr as (l & Hl & Hr).
    rewrite (lookupUnwind_loan _ _ _ Hr).
    apply In_firstn in Hl. now apply sortDesc_In in Hl.
Qed.

Lemma enrich_In {A} `{LoanLike A} now (ls : list A) r :
  In r (enrichLoansWithStatus now ls) ->
  exists r0, In r0 ls /\
    (r = r0 \/ exists s, r = put_status s r0).
Proof.
  unfold enrichLoansWithStatus. intros Hin. apply in_map_iff in Hin.
  destruct Hin as (r0 & <- & Hr0). exists r0. split; [assumption|].
  destruct (truthy _); [now left|].
  destruct (date_lt _ now); right; eauto.
Qed.

(** X7.  The loans of a user are disclosed only to that user or to an
    ADMIN or STAFF requester, and the listing holds only loans of the
    requested user. *)
Theorem getLoansForUser_discloses userId_ user o db results :
  fst (getLoansForUser userId_ user o db) = json 200 (JLoans results) ->
  (exists u, user = Some u /\
     (userId u = userId_ \/ role u = "ADMIN" \/ role u = "STAFF")) /\
  forall r, In r results ->
    Loan.userId (LoanWithRelations.loan r) = userId_ /\
    exists l, In l (Db.loans db) /\ Loan._id l =
                                    Loan._id (LoanWithRelations.loan r).
Proof.
  unfold getLoansForUser, try_catch. destruct user as [u|];
    [|discriminate].
  destruct (userId u =? userId_) eqn:Eown;
    destruct ((role u =? "ADMIN") || (role u =? "STAFF")) eqn:Est;
    cbn [negb andb]; try discriminate.
  all: unfold bind, aggregate, ret; cbn [fst]; intros [= <-].
  all: split;
    [exists u; split; [reflexivity|];
     try (apply String.eqb_eq in Eown; now left);
     apply orb_true_iff in Est; destruct Est as [E|E];
       apply String.eqb_eq in E; auto|].
  all: intros r Hr; apply enrich_In in Hr;
    destruct Hr as (r0 & Hr0 & Hr);
    apply in_flat_map in Hr0; destruct Hr0 as (l & Hl & Hr0);
    apply lookupUnwind_loan in Hr0;
    apply filter_In in Hl; destruct Hl as [Hl Hu];
    apply String.eqb_eq in Hu;
    assert (Hsame : Loan.userId (LoanWithRelations.loan r) = Loan.userId l
                    /\ Loan._id (LoanWithRelations.loan r) = Loan._id l)
      by (destruct Hr as [->|(s & ->)]; cbn; rewrite Hr0; auto);
    destruct Hsame as [-> Hid]; split; [assumption|];
    exists l; auto.
Qed.

(** X8.  Once overdue, always overdue: a loan the evaluator reports
    [OVERDUE] at some time is reported [OVERDUE] at every later time. *)
Theorem enrichLoansWithStatus_overdue_stays (now now' : Z) (loan : Loan.t) :
  (now <= now')%Z ->
  map Loan.status (enrichLoansWithStatus now [loan]) = [LoanStatus.OVERDUE] ->
  map Loan.status (enrichLoansWithStatus now' [loan]) = [LoanStatus.OVERDUE].
Proof.
  intros Hle. unfold enrichLoansWithStatus.
  cbn [map get_returnDate get_dueDate put_status Loan_LoanLike].
  destruct (truthy (Loan.returnDate loan)); [auto|].
  unfold date_lt. destruct (Date_parse (Loan.dueDate loan)) as [t|];
    [|discriminate].
  destruct (t <? now)%Z eqn:E; [|discriminate].
  apply Z.ltb_lt in E. intros _.
  replace (t <? now')%Z with true by (symmetry; apply Z.ltb_lt; lia).
  reflexivity.
Qed.

(** Evaluating twice at the same time changes nothing more: the evaluator
    is idempotent. *)
Lemma enrichLoansWithStatus_idempotent (now : Z) (ls : list Loan.t) :
  enrichLoansWithStatus now (enrichLoansWithStatus now ls) =
  enrichLoansWithStatus now ls.
Proof.
  unfold enrichLoansWithStatus. rewrite map_map. apply map_ext.
  intros loan. cbn [get_returnDate get_dueDate put_status Loan_LoanLike].
  destruct (truthy (Loan.returnDate loan)) eqn:Et; [now rewrite Et|].
  destruct (date_lt (Date_parse (Loan.dueDate loan)) now) eqn:Ed;
    cbn [Loan.returnDate Loan.dueDate Loan.set_status];
    rewrite Et, Ed; reflexivity.
Qed.

End ReadPaths.

Section Reachable.
Context `{JsRuntime}.

(** Where each loan of the store comes from, one request later. *)
Lemma handle_loans req o db l' :
  In l' (Db.loans (snd (handle req o db))) ->
  In l' (Db.loans db) \/
  (exists l count last at_,
     In l (Db.loans db) /\ l' = Loan.set_reminded count last at_ l) \/
  (exists l returned at_,
     In l (Db.loans db) /\ Loan.returnDate l = None /\
     l' = Loan.set_returned returned at_ l) \/
  (Loan.returnDate l' = None /\ Loan.status l' = LoanStatus.BORROWED).
Proof.
  destruct req as [u user| |u b d|id|id| |id user|user|user
                   |id user|user|id user]; cbn [handle].
  - rewrite getLoansForUser_reads. auto.
  - rewrite getAdminLoans_reads. auto.
  - destruct (createLoan_effect u b d o db)
      as [->|(c & _ & _ & [->|(l & -> & Hr & Hs & _)])]; auto.
    intros Hin. apply in_app_or in Hin.
    destruct Hin as [?|[<-|[]]]; auto.
  - destruct (loanById id db) as [loan|] eqn:Hf.
    + destruct (Loan.returnDate loan) eqn:Hr.
      * erewrite returnLoan_already; eauto. congruence.
      * rewrite (returnLoan_ok _ _ _ Hf Hr). cbn. unfold loanById in Hf.
        destruct (@updateOne_split _ _
                    (Loan.set_returned (toISOString (newDate o 0))
                       (toISOString (newDate o 1))) _ _ Hf)
          as (pre & post & Hsplit & _ & ->).
        rewrite Hsplit. intros Hin. apply in_app_or in Hin.
        destruct Hin as [Hin|[<-|Hin]].
        -- left. apply in_or_app. auto.
        -- right. right. left. exists loan. eexists _, _.
           split; [apply in_or_app; cbn; auto|]. auto.
        -- left. apply in_or_app. cbn. auto.
    + rewrite returnLoan_not_found by assumption. auto.
  - destruct (sendOverdueReminder_effect id o db)
      as [_ [->|(count & last & at_ & ->)]]; [auto|].
    intros Hin.
    destruct (updateOne_In _ _ _ _ Hin) as [?|(l & Hl & _ & ->)]; [auto|].
    right. left. exists l, count, last, at_. auto.
  - rewrite getDashboardStats_reads. auto.
  - destruct (deleteUser_cases id user o db)
      as [(r & _ & ->)|(target & _ & ->)]; [auto|].
    cbn. intros Hin. apply deleteMany_In in Hin. left. tauto.
  - rewrite getUserNotifications_reads. auto.
  - rewrite getUnreadCount_reads. auto.
  - destruct (markAsRead_notifications id user db) as [->|(u & _ & ->)];
      auto.
  - destruct (markAllAsRead_notifications user db) as [->|(u & _ & ->)];
      auto.
  - destruct user; cbn; auto.
Qed.

(** X10.  While the handlers of different requests take turns at their
    [await]s, whatever the schedule, copies keep their distinct ids and
    every loan in the store is [BORROWED] with a null [returnDate] or
    [RETURNED] with a [returnDate]: each write to a loan or a copy is one
    update of one document, and each keeps this. *)
Theorem interleaved_stored_status s :
  interleaved s ->
  NoDup (map BookCopy._id (Db.bookCopies (Server.db s))) /\
  forall l, In l (Db.loans (Server.db s)) ->
    (Loan.returnDate l = None /\ Loan.status l = LoanStatus.BORROWED) \/
    (Loan.returnDate l <> None /\ Loan.status l = LoanStatus.RETURNED).
Proof.
  intros Hs. apply interleaved_wellStored in Hs.
  destruct Hs as [[Hnd Hw] _]. split; [exact Hnd | exact Hw].
Qed.

(** X11.  The store never holds the status [OVERDUE]: in every database
    the API reaches from one without loans, a loan is stored [BORROWED]
    with a null [returnDate] or [RETURNED] with a [returnDate]. *)
Theorem reachable_stored_status db l :
  reachable db -> In l (Db.loans db) ->
  (Loan.returnDate l = None /\ Loan.status l = LoanStatus.BORROWED) \/
  (Loan.returnDate l <> None /\ Loan.status l = LoanStatus.RETURNED).
Proof.
  intros Hr. revert l.
  induction Hr as [db [Hl _]|db req o _ IH]; intros l Hin.
  - rewrite Hl in Hin. destruct Hin.
  - destruct (handle_loans _ _ _ _ Hin)
      as [Hold|[(l0 & ? & ? & ? & Hl0 & ->)
               |[(l0 & ? & ? & Hl0 & _ & ->)|[Hn Hs]]]].
    + auto.
    + exact (IH l0 Hl0).
    + right. cbn. split; [discriminate | reflexivity].
    + left. auto.
Qed.

(** X12.  In every database the server reaches, requests taking turns, a
    [deleteUser] that runs without interruption and is answered 204 adds
    and removes no copy, and the copy named by a loan of the user with a
    null [returnDate] is afterwards stored with status [AVAILABLE]. *)
Theorem interleaved_deleteUser_frees id user o s db' l c :
  interleaved s ->
  deleteUser id user o (Server.db s) = (send 204, db') ->
  In l (Db.loans (Server.db s)) ->
  Loan.userId l = id -> Loan.returnDate l = None ->
  copyById (Loan.copyId l) (Server.db s) = Some c ->
  map BookCopy._id (Db.bookCopies db')
    = map BookCopy._id (Db.bookCopies (Server.db s)) /\
  exists c',
    copyById (Loan.copyId l) db' = Some c' /\
    BookCopy.status c' = CopyStatus.AVAILABLE.
Proof.
  intros Hs Hrun Hl Hu Hret Hc. apply interleaved_wellStored in Hs.
  destruct Hs as [[Hnd Hw] _].
  destruct (deleteUser_cases id user o (Server.db s))
    as [(r & Hne & E)|(target & _ & E)]; rewrite E in Hrun.
  - injection Hrun as Hr' _. congruence.
  - injection Hrun as <-. split; [apply freeCopies_ids|].
    apply afterDelete_stored with (c := c); auto.
    destruct (Hw l Hl) as [[_ Hst]|[Hset _]]; [|contradiction].
    rewrite Hst. discriminate.
Qed.

End Reachable.

Section Identity.
Context `{JsRuntime}.

Lemma NoDup_snoc {A} (key : A -> string) (c : list A) (d : A) :
  NoDup (map key c) -> (forall x, In x c -> key x <> key d) ->
  NoDup (map key (c ++ [d])).
Proof.
  intros Hnd Hf. rewrite map_app. cbn.
  apply NoDup_app; [assumption | repeat constructor; intros [] |].
  intros k Hk [<-|[]]. apply in_map_iff in Hk.
  destruct Hk as (x & Hx & Hin). exact (Hf x Hin Hx).
Qed.

Lemma NoDup_insertOne {A} `{Document A} (d : A) (c c' : list A) :
  NoDup (map doc_id c) -> Docs.insertOne d c = Some c' ->
  NoDup (map doc_id c').
Proof.
  intros Hnd Hins. pose proof (insertOne_Some_fresh _ _ Hins) as Hf.
  apply insertOne_Some in Hins. subst c'. now apply NoDup_snoc.
Qed.

Lemma NoDup_map_filter {A} (key : A -> string) (p : A -> bool) c :
  NoDup (map key c) -> NoDup (map key (filter p c)).
Proof.
  induction c as [|x c IH]; cbn; [auto|].
  intros Hnd. inversion Hnd as [|? ? Hnotin Hnd']; subst.
  destruct (p x); cbn; [|auto]. constructor; [|auto].
  intros Hin. apply Hnotin. apply in_map_iff in Hin.
  destruct Hin as (y & Hy & Hin). apply filter_In in Hin.
  apply in_map_iff. exists y. tauto.
Qed.

Lemma NoDup_map_deleteOne {A} (key : A -> string) (q : A -> bool) c :
  NoDup (map key c) -> NoDup (map key (Docs.deleteOne q c)).
Proof.
  induction c as [|x c IH]; cbn; [auto|].
  intros Hnd. inversion Hnd as [|? ? Hnotin Hnd']; subst.
  destruct (q x); cbn; [assumption|]. constructor; [|auto].
  intros Hin. apply Hnotin. apply in_map_iff in Hin.
  destruct Hin as (y & Hy & Hin). apply deleteOne_In in Hin.
  apply in_map_iff. eauto.
Qed.

Lemma updateMany_map_key {A K} (key : A -> K) q set (c : list A) :
  (forall d, key (set d) = key d) ->
  map key (Docs.updateMany q set c) = map key c.
Proof.
  intros Hk. unfold Docs.updateMany. rewrite map_map. apply map_ext.
  intros d. destruct (q d); auto.
Qed.

Lemma createLoan_uniqueIds u b d o db :
  uniqueIds db -> uniqueIds (snd (createLoan u b d o db)).
Proof.
  intros [Hl Hn]. unfold createLoan. run. unfold uniqueIds.
  destruct (Docs.findOne _ (Db.bookCopies db)); [|cbn; auto].
  destruct (Date_parse d); cbn; [|auto].
  match goal with
  | |- context [Docs.insertOne ?l ?c] =>
      destruct (Docs.insertOne l c) as [ls|] eqn:Hins
  end; cbn; [|auto].
  apply (NoDup_insertOne _ _ Hl) in Hins.
  destruct (find _ (Db.books db)); cbn; [|auto].
  match goal with
  | |- context [Docs.insertOne ?n ?c] =>
      destruct (Docs.insertOne n c) as [ns|] eqn:Hins'
  end; cbn; [|auto].
  apply (NoDup_insertOne _ _ Hn) in Hins'. auto.
Qed.

Lemma sendOverdueReminder_uniqueIds id o db :
  uniqueIds db -> uniqueIds (snd (sendOverdueReminder id o db)).
Proof.
  intros [Hl Hn]. unfold sendOverdueReminder. run. unfold uniqueIds.
  destruct (Docs.findOne _ (Db.loans db)) as [loan|]; [|auto].
  destruct (isOverdue loan (newDate o 0)); cbn; [|auto].
  destruct (Docs.findOne _ (Db.users db)); [|cbn; auto].
  destruct (Docs.findOne _ (Db.books db)); [|cbn; auto].
  match goal with
  | |- context [Docs.insertOne ?n ?c] =>
      destruct (Docs.insertOne n c) as [ns|] eqn:Hins
  end; cbn; [|auto].
  apply (NoDup_insertOne _ _ Hn) in Hins.
  split; [|assumption]. rewrite updateOne_map_key; auto.
Qed.

(** X13.  Every request keeps the loans and the notifications told apart
    by their [_id]: a generated identifier that is already taken makes the
    insertion fail instead of storing a second document under it. *)
Theorem handle_uniqueIds req o db :
  uniqueIds db -> uniqueIds (snd (handle req o db)).
Proof.
  intros HU. pose proof HU as [Hl Hn].
  destruct req as [u user| |u b d|id|id| |id user|user|user
                   |id user|user|id user]; cbn [handle].
  - now rewrite getLoansForUser_reads.
  - now rewrite getAdminLoans_reads.
  - now apply createLoan_uniqueIds.
  - destruct (loanById id db) as [loan|] eqn:Hf.
    + destruct (Loan.returnDate loan) eqn:Hr.
      * erewrite returnLoan_already; eauto. congruence.
      * rewrite (returnLoan_ok _ _ _ Hf Hr). split; cbn; [|assumption].
        rewrite updateOne_map_key; auto.
    + now rewrite returnLoan_not_found.
  - now apply sendOverdueReminder_uniqueIds.
  - now rewrite getDashboardStats_reads.
  - destruct (deleteUser_cases id user o db)
      as [(r & _ & ->)|(target & _ & ->)]; [assumption|].
    split; cbn; unfold Docs.deleteMany; auto using NoDup_map_filter.
  - now rewrite getUserNotifications_reads.
  - now rewrite getUnreadCount_reads.
  - destruct (markAsRead_notifications id user db) as [->|(u & _ & ->)];
      [assumption|]. split; cbn; [assumption|].
    rewrite updateOne_map_key; auto.
  - destruct (markAllAsRead_notifications user db) as [->|(u & _ & ->)];
      [assumption|]. split; cbn; [assumption|].
    rewrite updateMany_map_key; auto.
  - destruct user; [|assumption]. split; cbn; [assumption|].
    now apply NoDup_map_deleteOne.
Qed.

(** X14.  A reminder writes nothing but reminder fields: whatever its
    answer, [sendOverdueReminder] leaves users, books and copies as they
    were, keeps every loan in place with its identity, dates, return date
    and status, and appends at most one notification. *)
Theorem sendOverdueReminder_frame id o db :
  let db' := snd (sendOverdueReminder id o db) in
  Db.users db' = Db.users db /\
  Db.books db' = Db.books db /\
  Db.bookCopies db' = Db.bookCopies db /\
  Forall2 sameButReminder (Db.loans db) (Db.loans db') /\
  (Db.notifications db' = Db.notifications db \/
   exists n, Db.notifications db' = Db.notifications db ++ [n]).
Proof.
  assert (Hrefl : forall l, sameButReminder l l)
    by (intros l; unfold sameButReminder; tauto).
  cbv zeta. unfold sendOverdueReminder. run.
  destruct (Docs.findOne _ (Db.loans db)) as [loan|];
    [|repeat split; auto using Forall2_same].
  destruct (isOverdue loan (newDate o 0)); cbn;
    [|repeat split; auto using Forall2_same].
  destruct (Docs.findOne _ (Db.users db));
    [|cbn; repeat split; auto using Forall2_same].
  destruct (Docs.findOne _ (Db.books db));
    [|cbn; repeat split; auto using Forall2_same].
  match goal with
  | |- context [Docs.insertOne ?n ?c] =>
      destruct (Docs.insertOne n c) as [ns|] eqn:Hins
  end; cbn; [|repeat split; auto using Forall2_same].
  apply insertOne_Some in Hins. subst ns.
  repeat split; eauto.
  apply Forall2_updateOne; [assumption|].
  intros l. unfold sameButReminder. cbn. tauto.
Qed.

End Identity.

Section Deletion.
Context `{JsRuntime}.

Lemma deleteOne_by_key_gone {A} (key : A -> string) (k : string)
    (c : list A) x :
  NoDup (map key c) ->
  In x (Docs.deleteOne (fun y => key y =? k) c) -> key x <> k.
Proof.
  induction c as [|y c IH]; cbn; [tauto|].
  intros Hnd. inversion Hnd as [|? ? Hnotin Hnd']; subst.
  destruct (key y =? k) eqn:E.
  - apply String.eqb_eq in E. subst k. intros Hin Heq.
    apply Hnotin. rewrite <- Heq. now apply in_map.
  - intros [<-|Hin]; [now apply String.eqb_neq | auto].
Qed.

Lemma deleteOne_keeps {A} (q : A -> bool) (c : list A) x :
  In x c -> q x = false -> In x (Docs.deleteOne q c).
Proof.
  induction c as [|y c IH]; cbn; [tauto|].
  intros [->|Hin] Hq.
  - rewrite Hq. now left.
  - destruct (q y); [assumption | right; auto].
Qed.

(** X15.  [deleteUser] refuses, with the database unchanged, to delete the
    requester's own account (400) and, for a requester whose role is not
    ADMIN, to delete an ADMIN or STAFF account (403). *)
Theorem deleteUser_refuses id user o db target :
  Docs.findOne (fun u => User._id u =? id) (Db.users db) = Some target ->
  (option_map userId user = Some (User._id target) \/
   (User.role target <> Role.USER /\ option_map role user <> Some "ADMIN")) ->
  exists r,
    deleteUser id user o db = (r, db) /\
    (Response.status r = 400 \/ Response.status r = 403).
Proof.
  intros Hf Hwhy. unfold deleteUser, try_catch. rewrite bind_findOne.
  cbn [docs users]. rewrite Hf.
  destruct (eqUndef (User._id target) (option_map userId user)) eqn:Eself;
    [eexists; split; [reflexivity|]; cbn; auto|].
  destruct Hwhy as [Hself|[Hrole Hreq]].
  { rewrite Hself in Eself. cbn [eqUndef] in Eself.
    rewrite String.eqb_refl in Eself. discriminate. }
  assert (Hnot : eqUndef "ADMIN" (option_map role user) = false).
  { destruct (option_map role user) as [rl|]; [|reflexivity].
    cbn [eqUndef]. apply String.eqb_neq. congruence. }
  rewrite Hnot. cbn [negb]. rewrite !andb_true_r.
  destruct (User.role target); try contradiction;
    cbn; eexists; (split; [reflexivity|]); cbn; auto.
Qed.

(** X16.  With user ids unique, a [deleteUser] answered 204 removes the
    account and no other: no user with that id remains, every other user
    is still on record, and deleting the same id again answers 404. *)
Theorem deleteUser_removes id user user' o o' db db' :
  NoDup (map User._id (Db.users db)) ->
  deleteUser id user o db = (send 204, db') ->
  (forall u, In u (Db.users db') -> User._id u <> id) /\
  (forall u, In u (Db.users db) -> User._id u <> id ->
             In u (Db.users db')) /\
  deleteUser id user' o' db' = (json 404 (JMessage "User not found"), db').
Proof.
  intros Hnd Hrun.
  destruct (deleteUser_cases id user o db)
    as [(r & Hne & E)|(target & _ & E)]; rewrite E in Hrun.
  - injection Hrun as Hr' _. congruence.
  - injection Hrun as <-.
    assert (Hgone : forall u,
              In u (Db.users (afterDelete id target o db)) ->
              User._id u <> id).
    { intros u Hu. cbn in Hu.
      now apply (deleteOne_by_key_gone User._id) in Hu. }
    split; [exact Hgone|]. split.
    + intros u Hu Hneq. cbn. apply deleteOne_keeps; [assumption|].
      now apply String.eqb_neq.
    + unfold deleteUser, try_catch. rewrite bind_findOne.
      rewrite findOne_miss; [reflexivity|].
      intros u Hu. apply String.eqb_neq. auto.
Qed.

(** X17.  The cascade stops at the deleted user: after a [deleteUser]
    answered 204 every loan of another user is still on record, and so is
    every notification of another user that is not a password-reset
    request. *)
Theorem deleteUser_spares id user o db db' :
  deleteUser id user o db = (send 204, db') ->
  (forall l, In l (Db.loans db) -> Loan.userId l <> id ->
             In l (Db.loans db')) /\
  (forall n, In n (Db.notifications db) -> Notification.userId n <> id ->
             Notification.type n <> "PASSWORD_RESET_REQUEST" ->
             In n (Db.notifications db')) /\
  Db.books db' = Db.books db.
Proof.
  intros Hrun.
  destruct (deleteUser_cases id user o db)
    as [(r & Hne & E)|(target & _ & E)]; rewrite E in Hrun.
  - injection Hrun as Hr' _. congruence.
  - injection Hrun as <-. cbn. split; [|split; [|reflexivity]].
    + intros l Hl Hu. apply deleteMany_In. split; [assumption|].
      now apply String.eqb_neq.
    + intros n Hn Hu Ht. apply deleteMany_In. split.
      * apply deleteMany_In. split; [assumption|].
        now apply String.eqb_neq.
      * apply andb_false_iff. left. now apply String.eqb_neq.
Qed.

End Deletion.

Section Inbox.
Context `{JsRuntime}.

Lemma filter_map_commute {A} (p : A -> bool) (f : A -> A) (c : list A) :
  (forall x, p (f x) = p x) ->
  filter p (map f c) = map f (filter p c).
Proof.
  intros Hp. induction c as [|x c IH]; cbn; [reflexivity|].
  rewrite Hp. destruct (p x); cbn; now rewrite IH.
Qed.

Lemma filter_updateOne_frame {A} (p q : A -> bool) (set : A -> A) c :
  (forall x, q x = true -> p x = false) ->
  (forall x, p (set x) = p x) ->
  filter p (Docs.updateOne q set c) = filter p c.
Proof.
  intros Hq Hp. induction c as [|x c IH]; cbn; [reflexivity|].
  destruct (q x) eqn:E; cbn.
  - now rewrite Hp, (Hq x E).
  - now rewrite IH.
Qed.

Lemma filter_deleteOne_frame {A} (p q : A -> bool) c :
  (forall x, q x = true -> p x = false) ->
  filter p (Docs.deleteOne q c) = filter p c.
Proof.
  intros Hq. induction c as [|x c IH]; cbn; [reflexivity|].
  destruct (q x) eqn:E; cbn.
  - now rewrite (Hq x E).
  - now rewrite IH.
Qed.

(** X18.  After [markAllAsRead], [getUnreadCount] of the same user
    answers zero. *)
Theorem markAllAsRead_then_getUnreadCount u db :
  fst (getUnreadCount (Some u) (snd (markAllAsRead (Some u) db)))
  = json 200 (JCount 0).
Proof.
  unfold getUnreadCount, markAllAsRead, try_catch, bind, updateMany,
    countDocuments, ret.
  cbn [docs store notifications fst snd Db.notifications
       Db.set_notifications].
  unfold Docs.countDocuments, Docs.updateMany.
  replace (filter _ (map _ (Db.notifications db))) with
    (@nil Notification.t); [reflexivity|].
  symmetry. induction (Db.notifications db) as [|n ns IH]; cbn;
    [reflexivity|].
  destruct (Notification.userId n =? userId u) eqn:Eu; cbn.
  - destruct (Notification.isRead n) eqn:Er; cbn.
    + rewrite Eu, Er. cbn. exact IH.
    + rewrite Eu. cbn. exact IH.
  - rewrite Eu. cbn. exact IH.
Qed.

(** X19.  A user acts on their own notifications only: whatever id is
    given, [markAsRead], [markAllAsRead] and [deleteNotification] leave the
    notifications of every other user exactly as they were. *)
Theorem notifications_of_others_untouched id u db :
  notificationsOfOthers u (snd (markAsRead id (Some u) db))
    = notificationsOfOthers u db /\
  notificationsOfOthers u (snd (markAllAsRead (Some u) db))
    = notificationsOfOthers u db /\
  notificationsOfOthers u (snd (deleteNotification id (Some u) db))
    = notificationsOfOthers u db.
Proof.
  unfold notificationsOfOthers, markAsRead, markAllAsRead,
    deleteNotification, try_catch, bind, updateOne, updateMany, deleteOne,
    ret.
  cbn [docs store notifications fst snd Db.notifications
       Db.set_notifications].
  split; [|split].
  - apply filter_updateOne_frame; [|reflexivity].
    intros n Hq. apply andb_true_iff in Hq. destruct Hq as [_ ->].
    reflexivity.
  - unfold Docs.updateMany.
    rewrite filter_map_commute.
    + rewrite <- (map_id (filter _ (Db.notifications db))) at 2.
      apply map_ext_in. intros n Hn. apply filter_In in Hn.
      destruct Hn as [_ Hn]. apply negb_true_iff in Hn. now rewrite Hn.
    + intros n. now destruct (_ && _).
  - apply filter_deleteOne_frame.
    intros n Hq. apply andb_true_iff in Hq. destruct Hq as [_ ->].
    reflexivity.
Qed.

(** With unique ids, the query of [markAsRead] matches one notification at
    most, so the update is a map. *)
Lemma updateOne_owned id u set (ns : list Notification.t) :
  NoDup (map Notification._id ns) ->
  Docs.updateOne
    (fun n => (Notification._id n =? id)
              && (Notification.userId n =? userId u)) set ns
  = map (fun n => if (Notification._id n =? id)
                     && (Notification.userId n =? userId u)
                  then set n else n) ns.
Proof.
  induction ns as [|n ns IH]; cbn; [reflexivity|].
  intros Hnd. inversion Hnd as [|? ? Hnotin Hnd']; subst.
  destruct ((Notification._id n =? id)
            && (Notification.userId n =? userId u)) eqn:E.
  - f_equal. apply andb_true_iff in E. destruct E as [E _].
    apply String.eqb_eq in E. subst id.
    rewrite <- (map_id ns) at 1. apply map_ext_in. intros x Hx.
    destruct (Notification._id x =? Notification._id n) eqn:Ex;
      [|reflexivity].
    apply String.eqb_eq in Ex. exfalso. apply Hnotin. rewrite <- Ex.
    now apply in_map.
  - f_equal. now apply IH.
Qed.

(** X20.  With notification ids unique, [markAsRead] on an unread
    notification of the user lowers the user's unread count by exactly
    one. *)
Theorem markAsRead_lowers_unread u n db :
  NoDup (map Notification._id (Db.notifications db)) ->
  In n (Db.notifications db) ->
  Notification.userId n = userId u ->
  Notification.isRead n = false ->
  S (unreadOf u (snd (markAsRead (Notification._id n) (Some u) db)))
  = unreadOf u db.
Proof.
  intros Hnd Hin Hu Hr.
  unfold unreadOf, markAsRead, try_catch, bind, updateOne, ret.
  cbn [docs store notifications fst snd Db.notifications
       Db.set_notifications].
  rewrite updateOne_owned by assumption. unfold Docs.countDocuments.
  set (p := fun x => (Notification.userId x =? userId u)
                     && negb (Notification.isRead x)).
  set (f := fun x => if (Notification._id x =? Notification._id n)
                        && (Notification.userId x =? userId u)
                     then Notification.set_isRead true x else x).
  assert (Hother : forall ns, ~ In (Notification._id n)
                                (map Notification._id ns) ->
                   map f ns = ns).
  { intros ns Hnotin. rewrite <- (map_id ns) at 2. apply map_ext_in.
    intros y Hy. unfold f.
    destruct (Notification._id y =? Notification._id n) eqn:Ey;
      [|reflexivity].
    apply String.eqb_eq in Ey. exfalso. apply Hnotin. rewrite <- Ey.
    now apply in_map. }
  assert (Hpn : p n = true)
    by (unfold p; now rewrite Hu, Hr, String.eqb_refl).
  assert (Hpf : p (f n) = false).
  { unfold p, f. rewrite Hu, !String.eqb_refl. cbn. rewrite Hu.
    now rewrite String.eqb_refl. }
  induction (Db.notifications db) as [|x ns IH]; [destruct Hin|].
  inversion Hnd as [|? ? Hnotin Hnd']; subst.
  cbn [map filter]. destruct Hin as [->|Hin].
  - rewrite Hpf, Hpn, (Hother ns Hnotin). reflexivity.
  - assert (Hfx : f x = x).
    { unfold f. replace (Notification._id x =? Notification._id n)
        with false; [reflexivity|].
      symmetry. apply String.eqb_neq. intros Heq. apply Hnotin.
      rewrite Heq. now apply in_map. }
    rewrite Hfx. destruct (p x); cbn [length];
      rewrite <- (IH Hnd' Hin); reflexivity.
Qed.

(** X21.  With notification ids unique, [deleteNotification] of one of the
    user's notifications removes that notification and nothing else. *)
Theorem deleteNotification_removes u n db :
  NoDup (map Notification._id (Db.notifications db)) ->
  In n (Db.notifications db) ->
  Notification.userId n = userId u ->
  let db' := snd (deleteNotification (Notification._id n) (Some u) db) in
  ~ In n (Db.notifications db') /\
  (forall x, In x (Db.notifications db) -> x <> n ->
             In x (Db.notifications db')) /\
  S (length (Db.notifications db')) = length (Db.notifications db).
Proof.
  intros Hnd Hin Hu. cbv zeta.
  unfold deleteNotification, try_catch, bind, deleteOne, ret.
  cbn [docs store notifications fst snd Db.notifications
       Db.set_notifications].
  induction (Db.notifications db) as [|x ns IH]; [destruct Hin|].
  inversion Hnd as [|? ? Hnotin Hnd']; subst. cbn [Docs.deleteOne].
  destruct Hin as [->|Hin].
  - rewrite Hu, !String.eqb_refl. cbn [andb]. split; [|split].
    + intros Hn. apply Hnotin. now apply in_map.
    + intros y [->|Hy] Hne; [congruence | assumption].
    + reflexivity.
  - assert (Hne : (Notification._id x =? Notification._id n) = false).
    { apply String.eqb_neq. intros Heq. apply Hnotin. rewrite Heq.
      now apply in_map. }
    rewrite Hne. cbn [andb].
    destruct (IH Hnd' Hin) as (Hgone & Hkeep & Hlen). split; [|split].
    + intros [->|Hn]; [|auto].
      rewrite String.eqb_refl in Hne. discriminate.
    + intros y [->|Hy] Hneq; [now left | right; auto].
    + cbn [length]. now rewrite Hlen.
Qed.

Lemma insertDesc_perm {A} (key : A -> string) x (l : list A) :
  Permutation (x :: l) (insertDesc key x l).
Proof.
  induction l as [|y l IH]; cbn; [auto|].
  destruct (String.ltb (key x) (key y)); [|auto].
  etransitivity; [apply perm_swap|]. now constructor.
Qed.

Lemma sortDesc_perm {A} (key : A -> string) (l : list A) :
  Permutation l (sortDesc key l).
Proof.
  induction l as [|x l IH]; cbn; [auto|].
  etransitivity; [|apply insertDesc_perm]. now constructor.
Qed.

Lemma ltb_asym (s t : string) :
  String.ltb s t = true -> String.ltb t s = false.
Proof.
  unfold String.ltb. rewrite (String.compare_antisym t s).
  destruct (String.compare s t); cbn; congruence.
Qed.

Lemma insertDesc_sorted {A} (key : A -> string) x (l : list A) :
  Sorted (fun a b => String.ltb (key a) (key b) = false) l ->
  Sorted (fun a b => String.ltb (key a) (key b) = false)
         (insertDesc key x l).
Proof.
  induction l as [|y l IH]; cbn; intros Hs; [repeat constructor|].
  destruct (String.ltb (key x) (key y)) eqn:E.
  - inversion Hs as [|? ? Hs' Hhd]; subst. constructor; [auto|].
    destruct l as [|z l]; cbn.
    + constructor. now apply ltb_asym.
    + destruct (String.ltb (key x) (key z)); constructor.
      * inversion Hhd; assumption.
      * now apply ltb_asym.
  - constructor; [assumption|]. now constructor.
Qed.

Lemma sortDesc_sorted {A} (key : A -> string) (l : list A) :
  Sorted (fun a b => String.ltb (key a) (key b) = false) (sortDesc key l).
Proof.
  induction l as [|x l IH]; cbn; [constructor|].
  now apply insertDesc_sorted.
Qed.

(** X22.  [getUserNotifications] answers with exactly the notifications of
    the requester, each once, newest first. *)
Theorem getUserNotifications_lists u db :
  exists results,
    getUserNotifications (Some u) db = (json 200 (JNotifications results), db)
    /\
    Permutation results
      (filter (fun n => Notification.userId n =? userId u)
              (Db.notifications db)) /\
    Sorted newestFirst results.
Proof.
  eexists. split; [reflexivity|]. split.
  - symmetry. apply sortDesc_perm.
  - apply sortDesc_sorted.
Qed.

End Inbox.

Section AccountFacts.
Context `{JsRuntime} `{JsAccounts}.

(** X23.  [createStaffMember] keeps e-mail addresses unique: an address
    already on record, compared in lower case, is refused with 400 and no
    write, and otherwise at most one account is added, a STAFF account
    stored under the lower-cased address with the hash of the password. *)
Theorem createStaffMember_unique_emails name_ email_ password salt o db :
  NoDup (map User.email (Db.users db)) ->
  let db' := snd (createStaffMember name_ email_ password salt o db) in
  NoDup (map User.email (Db.users db')) /\
  (In (toLowerCase email_) (map User.email (Db.users db)) -> db' = db) /\
  (forall u, In u (Db.users db') ->
     In u (Db.users db) \/
     (User.email u = toLowerCase email_ /\
      User.role u = Role.STAFF /\
      User.status u = UserStatus.ACTIVE /\
      User.passwordHash u = bcrypt_hash password 10 salt)).
Proof.
  intros Hnd. cbv zeta. unfold createStaffMember, try_catch_users.
  rewrite bind_findOne. cbn [docs users].
  destruct (Docs.findOne _ (Db.users db)) as [existing|] eqn:Hf.
  - cbn. auto.
  - assert (Hfresh : forall x, In x (Db.users db) ->
                               User.email x <> toLowerCase email_).
    { intros x Hx. apply String.eqb_neq.
      exact (findOne_None _ _ _ Hf Hx). }
    unfold bind, insertOne, ret. cbn [docs store users].
    match goal with
    | |- context [Docs.insertOne ?d ?c] =>
        destruct (Docs.insertOne d c) as [us|] eqn:Hins
    end; cbn [snd Db.users Db.set_users].
    + apply insertOne_Some in Hins. subst us. split; [|split].
      * now apply NoDup_snoc.
      * intros Hin. apply in_map_iff in Hin.
        destruct Hin as (x & Hx & Hin). now destruct (Hfresh x Hin).
      * intros u Hu. apply in_app_or in Hu.
        destruct Hu as [?|[<-|[]]]; [now left | right].
        cbn. auto.
    + auto.
Qed.

(** X24.  [changePassword] rewrites the stored hash only for an
    authenticated requester who sent a new password of at least six
    characters and whose current password [bcrypt.compare] accepts against
    the stored hash; every other run leaves the database unchanged. *)
Theorem changePassword_needs_proof currentPassword newPassword user salt o
    db r db' :
  changePassword currentPassword newPassword user salt o db = (r, db') ->
  (UsersResponse.status r <> 204 /\ db' = db) \/
  (exists u target cur new,
     r = usersSend 204 /\
     user = Some u /\ currentPassword = Some cur /\ newPassword = Some new /\
     Docs.findOne (fun x => User._id x =? userId u) (Db.users db)
       = Some target /\
     bcrypt_compare cur (User.passwordHash target) = true /\
     6 <= jsLength new /\
     db' = Db.set_users
             (Docs.updateOne (fun x => User._id x =? userId u)
                (UserUpdate.change_password (bcrypt_hash new 10 salt)
                   (toISOString (newDate o 0)))
                (Db.users db))
             db).
Proof.
  unfold changePassword, try_catch_users.
  destruct (truthy (option_map userId user)) eqn:Eu; cbn [negb];
    [|intros [= <- <-]; left; split; [discriminate | reflexivity]].
  destruct (truthy currentPassword) eqn:Ec; cbn [negb orb];
    [|intros [= <- <-]; left; split; [discriminate | reflexivity]].
  destruct (truthy newPassword) eqn:En; cbn [negb];
    [|intros [= <- <-]; left; split; [discriminate | reflexivity]].
  destruct user as [u|]; [|discriminate Eu].
  destruct currentPassword as [cur|]; [|discriminate Ec].
  destruct newPassword as [new|]; [|discriminate En].
  cbn [option_map stringOf].
  destruct (jsLength new <? 6)%nat eqn:El;
    [intros [= <- <-]; left; split; [discriminate | reflexivity]|].
  rewrite bind_findOne. cbn [docs users].
  destruct (Docs.findOne _ (Db.users db)) as [target|] eqn:Hf;
    [|intros [= <- <-]; left; split; [discriminate | reflexivity]].
  destruct (bcrypt_compare cur (User.passwordHash target)) eqn:Eb;
    cbn [negb];
    [|intros [= <- <-]; left; split; [discriminate | reflexivity]].
  intros [= <- <-]. right. exists u, target, cur, new.
  apply Nat.ltb_ge in El. repeat split; auto.
Qed.

Lemma insertMany_notifications (ds : list Notification.t) db :
  insertMany notifications ds db =
    (Ok tt, Db.set_notifications (Db.notifications db ++ ds) db) \/
  exists e db',
    insertMany notifications ds db = (Throw e, db') /\
    Db.users db' = Db.users db.
Proof.
  revert db. induction ds as [|d ds IH]; intros db.
  - left. cbn. rewrite app_nil_r. now destruct db.
  - assert (Hstep :
      insertMany notifications (d :: ds) db =
      match Docs.insertOne d (Db.notifications db) with
      | Some ns => insertMany notifications ds (Db.set_notifications ns db)
      | None => (Throw "E11000 duplicate key error collection", db)
      end).
    { cbn [insertMany]. unfold bind, insertOne.
      cbn [docs store notifications].
      now destruct (Docs.insertOne d (Db.notifications db)). }
    rewrite Hstep.
    destruct (Docs.insertOne d (Db.notifications db)) as [ns|] eqn:Hins.
    + apply insertOne_Some in Hins. subst ns.
      destruct (IH (Db.set_notifications (Db.notifications db ++ [d]) db))
        as [E|(e & db' & E & Hu)]; rewrite E.
      * left. cbn. now rewrite <- app_assoc.
      * right. exists e, db'. split; [reflexivity | exact Hu].
    + right. eexists _, _. split; reflexivity.
Qed.

Lemma mapTurn_spec {A B} (f : nat -> A -> B) (g : A -> B) k (xs : list A) :
  (forall k x, f k x = g x) -> mapTurn f k xs = map g xs.
Proof.
  intros Hfg. revert k. induction xs as [|x xs IH]; intros k; cbn;
    [reflexivity|].
  now rewrite Hfg, IH.
Qed.

Lemma filter_updateOne_map {A B} (p q : A -> bool) (set : A -> A)
    (g : A -> B) c :
  (forall x, p (set x) = p x) -> (forall x, g (set x) = g x) ->
  map g (filter p (Docs.updateOne q set c)) = map g (filter p c).
Proof.
  intros Hp Hg. induction c as [|x c IH]; cbn; [reflexivity|].
  destruct (q x); cbn.
  - rewrite Hp. destruct (p x); cbn; now rewrite ?Hg.
  - destruct (p x); cbn; now rewrite IH.
Qed.

(** What an answer 204 of [requestPasswordReset] tells about the run. *)
Lemma requestPasswordReset_204 email_ o db db' :
  requestPasswordReset email_ o db = (usersSend 204, db') ->
  exists target,
    Docs.findOne (fun u => User.email u =? toLowerCase email_) (Db.users db)
      = Some target /\
    User.role target = Role.USER /\
    Db.users db' =
      Docs.updateOne (fun u => User._id u =? User._id target)
        (UserUpdate.request_reset (toISOString (newDate o 0)))
        (Db.users db) /\
    Db.notifications db' =
      Db.notifications db ++
      mapTurn (resetRequestDoc o target (toISOString (newDate o 1))) 0
        (filter isAdminOrStaff (Db.users db')).
Proof.
  unfold requestPasswordReset, try_catch_users. rewrite bind_findOne.
  cbn [docs users].
  destruct (Docs.findOne _ (Db.users db)) as [target|] eqn:Hf;
    [|discriminate].
  destruct (Role.eqb (User.role target) Role.USER) eqn:Er; cbn [negb];
    [|discriminate].
  unfold bind at 1. unfold updateOne at 1. cbn [docs store users].
  rewrite bind_findAll. cbn [docs users Db.users Db.set_users].
  set (db1 := Db.set_users _ db).
  set (docs_ := mapTurn _ 0 _).
  unfold bind at 1.
  assert (Hrole : User.role target = Role.USER)
    by (now destruct (User.role target)).
  destruct (0 <? length docs_)%nat eqn:El.
  - destruct (insertMany_notifications docs_ db1)
      as [E|(e & db2 & E & _)]; rewrite E; [|discriminate].
    intros [= <-]. exists target. repeat split; auto.
  - apply Nat.ltb_ge in El.
    assert (Hd : docs_ = []) by (destruct docs_; [|cbn in El; lia]; auto).
    intros [= <-]. exists target. repeat split; auto.
    change (Db.notifications db = Db.notifications db ++ docs_).
    now rewrite Hd, app_nil_r.
Qed.

(** X25.  A [requestPasswordReset] answered 204 was made for a USER
    account: it flags that account and appends one unread
    [PASSWORD_RESET_REQUEST] notification for each ADMIN or STAFF account,
    in their order, and nothing else. *)
Theorem requestPasswordReset_notifies email_ o db db' :
  requestPasswordReset email_ o db = (usersSend 204, db') ->
  exists target added,
    Docs.findOne (fun u => User.email u =? toLowerCase email_) (Db.users db)
      = Some target /\
    User.role target = Role.USER /\
    Db.notifications db' = Db.notifications db ++ added /\
    map Notification.userId added =
      map User._id (filter isAdminOrStaff (Db.users db)) /\
    Forall (fun n => Notification.isRead n = false /\
                     Notification.type n = "PASSWORD_RESET_REQUEST" /\
                     Notification.message n = resetRequestMessage target)
           added.
Proof.
  intros Hrun.
  destruct (requestPasswordReset_204 _ _ _ Hrun)
    as (target & Hf & Hrole & Hu & Hn).
  exists target. eexists. split; [exact Hf|]. split; [exact Hrole|].
  split; [exact Hn|]. split.
  - rewrite Hu.
    assert (Hids : forall k xs,
              map Notification.userId
                (mapTurn (resetRequestDoc o target
                            (toISOString (newDate o 1))) k xs)
              = map User._id xs).
    { intros k xs. revert k. induction xs as [|x xs IH]; intros k; cbn;
        [reflexivity | now rewrite IH]. }
    rewrite Hids. apply filter_updateOne_map; reflexivity.
  - assert (Hall : forall now xs k,
              Forall (fun n => Notification.isRead n = false /\
                               Notification.type n = "PASSWORD_RESET_REQUEST"
                               /\ Notification.message n =
                                  resetRequestMessage target)
                     (mapTurn (resetRequestDoc o target now) k xs)).
    { intros now xs. induction xs as [|x xs IH]; intros k; cbn [mapTurn];
        [constructor|].
      constructor; [|apply IH]. cbn. repeat split. }
    apply Hall.
Qed.

(** X26.  Request and reset undo each other on the flag: after a
    [requestPasswordReset] answered 204 the account found under the
    user's id needs a password reset, and a [resetUserPassword] for that id
    answers 204, stores the hash of the new password and clears the flag. *)
Theorem password_reset_round_trip email_ newPassword salt o o' db db1 :
  requestPasswordReset email_ o db = (usersSend 204, db1) ->
  exists target flagged db2 fresh,
    Docs.findOne (fun u => User.email u =? toLowerCase email_) (Db.users db)
      = Some target /\
    Docs.findOne (fun u => User._id u =? User._id target) (Db.users db1)
      = Some flagged /\
    User.needsPasswordReset flagged = true /\
    resetUserPassword (User._id target) newPassword salt o' db1
      = (usersSend 204, db2) /\
    Docs.findOne (fun u => User._id u =? User._id target) (Db.users db2)
      = Some fresh /\
    User.needsPasswordReset fresh = false /\
    User.passwordHash fresh = bcrypt_hash newPassword 10 salt.
Proof.
  intros Hrun.
  destruct (requestPasswordReset_204 _ _ _ Hrun)
    as (target & Hf & _ & Hu & _).
  assert (Hin : exists first,
            Docs.findOne (fun u => User._id u =? User._id target)
              (Db.users db) = Some first).
  { destruct (Docs.findOne (fun u => User._id u =? User._id target)
                (Db.users db)) as [first|] eqn:E; [eauto|].
    destruct (findOne_In _ _ Hf) as [Hin _].
    pose proof (findOne_None _ _ _ E Hin) as Hno.
    cbv beta in Hno. rewrite String.eqb_refl in Hno. discriminate. }
  destruct Hin as (first & Hfirst).
  assert (Hflag :
            Docs.findOne (fun u => User._id u =? User._id target)
              (Db.users db1)
            = Some (UserUpdate.request_reset (toISOString (newDate o 0))
                      first)).
  { rewrite Hu, findOne_updateOne by auto. now rewrite Hfirst. }
  assert (Hreset :
    resetUserPassword (User._id target) newPassword salt o' db1 =
      (usersSend 204,
       Db.set_users
         (Docs.updateOne (fun u => User._id u =? User._id target)
            (UserUpdate.reset_password (bcrypt_hash newPassword 10 salt)
               (toISOString (newDate o' 0)))
            (Db.users db1))
         db1)).
  { unfold resetUserPassword, try_catch_users. rewrite bind_findOne.
    cbn [docs users]. now rewrite Hflag. }
  exists target. eexists _, _, _. split; [exact Hf|].
  split; [exact Hflag|]. split; [reflexivity|].
  split; [exact Hreset|].
  cbn [Db.users Db.set_users]. rewrite findOne_updateOne by auto.
  rewrite Hflag. cbn. auto.
Qed.

End AccountFacts.

Section Frontend.
Context `{JsRuntime}.

Lemma filter_partition_perm {A} (p q : A -> bool) (l : list A) :
  (forall x, q x = negb (p x)) ->
  Permutation (filter p l ++ filter q l) l.
Proof.
  intros Hq. induction l as [|x l IH]; cbn; [constructor|].
  rewrite Hq. destruct (p x); cbn.
  - now constructor.
  - symmetry. apply Permutation_cons_app. now symmetry.
Qed.

(** X27.  The two tabs of the account page split the loans: every loan is
    on the current tab or on the history tab, never on both, and the
    overdue badge counts loans of the current tab. *)
Theorem account_tabs_partition (loans_ : list LoanWithRelations.t) :
  Permutation
    (MyAccount.currentLoans loans_ ++ MyAccount.pastLoans loans_) loans_ /\
  MyAccount.overdueCount loans_ <= length (MyAccount.currentLoans loans_).
Proof.
  split.
  - apply filter_partition_perm. intros x.
    now destruct (MyAccount.statusOf x).
  - unfold MyAccount.overdueCount, MyAccount.currentLoans.
    induction loans_ as [|x l IH]; cbn; [lia|].
    destruct (MyAccount.statusOf x); cbn; lia.
Qed.

(** X28.  On a listing answered by [getLoansForUser] from a database whose
    stored statuses agree with the return dates, none of them the empty
    string, the current tab holds exactly the unreturned loans and the
    history tab exactly the returned ones. *)
Theorem account_tabs_follow_returnDate userId_ user o db results :
  (forall l, In l (Db.loans db) ->
     statusAgrees l /\ Loan.returnDate l <> Some "") ->
  fst (getLoansForUser userId_ user o db) = json 200 (JLoans results) ->
  MyAccount.currentLoans results =
    filter (fun r => active (LoanWithRelations.loan r)) results /\
  MyAccount.pastLoans results =
    filter (fun r => negb (active (LoanWithRelations.loan r))) results.
Proof.
  intros Hok Hrun.
  assert (Hres : forall r, In r results ->
            LoanStatus.eqb (MyAccount.statusOf r) LoanStatus.RETURNED
            = negb (active (LoanWithRelations.loan r))).
  { revert Hrun. unfold getLoansForUser, try_catch.
    destruct user as [u|]; [|discriminate].
    destruct (negb (userId u =? userId_) && _); [discriminate|].
    unfold bind, aggregate, ret. cbn [fst]. intros [= <-] r Hr.
    unfold enrichLoansWithStatus in Hr. apply in_map_iff in Hr.
    destruct Hr as (r0 & <- & Hr0).
    apply in_flat_map in Hr0. destruct Hr0 as (l & Hl & Hr0).
    apply lookupUnwind_loan in Hr0. apply filter_In in Hl.
    destruct Hl as [Hl _]. destruct (Hok l Hl) as [Hagree Hne].
    cbn [get_returnDate get_dueDate put_status LoanWithRelations_LoanLike].
    rewrite Hr0. unfold MyAccount.statusOf, active.
    destruct (Loan.returnDate l) as [s|] eqn:Er.
    - assert (Ht : truthy (Some s) = true).
      { cbn. apply negb_true_iff. apply String.eqb_neq. congruence. }
      rewrite Ht, Hr0, Er.
      rewrite (proj1 Hagree) by (rewrite Er; discriminate). reflexivity.
    - cbn [truthy].
      destruct (date_lt _ (newDate o 0)); cbn; now rewrite Er. }
  unfold MyAccount.currentLoans, MyAccount.pastLoans. split.
  - apply filter_ext_in. intros r Hr. specialize (Hres r Hr).
    destruct (MyAccount.statusOf r), (active (LoanWithRelations.loan r));
      cbn in *; congruence.
  - apply filter_ext_in. intros r Hr. exact (Hres r Hr).
Qed.

Lemma insertDesc_map {A} (key : A -> string) (f : A -> A) x (l : list A) :
  (forall y, key (f y) = key y) ->
  insertDesc key (f x) (map f l) = map f (insertDesc key x l).
Proof.
  intros Hk. induction l as [|y l IH]; cbn; [reflexivity|].
  rewrite !Hk. destruct (String.ltb (key x) (key y)); cbn;
    [now rewrite IH | reflexivity].
Qed.

Lemma sortDesc_map {A} (key : A -> string) (f : A -> A) (l : list A) :
  (forall y, key (f y) = key y) ->
  sortDesc key (map f l) = map f (sortDesc key l).
Proof.
  intros Hk. unfold sortDesc.
  induction l as [|x l IH]; cbn [map fold_right]; [reflexivity|].
  rewrite IH. now apply insertDesc_map.
Qed.

(** X29.  The local update of the account page agrees with the server:
    with notification ids unique, dismissing a notification after a
    successful [markAsRead] leaves the page with the list a reload through
    [getUserNotifications] would give. *)
Theorem dismissNotification_agrees_with_reload u n db shown :
  NoDup (map Notification._id (Db.notifications db)) ->
  fst (getUserNotifications (Some u) db) = json 200 (JNotifications shown) ->
  fst (getUserNotifications (Some u)
         (snd (markAsRead (Notification._id n) (Some u) db)))
  = json 200 (JNotifications (MyAccount.dismissNotification true n shown)).
Proof.
  intros Hnd. unfold getUserNotifications, markAsRead, try_catch, bind,
    findAll, updateOne, ret.
  cbn [docs store notifications fst snd Db.notifications
       Db.set_notifications].
  intros [= <-]. do 2 f_equal.
  rewrite updateOne_owned by assumption.
  rewrite filter_map_commute
    by (intros x; now destruct (_ && _)).
  rewrite sortDesc_map by (intros x; now destruct (_ && _)).
  unfold MyAccount.dismissNotification. apply map_ext_in.
  intros x Hx. apply sortDesc_In in Hx. apply filter_In in Hx.
  destruct Hx as [_ ->]. now rewrite andb_true_r.
Qed.

Lemma unread_readLocally n (ns : list Notification.t) :
  NoDup (map Notification._id ns) -> In n ns ->
  Notification.isRead n = false ->
  S (length (MyAccount.unreadNotifications (Navigation.readLocally n ns)))
  = length (MyAccount.unreadNotifications ns).
Proof.
  unfold MyAccount.unreadNotifications, Navigation.readLocally.
  induction ns as [|x ns IH]; [intros _ []|].
  intros Hnd Hin Hr. inversion Hnd as [|? ? Hnotin Hnd']; subst.
  cbn [map filter]. destruct Hin as [->|Hin].
  - rewrite String.eqb_refl, Hr. cbn. f_equal. f_equal. f_equal.
    rewrite <- (map_id ns) at 2. apply map_ext_in. intros y Hy.
    destruct (Notification._id y =? Notification._id n) eqn:Ey;
      [|reflexivity].
    apply String.eqb_eq in Ey. exfalso. apply Hnotin. rewrite <- Ey.
    now apply in_map.
  - assert (Hne : (Notification._id x =? Notification._id n) = false).
    { apply String.eqb_neq. intros Heq. apply Hnotin. rewrite Heq.
      now apply in_map. }
    rewrite Hne. destruct (negb (Notification.isRead x)); cbn [length];
      rewrite <- (IH Hnd' Hin Hr); reflexivity.
Qed.

Lemma unread_remove n (ns : list Notification.t) :
  NoDup (map Notification._id ns) -> In n ns ->
  length (MyAccount.unreadNotifications
            (filter (fun x => negb (Notification._id x =?
                                    Notification._id n)) ns))
  + (if Notification.isRead n then 0 else 1)
  = length (MyAccount.unreadNotifications ns).
Proof.
  unfold MyAccount.unreadNotifications.
  induction ns as [|x ns IH]; [intros _ []|].
  intros Hnd Hin. inversion Hnd as [|? ? Hnotin Hnd']; subst.
  cbn [filter]. destruct Hin as [->|Hin].
  - rewrite String.eqb_refl. cbn [negb].
    replace (filter (fun x => negb (Notification._id x =?
                                    Notification._id n)) ns) with ns.
    + destruct (Notification.isRead n); cbn; lia.
    + symmetry. rewrite <- (app_nil_r ns) at 2.
      rewrite <- (app_nil_r (filter _ ns)).
      clear IH. induction ns as [|y ns IH]; [reflexivity|]. cbn.
      assert (Hne : (Notification._id y =? Notification._id n) = false).
      { apply String.eqb_neq. intros Heq. apply Hnotin. cbn. now left. }
      rewrite Hne. cbn. f_equal. inversion Hnd'; subst. apply IH; auto.
      * constructor; [|assumption]. intros Hy. apply Hnotin. now right.
      * intros Hy. apply Hnotin. now right.
  - assert (Hne : (Notification._id x =? Notification._id n) = false).
    { apply String.eqb_neq. intros Heq. apply Hnotin. rewrite Heq.
      now apply in_map. }
    rewrite Hne. cbn [negb filter].
    destruct (negb (Notification.isRead x)); cbn [length];
      rewrite <- (IH Hnd' Hin); lia.
Qed.

(** X30.  The bell stays in step with its list: where the listed
    notifications have unique ids and the counter equals the number of
    unread ones, clicking or deleting a listed notification, or marking
    all as read, leaves the counter equal to the number of unread
    notifications listed, whether the API call succeeds or fails. *)
Theorem bell_counter_in_sync apiOk n st :
  NoDup (map Notification._id (Navigation.notifications st)) ->
  In n (Navigation.notifications st) ->
  inSync st ->
  inSync (fst (Navigation.handleNotificationClick apiOk n st)) /\
  inSync (Navigation.deleteNotification apiOk n st) /\
  inSync (Navigation.markAllAsRead apiOk st).
Proof.
  intros Hnd Hin Hsync. unfold inSync in *. split; [|split].
  - unfold Navigation.handleNotificationClick.
    assert (Hst1 :
      Navigation.unreadCount
        (if negb (Notification.isRead n)
         then Navigation.markAsRead apiOk n st else st)
      = Z.of_nat
          (length
             (MyAccount.unreadNotifications
                (Navigation.notifications
                   (if negb (Notification.isRead n)
                    then Navigation.markAsRead apiOk n st else st))))).
    { destruct (Notification.isRead n) eqn:Er; cbn [negb]; [assumption|].
      unfold Navigation.markAsRead. destruct apiOk; [|assumption].
      cbn [Navigation.unreadCount Navigation.notifications].
      pose proof (unread_readLocally n _ Hnd Hin Er). lia. }
    destruct (Navigation.getNotificationRoute n); exact Hst1.
  - unfold Navigation.deleteNotification. destruct apiOk; [|assumption].
    cbn [Navigation.unreadCount Navigation.notifications].
    pose proof (unread_remove n _ Hnd Hin) as Hrem.
    destruct (Notification.isRead n); cbn [negb]; lia.
  - unfold Navigation.markAllAsRead. destruct apiOk; [|assumption].
    cbn [Navigation.unreadCount Navigation.notifications].
    unfold MyAccount.unreadNotifications. clear.
    induction (Navigation.notifications st) as [|x l IH]; [reflexivity|].
    cbn [map filter Notification.isRead Notification.set_isRead negb].
    exact IH.
Qed.

Lemma filter_perm_length {A} (p : A -> bool) (l l' : list A) :
  Permutation l l' -> length (filter p l) = length (filter p l').
Proof.
  induction 1 as [|x l l' _ IH|x y l|l l' l'' _ IH1 _ IH2]; cbn.
  - reflexivity.
  - destruct (p x); cbn; now rewrite IH.
  - destruct (p x), (p y); reflexivity.
  - now rewrite IH1.
Qed.

(** X9.  A bell loaded from the server is in step: the list answered by
    [getUserNotifications] and the count answered by [getUnreadCount] for
    the same user and database agree, the count being the number of unread
    notifications in the list. *)
Theorem bell_loaded_in_sync u db results count st :
  fst (getUserNotifications (Some u) db)
    = json 200 (JNotifications results) ->
  fst (getUnreadCount (Some u) db) = json 200 (JCount count) ->
  inSync (Navigation.loadNotifications (Some (results, count)) st).
Proof.
  unfold getUserNotifications, getUnreadCount, try_catch, bind, findAll,
    countDocuments, ret, Docs.countDocuments.
  cbn [docs notifications fst]. intros [= <-] [= <-].
  unfold inSync. cbn [Navigation.unreadCount Navigation.notifications
                      Navigation.loadNotifications].
  f_equal. unfold MyAccount.unreadNotifications.
  rewrite <- (filter_perm_length _ (sortDesc_perm Notification.createdAt _)).
  induction (Db.notifications db) as [|x l IH]; [reflexivity|].
  cbn [filter]. destruct (Notification.userId x =? userId u); cbn [andb];
    [|exact IH].
  cbn [filter]. destruct (negb (Notification.isRead x)); cbn [length];
    now rewrite IH.
Qed.

End Frontend.

(** * Further worked examples *)

Section MoreExamples.
#[local] Existing Instance Sample.runtime.
#[local] Existing Instance SampleAccounts.accounts.
Import Sample SampleAccounts.

Lemma createLoan_succeeds_shelf :
  exists r db' l,
    createLoan "u1" "b1" "2024-04-01" (clock mar15) shelf = (r, db') /\
    Response.status r = 201 /\
    isNewLoan "u1" "b1" 1711929600000 (clock mar15)
      (copy1 CopyStatus.AVAILABLE) l /\
    Db.loans db' = Db.loans shelf ++ [l] /\
    Db.bookCopies db' =
      Docs.updateOne (availableOf "b1") (reserve (clock mar15))
        (Db.bookCopies shelf) /\
    Db.users db' = Db.users shelf /\
    Db.books db' = Db.books shelf.
Proof.
  apply createLoan_succeeds.
  - reflexivity.
  - reflexivity.
  - intros x [].
  - intros n [].
Defined.

Lemma createLoan_invalid_date_keeps_reservation_shelf :
  exists db',
    createLoan "u1" "b1" "next week" (clock mar15) shelf =
      (json 500 (JError "Failed to create loan" "Invalid time value"), db') /\
    Db.loans db' = Db.loans shelf /\
    Db.notifications db' = Db.notifications shelf /\
    Db.bookCopies db' =
      Docs.updateOne (availableOf "b1") (reserve (clock mar15))
        (Db.bookCopies shelf) /\
    In (reserve (clock mar15) (copy1 CopyStatus.AVAILABLE))
       (Db.bookCopies db') /\
    BookCopy.status (reserve (clock mar15) (copy1 CopyStatus.AVAILABLE))
      = CopyStatus.BORROWED.
Proof.
  apply createLoan_invalid_date_keeps_reservation; reflexivity.
Defined.

Lemma borrow_then_return_shelf :
  let run := createLoan "u1" "b1" "2024-04-01" (clock mar15) shelf in
  exists db2 loan,
    returnLoan (generateId (clock mar15) 0) (clock mar20) (snd run)
      = (send 204, db2) /\
    map BookCopy._id (Db.bookCopies db2)
      = map BookCopy._id (Db.bookCopies shelf) /\
    map BookCopy.status (Db.bookCopies db2)
      = map BookCopy.status (Db.bookCopies shelf) /\
    loanById (generateId (clock mar15) 0) db2 = Some loan /\
    Loan.status loan = LoanStatus.RETURNED /\
    Loan.userId loan = "u1".
Proof.
  cbv zeta.
  apply borrow_then_return
    with (bookId_ := "b1") (dueDate_ := "2024-04-01") (db := shelf)
         (r := fst (createLoan "u1" "b1" "2024-04-01" (clock mar15)
                      shelf)).
  - repeat constructor. intros [].
  - apply surjective_pairing.
  - reflexivity.
Defined.

Lemma returnLoan_twice_lent :
  let db' := snd (returnLoan "l1" (clock mar15) lent) in
  returnLoan "l1" (clock mar20) db' =
    (json 400 (JMessage "Loan already returned"), db').
Proof.
  cbv zeta. apply returnLoan_twice with (o := clock mar15) (db := lent).
  vm_compute. reflexivity.
Defined.

Lemma getDashboardStats_recent_lent :
  length [shownLoan LoanStatus.BORROWED] <= 5 /\
  forall r, In r [shownLoan LoanStatus.BORROWED] ->
            In (LoanWithRelations.loan r) (Db.loans lent).
Proof.
  apply getDashboardStats_recent
    with (o := clock jun1) (a := 1) (b := 1) (c := 0) (d := 1).
  - repeat constructor. intros [].
  - repeat constructor. intros [].
  - repeat constructor. intros [].
  - vm_compute. reflexivity.
Defined.

Lemma getLoansForUser_discloses_alice :
  (exists u, Some aliceToken = Some u /\
     (userId u = "u1" \/ role u = "ADMIN" \/ role u = "STAFF")) /\
  forall r, In r [shownLoan LoanStatus.OVERDUE] ->
    Loan.userId (LoanWithRelations.loan r) = "u1" /\
    exists l, In l (Db.loans lent) /\
              Loan._id l = Loan._id (LoanWithRelations.loan r).
Proof.
  apply getLoansForUser_discloses with (o := clock jun1) (db := lent).
  vm_compute. reflexivity.
Defined.

Lemma enrichLoansWithStatus_overdue_stays_june :
  map Loan.status
    (enrichLoansWithStatus (jun1 + 86400000)
       [loan1 None LoanStatus.BORROWED])
  = [LoanStatus.OVERDUE].
Proof.
  apply enrichLoansWithStatus_overdue_stays with (now := jun1).
  - unfold jun1. lia.
  - reflexivity.
Defined.

(** The database after [alice] borrowed the copy of [shelf]. *)
Lemma reachable_borrowed :
  reachable (snd (handle (CreateLoan "u1" "b1" "2024-04-01") (clock mar15)
                    shelf)).
Proof.
  apply reachable_step. apply reachable_initial.
  split; [reflexivity|]. repeat constructor. intros [].
Qed.

Lemma interleaved_stored_status_doubleReturn :
  let s := Server.run doubleReturn (Server.start shelf) in
  NoDup (map BookCopy._id (Db.bookCopies (Server.db s))) /\
  forall l, In l (Db.loans (Server.db s)) ->
    (Loan.returnDate l = None /\ Loan.status l = LoanStatus.BORROWED) \/
    (Loan.returnDate l <> None /\ Loan.status l = LoanStatus.RETURNED).
Proof.
  cbv zeta. apply interleaved_stored_status.
  apply interleaved_run, interleaved_start.
  split; [reflexivity|]. repeat constructor. intros [].
Defined.

Lemma reachable_stored_status_borrowed :
  Forall (fun l =>
            (Loan.returnDate l = None /\
             Loan.status l = LoanStatus.BORROWED) \/
            (Loan.returnDate l <> None /\
             Loan.status l = LoanStatus.RETURNED))
    (Db.loans (snd (handle (CreateLoan "u1" "b1" "2024-04-01")
                      (clock mar15) shelf))).
Proof.
  apply Forall_forall. intros l. apply reachable_stored_status.
  exact reachable_borrowed.
Defined.

Lemma interleaved_deleteUser_frees_doubleReturn :
  let s := Server.run (firstn 6 doubleReturn) (Server.start shelf) in
  let db' := snd (deleteUser "u1" (Some admin) (clock jun1) (Server.db s)) in
  Forall (fun l =>
            map BookCopy._id (Db.bookCopies db')
              = map BookCopy._id (Db.bookCopies (Server.db s)) /\
            exists c',
              copyById (Loan.copyId l) db' = Some c' /\
              BookCopy.status c' = CopyStatus.AVAILABLE)
    (Db.loans (Server.db s)).
Proof.
  cbv zeta. apply Forall_forall. intros l Hl.
  eapply interleaved_deleteUser_frees
    with (id := "u1") (user := Some admin) (o := clock jun1)
         (c := reserve (clock mar15) (copy1 CopyStatus.AVAILABLE)).
  - apply interleaved_run, interleaved_start.
    split; [reflexivity|]. repeat constructor. intros [].
  - vm_compute. reflexivity.
  - exact Hl.
  - vm_compute in Hl. destruct Hl as [<-|[]]. reflexivity.
  - vm_compute in Hl. destruct Hl as [<-|[]]. reflexivity.
  - vm_compute in Hl. destruct Hl as [<-|[]]. vm_compute. reflexivity.
Defined.

Lemma handle_uniqueIds_lent :
  uniqueIds (snd (handle (SendOverdueReminder "l1") (clock jun1) lent)).
Proof.
  apply handle_uniqueIds.
  split; repeat constructor; intros [].
Defined.

Lemma deleteUser_refuses_staff :
  exists r,
    deleteUser "1" (Some bobToken) (clock jun1) office = (r, office) /\
    (Response.status r = 400 \/ Response.status r = 403).
Proof.
  apply deleteUser_refuses with (target := root).
  - reflexivity.
  - right. split; discriminate.
Defined.

Lemma deleteUser_removes_alice :
  let db' := snd (deleteUser "u1" (Some admin) (clock jun1) office) in
  (forall u, In u (Db.users db') -> User._id u <> "u1") /\
  (forall u, In u (Db.users office) -> User._id u <> "u1" ->
             In u (Db.users db')) /\
  deleteUser "u1" (Some admin) (clock jun1) db'
    = (json 404 (JMessage "User not found"), db').
Proof.
  cbv zeta.
  apply deleteUser_removes with (user := Some admin) (o := clock jun1).
  - repeat constructor; cbn; intuition discriminate.
  - vm_compute. reflexivity.
Defined.

Lemma deleteUser_spares_carol :
  let db' := snd (deleteUser "u1" (Some admin) (clock jun1) office) in
  (forall l, In l (Db.loans office) -> Loan.userId l <> "u1" ->
             In l (Db.loans db')) /\
  (forall n, In n (Db.notifications office) ->
             Notification.userId n <> "u1" ->
             Notification.type n <> "PASSWORD_RESET_REQUEST" ->
             In n (Db.notifications db')) /\
  Db.books db' = Db.books office.
Proof.
  cbv zeta.
  apply deleteUser_spares with (user := Some admin) (o := clock jun1).
  vm_compute. reflexivity.
Defined.

Lemma markAsRead_lowers_unread_alice :
  S (unreadOf aliceToken
       (snd (markAsRead "n1" (Some aliceToken) office)))
  = unreadOf aliceToken office.
Proof.
  apply markAsRead_lowers_unread with (n := note1).
  - repeat constructor; cbn; intuition discriminate.
  - now left.
  - reflexivity.
  - reflexivity.
Defined.

Lemma deleteNotification_removes_alice :
  let db' := snd (deleteNotification "n1" (Some aliceToken) office) in
  ~ In note1 (Db.notifications db') /\
  (forall x, In x (Db.notifications office) -> x <> note1 ->
             In x (Db.notifications db')) /\
  S (length (Db.notifications db')) = length (Db.notifications office).
Proof.
  cbv zeta. apply deleteNotification_removes with (n := note1).
  - repeat constructor; cbn; intuition discriminate.
  - now left.
  - reflexivity.
Defined.

Lemma createStaffMember_unique_emails_office :
  let db' := snd (createStaffMember "Dan" "Dan@Library.edu" "danspass"
                    "salt3" (clock jun1) office) in
  NoDup (map User.email (Db.users db')) /\
  (In (toLowerCase "Dan@Library.edu") (map User.email (Db.users office)) ->
   db' = office) /\
  (forall u, In u (Db.users db') ->
     In u (Db.users office) \/
     (User.email u = toLowerCase "Dan@Library.edu" /\
      User.role u = Role.STAFF /\
      User.status u = UserStatus.ACTIVE /\
      User.passwordHash u = bcrypt_hash "danspass" 10 "salt3")).
Proof.
  apply createStaffMember_unique_emails.
  repeat constructor; cbn; intuition discriminate.
Defined.

Lemma changePassword_needs_proof_carol :
  let run := changePassword (Some "carolpass") (Some "newsecret")
               (Some carolToken) "salt4" (clock jun1) office in
  (UsersResponse.status (fst run) <> 204 /\ snd run = office) \/
  (exists u target cur new,
     fst run = usersSend 204 /\
     Some carolToken = Some u /\ Some "carolpass" = Some cur /\
     Some "newsecret" = Some new /\
     Docs.findOne (fun x => User._id x =? userId u) (Db.users office)
       = Some target /\
     bcrypt_compare cur (User.passwordHash target) = true /\
     6 <= jsLength new /\
     snd run = Db.set_users
                 (Docs.updateOne (fun x => User._id x =? userId u)
                    (UserUpdate.change_password
                       (bcrypt_hash new 10 "salt4")
                       (toISOString (newDate (clock jun1) 0)))
                    (Db.users office))
                 office).
Proof.
  cbv zeta. apply changePassword_needs_proof. apply surjective_pairing.
Defined.

Lemma requestPasswordReset_notifies_carol :
  let db' := snd (requestPasswordReset "Carol@library.edu" (clock jun1)
                    office) in
  exists target added,
    Docs.findOne (fun u => User.email u =? toLowerCase "Carol@library.edu")
      (Db.users office) = Some target /\
    User.role target = Role.USER /\
    Db.notifications db' = Db.notifications office ++ added /\
    map Notification.userId added =
      map User._id (filter isAdminOrStaff (Db.users office)) /\
    Forall (fun n => Notification.isRead n = false /\
                     Notification.type n = "PASSWORD_RESET_REQUEST" /\
                     Notification.message n = resetRequestMessage target)
           added.
Proof.
  cbv zeta. apply requestPasswordReset_notifies with (o := clock jun1).
  vm_compute. reflexivity.
Defined.

Lemma password_reset_round_trip_carol :
  let db1 := snd (requestPasswordReset "carol@library.edu" (clock mar20)
                    office) in
  exists target flagged db2 fresh,
    Docs.findOne (fun u => User.email u =? toLowerCase "carol@library.edu")
      (Db.users office) = Some target /\
    Docs.findOne (fun u => User._id u =? User._id target) (Db.users db1)
      = Some flagged /\
    User.needsPasswordReset flagged = true /\
    resetUserPassword (User._id target) "welcome1" "salt5" (clock jun1) db1
      = (usersSend 204, db2) /\
    Docs.findOne (fun u => User._id u =? User._id target) (Db.users db2)
      = Some fresh /\
    User.needsPasswordReset fresh = false /\
    User.passwordHash fresh = bcrypt_hash "welcome1" 10 "salt5".
Proof.
  cbv zeta. apply password_reset_round_trip with (o := clock mar20).
  vm_compute. reflexivity.
Defined.

Lemma account_tabs_follow_returnDate_alice :
  MyAccount.currentLoans [shownLoan LoanStatus.OVERDUE] =
    filter (fun r => active (LoanWithRelations.loan r))
      [shownLoan LoanStatus.OVERDUE] /\
  MyAccount.pastLoans [shownLoan LoanStatus.OVERDUE] =
    filter (fun r => negb (active (LoanWithRelations.loan r)))
      [shownLoan LoanStatus.OVERDUE].
Proof.
  apply account_tabs_follow_returnDate
    with (userId_ := "u1") (user := Some aliceToken) (o := clock jun1)
         (db := lent).
  - intros l [<-|[]]. split; [|discriminate].
    unfold statusAgrees. cbn. split; [congruence | discriminate].
  - vm_compute. reflexivity.
Defined.

Lemma dismissNotification_agrees_with_reload_alice :
  fst (getUserNotifications (Some aliceToken)
         (snd (markAsRead "n1" (Some aliceToken) office)))
  = json 200
      (JNotifications (MyAccount.dismissNotification true note1 [note1])).
Proof.
  apply dismissNotification_agrees_with_reload with (n := note1).
  - repeat constructor; cbn; intuition discriminate.
  - vm_compute. reflexivity.
Defined.

Lemma bell_counter_in_sync_alice :
  inSync (fst (Navigation.handleNotificationClick true note1 bell)) /\
  inSync (Navigation.deleteNotification true note1 bell) /\
  inSync (Navigation.markAllAsRead true bell).
Proof.
  apply bell_counter_in_sync.
  - repeat constructor. intros [].
  - now left.
  - reflexivity.
Defined.

Lemma bell_loaded_in_sync_alice :
  inSync (Navigation.loadNotifications (Some ([note1], 1%nat)) bell).
Proof.
  apply bell_loaded_in_sync with (u := aliceToken) (db := office);
    vm_compute; reflexivity.
Defined.

End MoreExamples.
